(** * Tasks API (Hono on Cloudflare Workers): a shallow embedding of
      [src/index.ts] and the properties of its request handlers.

    The development follows the source file top to bottom:
    - JSON values and the JavaScript object operations the handlers use
      (property lookup, spread, template-literal conversion, [parseInt]);
    - the KV namespaces [TASKS] and [COMMENTS] with expiring entries;
    - a state-and-exception monad for the asynchronous handlers;
    - the zod schemas and the validator middleware;
    - the rate limiter and the route handlers;
    - the theorems.

    Conventions.  JavaScript strings are modelled by [string]; the numbers
    the program handles are integers (counters, epoch milliseconds, page
    numbers) and are modelled by [Z], with the infinities and [NaN] added
    where [parseInt] and the arithmetic on its results can produce them,
    and with the rounding to a double written out where a number read from
    a request can exceed 2^53.  The KV store's size limits and transport
    failures are outside the model, and so is what the store makes of a
    cursor it did not issue: that is a component of the world the handlers
    run in. *)

From stdpp Require Import base option list gmap strings pretty sorting.
From Stdlib Require Import ZArith String Ascii Lia.

Set Warnings "-register-all".

Open Scope string_scope.
Open Scope Z_scope.
Open Scope list_scope.

(* ===================================================================== *)
(** ** JSON values and JavaScript objects *)
(* ===================================================================== *)

Module Js.

(** A JSON value.  An object keeps its properties in insertion order. *)
Inductive json : Type :=
| JNull
| JBool (b : bool)
| JNum (n : Z)
| JStr (s : string)
| JArr (items : list json)
| JObj (props : list (string * json)).

(** A JavaScript object is its property list. *)
Abbreviation obj := (list (string * json)).

(** [o[k]]; [None] is [undefined]. *)
Fixpoint obj_get (k : string) (o : obj) : option json :=
  match o with
  | [] => None
  | (k', v) :: rest => if String.eqb k k' then Some v else obj_get k rest
  end.

(** [o[k] = v]: an existing property keeps its place, a new one is
    appended. *)
Fixpoint obj_set (k : string) (v : json) (o : obj) : obj :=
  match o with
  | [] => [(k, v)]
  | (k', v') :: rest =>
      if String.eqb k k' then (k, v) :: rest else (k', v') :: obj_set k v rest
  end.

(** [{...dst, ...src}] on property lists: copy the properties of [src] over
    [dst], left to right. *)
Definition obj_assign (dst src : obj) : obj :=
  fold_left (fun acc kv => obj_set kv.1 kv.2 acc) src dst.

(** A JavaScript number as this program meets it: an integer, an infinity
    or [NaN].  Every number of the program comes from [parseInt], from the
    clock, or from a sum, difference or product of such numbers, so none has
    a fractional part; negative zero is identified with zero, which no
    operation of the program tells apart. *)
Inductive jsnum : Type :=
| Fin (n : Z)
| Inf (negative : bool)
| NaN.

(** A natural number rounded to the nearest double: 53 significant bits,
    ties to the even significand.  Below 2^53 every integer is a double. *)
Definition round53 (a : Z) : Z :=
  if a <? 2 ^ 53 then a
  else
    let e := Z.log2 a - 52 in
    let q := a / 2 ^ e in
    let r := a mod 2 ^ e in
    let half := 2 ^ (e - 1) in
    if (half <? r) || ((r =? half) && Z.odd q) then (q + 1) * 2 ^ e
    else q * 2 ^ e.

(** The Number value of an integer: the nearest double, an infinity when
    that would be 2^1024 or beyond. *)
Definition number_value (n : Z) : jsnum :=
  let m := round53 (Z.abs n) in
  if 2 ^ 1024 <=? m then Inf (n <? 0)
  else Fin (if n <? 0 then - m else m).

(** The digits [Number.prototype.toString] prints for a double [d] of 2^53
    or more are the fewest that read back as [d].  With [len] the number
    of decimal digits of [d] and [k] a number of significant digits,
    [candidate] is the multiple of [10^(len - k)] that reads back as [d],
    if there is one: of two such multiples the nearer to [d], and of two
    equally near the one with the even last digit.  [shortest] is the
    candidate for the least [k]; 17 digits always suffice. *)
Definition candidate (d len k : Z) : option Z :=
  let g := 10 ^ (len - k) in
  let lo := d / g * g in
  let hi := lo + g in
  match round53 lo =? d, round53 hi =? d with
  | true, true =>
      if d - lo <? hi - d then Some lo
      else if hi - d <? d - lo then Some hi
      else if Z.even (lo / g) then Some lo else Some hi
  | true, false => Some lo
  | false, true => Some hi
  | false, false => None
  end.

Fixpoint shortest (d len k : Z) (fuel : nat) : Z :=
  match fuel with
  | O => d
  | S fuel =>
      match candidate d len k with
      | Some v => v
      | None => shortest d len (k + 1) fuel
      end
  end.

Fixpoint strip_zeros (rev_digits : list ascii) : list ascii :=
  match rev_digits with
  | "0"%char :: rest => strip_zeros rest
  | _ => rev_digits
  end.

(** A string of digits without its trailing zeros. *)
Definition significand (s : string) : string :=
  string_of_list_ascii (rev (strip_zeros (rev (list_ascii_of_string s)))).

(** The text of a double of 2^53 or more: its shortest digits, followed by
    zeros up to 21 digits in all, in exponent form beyond. *)
Definition big_text (d : Z) : string :=
  let v := shortest d (Z.of_nat (String.length (pretty d))) 1 17 in
  let s := pretty v in
  let n := Z.of_nat (String.length s) in
  if n <=? 21 then s
  else
    match significand s with
    | String a EmptyString => String a ("e+" +:+ pretty (n - 1))
    | String a rest => String a ("." +:+ rest +:+ "e+" +:+ pretty (n - 1))
    | EmptyString => s
    end.

Definition inf_text (negative : bool) : string :=
  if negative then "-Infinity" else "Infinity".

(** [Number.prototype.toString], and the conversion of a number in a
    template literal.  An integer that is not a double -- the exact sum
    [num_add] returns can be one -- is printed as the double it is rounded
    to. *)
Definition num_toString (x : jsnum) : string :=
  match x with
  | Fin n =>
      if Z.abs n <? 2 ^ 53 then pretty n
      else
        match number_value n with
        | Fin d => (if d <? 0 then "-" else "") +:+ big_text (Z.abs d)
        | Inf negative => inf_text negative
        | NaN => "NaN"
        end
  | Inf negative => inf_text negative
  | NaN => "NaN"
  end.

(** [JSON.stringify] of a number inside a response: [NaN] and the
    infinities become [null]. *)
Definition num_json (x : jsnum) : json :=
  match x with
  | Fin n => JNum n
  | Inf _ => JNull
  | NaN => JNull
  end.

(** [x + y].  The program adds 1 to a counter and to a page number.  The
    sum of two integers is kept as it is: a counter that is incremented
    is below the limit of 100, and a page number plus one is only printed,
    in the link to the next page, where [num_toString] rounds it to the
    double the engine holds. *)
Definition num_add (x y : jsnum) : jsnum :=
  match x, y with
  | Fin a, Fin b => Fin (a + b)
  | Inf s, Fin _ => Inf s
  | Fin _, Inf t => Inf t
  | Inf s, Inf t => if Bool.eqb s t then Inf s else NaN
  | _, _ => NaN
  end.

(** [x - y], rounded. *)
Definition num_sub (x y : jsnum) : jsnum :=
  match x, y with
  | Fin a, Fin b => number_value (a - b)
  | Inf s, Fin _ => Inf s
  | Fin _, Inf t => Inf (negb t)
  | Inf s, Inf t => if Bool.eqb s t then NaN else Inf s
  | _, _ => NaN
  end.

(** [x * y], rounded; an infinity times zero is [NaN]. *)
Definition num_mul (x y : jsnum) : jsnum :=
  match x, y with
  | Fin a, Fin b => number_value (a * b)
  | Inf s, Fin b => if b =? 0 then NaN else Inf (xorb s (b <? 0))
  | Fin a, Inf t => if a =? 0 then NaN else Inf (xorb (a <? 0) t)
  | Inf s, Inf t => Inf (xorb s t)
  | _, _ => NaN
  end.

(** [x >= y]; any comparison with [NaN] is false. *)
Definition num_ge (x y : jsnum) : bool :=
  match x, y with
  | Fin a, Fin b => b <=? a
  | Inf false, Fin _ => true
  | Inf false, Inf _ => true
  | Fin _, Inf true => true
  | Inf true, Inf true => true
  | _, _ => false
  end.

(** [x > y]. *)
Definition num_gt (x y : jsnum) : bool :=
  match x, y with
  | Fin a, Fin b => b <? a
  | Inf false, Fin _ => true
  | Inf false, Inf true => true
  | Fin _, Inf true => true
  | _, _ => false
  end.

(** The own enumerable properties that a spread [{...v}] copies out of a
    value: those of an object; the indexed elements of an array or of a
    string; nothing for [null], booleans and numbers. *)
Fixpoint indexed {A} (f : A -> json) (i : nat) (l : list A) : obj :=
  match l with
  | [] => []
  | x :: rest => (pretty i, f x) :: indexed f (S i) rest
  end.

Definition chars (s : string) : list string :=
  map (fun a => String a EmptyString) (list_ascii_of_string s).

Definition spread (v : option json) : obj :=
  match v with
  | Some (JObj o) => o
  | Some (JArr l) => indexed id 0 l
  | Some (JStr s) => indexed JStr 0 (chars s)
  | _ => []
  end.

(** [v.k] for a value [v] that is neither [null] nor [undefined] and a key
    [k] that is not an index or [length]: only objects have it. *)
Definition prop (k : string) (v : json) : option json :=
  match v with
  | JObj o => obj_get k o
  | _ => None
  end.

(** String conversion as a template literal performs it. *)
Fixpoint to_string (v : json) : string :=
  match v with
  | JNull => "null"
  | JBool true => "true"
  | JBool false => "false"
  | JNum n => num_toString (Fin n)
  | JStr s => s
  | JArr l =>
      (fix join (l : list json) : string :=
         match l with
         | [] => ""
         | x :: rest =>
             let elem := match x with JNull => "" | _ => to_string x end in
             match rest with
             | [] => elem
             | _ :: _ => elem +:+ "," +:+ join rest
             end
         end) l
  | JObj _ => "[object Object]"
  end.

Definition interp (v : option json) : string :=
  match v with
  | Some x => to_string x
  | None => "undefined"
  end.

(** Removing a property. *)
Fixpoint obj_del (k : string) (o : obj) : obj :=
  match o with
  | [] => []
  | (k', v') :: rest =>
      if String.eqb k k' then obj_del k rest else (k', v') :: obj_del k rest
  end.

(** The properties [k: e] written after the spreads of an object literal,
    applied in order to [base].  A property whose value is [undefined] is
    dropped when the object is serialised, by [JSON.stringify] and by
    [c.json] alike, so the model removes it. *)
Definition literal (base : obj) (fields : list (string * option json)) : obj :=
  fold_left
    (fun acc kv =>
       match kv.2 with
       | Some v => obj_set kv.1 v acc
       | None => obj_del kv.1 acc
       end)
    fields base.

End Js.

Import Js.

(* ===================================================================== *)
(** ** [parseInt] *)
(* ===================================================================== *)

(** ASCII white space skipped by [parseInt]: tab, line feed, vertical tab,
    form feed, carriage return, space. *)
Definition is_space (a : ascii) : bool :=
  let n := Z.of_N (N_of_ascii a) in
  ((9 <=? n) && (n <=? 13)) || (n =? 32).

Fixpoint skip_space (s : string) : string :=
  match s with
  | String a rest => if is_space a then skip_space rest else s
  | EmptyString => s
  end.

(** The value of a digit in the given radix, if it is one. *)
Definition digit_val (radix : Z) (a : ascii) : option Z :=
  let n := Z.of_N (N_of_ascii a) in
  let d :=
    if (48 <=? n) && (n <=? 57) then Some (n - 48)
    else if (97 <=? n) && (n <=? 122) then Some (n - 87)
    else if (65 <=? n) && (n <=? 90) then Some (n - 55)
    else None in
  match d with
  | Some d => if d <? radix then Some d else None
  | None => None
  end.

(** The longest prefix of digits, read as a number; [None] if it is
    empty. *)
Fixpoint digits (radix : Z) (s : string) (acc : option Z) : option Z :=
  match s with
  | String a rest =>
      match digit_val radix a with
      | Some d =>
          digits radix rest
            (Some (match acc with Some x => x * radix + d | None => d end))
      | None => acc
      end
  | EmptyString => acc
  end.

(** [parseInt(s)] without a radix argument: the digits read as an integer,
    and that integer as a Number. *)
Definition parseInt (s : string) : jsnum :=
  let s := skip_space s in
  let '(neg, s) :=
    match s with
    | String "-" r => (true, r)
    | String "+" r => (false, r)
    | _ => (false, s)
    end in
  let '(radix, s) :=
    match s with
    | String "0" (String "x" r) => (16, r)
    | String "0" (String "X" r) => (16, r)
    | _ => (10, s)
    end in
  match digits radix s None with
  | Some n => number_value (if neg then - n else n)
  | None => NaN
  end.

(* ===================================================================== *)
(** ** The KV namespaces *)
(* ===================================================================== *)

(** The text stored under a key.  Every text this program writes is either
    the [JSON.stringify] of a value, kept here as that value (a counter
    written by [(count + 1).toString()] is the serialisation of the number),
    or the text of a number that is not JSON: the three letters [NaN], or
    [Infinity] with or without a minus sign. *)
Inductive text : Type :=
| Ser (v : json)
| NaNText
| InfinityText (negative : bool).

(** [parseInt] of a stored text: the serialisation of a number reads back
    as that number; every other serialisation starts with a brace, a
    bracket, a quote or a letter. *)
Definition parseInt_text (t : text) : jsnum :=
  match t with
  | Ser (JNum n) => Fin n
  | _ => NaN
  end.

(** [n.toString()] as a stored text. *)
Definition text_of_num (x : jsnum) : text :=
  match x with
  | Fin n => Ser (JNum n)
  | Inf negative => InfinityText negative
  | NaN => NaNText
  end.

(** An entry: the text, the instant (epoch milliseconds) at which it
    expires, and the metadata attached by [put]. *)
Record kv_entry : Type := Entry {
  value : text;
  expiration : option Z;
  metadata : option json
}.

Abbreviation KVNamespace := (gmap string kv_entry).

Definition live (now : Z) (e : kv_entry) : bool :=
  match expiration e with
  | Some t => now <? t
  | None => true
  end.

(** [get(key)]: [None] is [null]. *)
Definition kv_get (kv : KVNamespace) (now : Z) (key : string) : option text :=
  match kv !! key with
  | Some e => if live now e then Some (value e) else None
  | None => None
  end.

Record put_options : Type := PutOptions {
  expirationTtl : option Z;
  put_metadata : option json
}.

Definition no_options : put_options :=
  {| expirationTtl := None; put_metadata := None |}.

(** [put(key, value, options)]; [expirationTtl] is in seconds. *)
Definition kv_put (kv : KVNamespace) (now : Z) (key : string) (v : text)
    (o : put_options) : KVNamespace :=
  <[key := {| value := v;
              expiration := (fun s => now + 1000 * s) <$> expirationTtl o;
              metadata := put_metadata o |}]> kv.

(** [delete(key)]; deleting an absent key does nothing. *)
Definition kv_delete (kv : KVNamespace) (key : string) : KVNamespace :=
  delete key kv.

Definition str_le (a b : string) : Prop := String.leb a b = true.

#[global] Instance str_le_dec (a b : string) : Decision (str_le a b).
Proof. unfold str_le. apply _. Defined.

(** All live keys in lexicographic order. *)
Definition kv_keys (kv : KVNamespace) (now : Z) : list string :=
  merge_sort str_le
    (map fst (filter (fun ke => live now ke.2 = true) (map_to_list kv))).

Record list_options : Type := ListOptions {
  list_limit : jsnum;
  list_cursor : option string;
  list_prefix : option string
}.

(** The number of keys a listing returns at most.  The binding takes the
    limit as a 32-bit integer, for which [NaN] and the infinities count as
    zero and a number out of range is an error ([None]); it leaves out a
    limit that is not positive, and the store then applies its default of
    1000 keys, which is also its maximum: a larger limit is refused
    ([None]). *)
Definition key_count_limit (l : jsnum) : option Z :=
  match l with
  | Fin n =>
      if n <? - 2 ^ 31 then None
      else if n <=? 0 then Some 1000
      else if n <=? 1000 then Some n
      else None
  | Inf _ => Some 1000
  | NaN => Some 1000
  end.

(** How the store resumes a listing: from the text of a cursor and the
    matching keys in order, the keys that are still to be listed, or [None]
    when it refuses the cursor. *)
Definition resumption : Type := string -> list string -> option (list string).

(** [list(options)]: the live keys with the prefix, in key order, from the
    start or from where the store resumes for the cursor, up to the limit.
    [None] is a failed call. *)
Definition kv_list (kv : KVNamespace) (now : Z) (resume : resumption)
    (o : list_options) : option (list string) :=
  let keys :=
    match list_prefix o with
    | Some p => filter (fun k => String.prefix p k = true) (kv_keys kv now)
    | None => kv_keys kv now
    end in
  let rest :=
    match list_cursor o with
    | Some cursor => resume cursor keys
    | None => Some keys
    end in
  match key_count_limit (list_limit o), rest with
  | Some n, Some rest => Some (take (Z.to_nat n) rest)
  | _, _ => None
  end.

(* ===================================================================== *)
(** ** The worker's world and the handler monad *)
(* ===================================================================== *)

(** The bindings of [Env] that are namespaces. *)
Inductive binding : Type := TASKS | COMMENTS.

Record Env : Type := MkEnv {
  tasks_kv : KVNamespace;
  comments_kv : KVNamespace
}.

Definition ns (b : binding) (e : Env) : KVNamespace :=
  match b with
  | TASKS => tasks_kv e
  | COMMENTS => comments_kv e
  end.

Definition set_ns (b : binding) (kv : KVNamespace) (e : Env) : Env :=
  match b with
  | TASKS => {| tasks_kv := kv; comments_kv := comments_kv e |}
  | COMMENTS => {| tasks_kv := tasks_kv e; comments_kv := kv |}
  end.

(** What a handler runs against: the two namespaces; the number [io] of
    I/O events completed so far and the wall clock [clock] read at each of
    them (epoch milliseconds); the identifiers [nanoid] will produce and how
    many were [drawn]; and how the store resumes a listing from a cursor.
    The program never reads a cursor the store issued -- the task listing
    passes the text of the page offset -- so nothing is assumed of
    [resume]: the statements hold whatever the store makes of such a
    text.

    On the Workers runtime the clock a script observes stands still between
    two I/O events: [Date.now()] is the instant of the latest one.  A store
    operation is an I/O event and the store applies it at the instant the
    event completes. *)
Record world : Type := World {
  env : Env;
  io : nat;
  clock : nat -> Z;
  drawn : nat;
  nanoid_source : nat -> string;
  resume : resumption
}.

Definition with_env (e : Env) (w : world) : world :=
  {| env := e; io := io w; clock := clock w;
     drawn := drawn w; nanoid_source := nanoid_source w;
     resume := resume w |}.

Definition tick (w : world) : world :=
  {| env := env w; io := S (io w); clock := clock w;
     drawn := drawn w; nanoid_source := nanoid_source w;
     resume := resume w |}.

Definition time (w : world) : Z := clock w (io w).

(** A thrown exception carries its kind only. *)
Inductive exn : Type := TypeError | SyntaxError | StoreError.

Inductive result (A : Type) : Type :=
| Ok (a : A)
| Throw (e : exn).
Arguments Ok {A} a.
Arguments Throw {A} e.

Definition M (A : Type) : Type := world -> world * result A.

#[global] Instance M_ret : MRet M := fun A a w => (w, Ok a).

#[global] Instance M_bind : MBind M := fun A B f m w =>
  match m w with
  | (w', Ok a) => f a w'
  | (w', Throw e) => (w', Throw e)
  end.

Definition throw {A} (e : exn) : M A := fun w => (w, Throw e).

(** [Date.now()]. *)
Definition Date_now : M Z := fun w => (w, Ok (time w)).

(** [nanoid()]. *)
Definition nanoid : M string := fun w =>
  ({| env := env w; io := io w; clock := clock w;
      drawn := S (drawn w); nanoid_source := nanoid_source w;
      resume := resume w |},
   Ok (nanoid_source w (drawn w))).

(** [await c.env.B.get(key)]. *)
Definition get (b : binding) (key : string) : M (option text) := fun w =>
  let w := tick w in
  (w, Ok (kv_get (ns b (env w)) (time w) key)).

(** [JSON.parse]. *)
Definition JSON_parse (t : text) : M json :=
  match t with
  | Ser v => mret v
  | NaNText => throw SyntaxError
  | InfinityText _ => throw SyntaxError
  end.

(** [await c.env.B.get(key, 'json')]. *)
Definition get_json (b : binding) (key : string) : M (option json) :=
  t ← get b key;
  match t with
  | Some t => v ← JSON_parse t; mret (Some v)
  | None => mret None
  end.

(** [await c.env.B.put(key, value, options)]. *)
Definition put (b : binding) (key : string) (v : text) (o : put_options)
    : M unit := fun w =>
  let w := tick w in
  (with_env (set_ns b (kv_put (ns b (env w)) (time w) key v o) (env w)) w,
   Ok ()).

(** [await c.env.B.delete(key)]. *)
Definition delete_key (b : binding) (key : string) : M unit := fun w =>
  let w := tick w in
  (with_env (set_ns b (kv_delete (ns b (env w)) key) (env w)) w, Ok ()).

(** [await c.env.B.list(options)], giving the key names. *)
Definition list_keys (b : binding) (o : list_options) : M (list string) :=
  fun w =>
  let w := tick w in
  match kv_list (ns b (env w)) (time w) (resume w) o with
  | Some keys => (w, Ok keys)
  | None => (w, Throw StoreError)
  end.

(** [await Promise.all(xs.map(f))]: the calls start in order and, each
    suspending only at its own store read, complete in order. *)
Fixpoint Promise_all_map {A B} (f : A -> M B) (xs : list A) : M (list B) :=
  match xs with
  | [] => mret []
  | x :: rest =>
      y ← f x;
      ys ← Promise_all_map f rest;
      mret (y :: ys)
  end.

(* ===================================================================== *)
(** ** Requests and responses *)
(* ===================================================================== *)

Inductive body : Type :=
| Json (v : json)
| Text (s : string).

Record Response : Type := MkResponse {
  status : Z;
  res_body : body
}.

(** The request as the handlers read it: [c.req.url], [c.req.path],
    [c.req.query()], [c.req.header(name)], and the JSON body. *)
Record Context : Type := MkContext {
  req_url : string;
  req_path : string;
  req_query : list (string * string);
  req_headers : list (string * string);
  req_json : json
}.

Fixpoint assoc (k : string) (l : list (string * string)) : option string :=
  match l with
  | [] => None
  | (k', v) :: rest => if String.eqb k k' then Some v else assoc k rest
  end.

Definition req_header (c : Context) (name : string) : option string :=
  assoc name (req_headers c).

Definition query (c : Context) (name : string) : option string :=
  assoc name (req_query c).

(** [c.json(v, status)]. *)
Definition c_json (v : json) (st : Z) : Response :=
  {| status := st; res_body := Json v |}.

(** [c.text(s, status)]. *)
Definition c_text (s : string) (st : Z) : Response :=
  {| status := st; res_body := Text s |}.

(** [c.notFound()] runs the application's not-found handler.  The source
    never calls [app.notFound], so it is the framework's default one, which
    answers with the plain text [404 Not Found]. *)
Definition c_notFound : Response := c_text "404 Not Found" 404.

(** [app.onError]: any exception that escapes a handler becomes this
    response. *)
Definition onError (e : exn) : Response :=
  c_json (JObj [("error", JStr "Internal Server Error")]) 500.

(** Running a handler under [app.onError]. *)
Definition handle (h : M Response) (w : world) : world * Response :=
  match h w with
  | (w', Ok r) => (w', r)
  | (w', Throw e) => (w', onError e)
  end.

(* ===================================================================== *)
(** ** Schemas (zod) and the validator middleware *)
(* ===================================================================== *)

Module Zod.

(** A validation issue: the violation code, the path of the offending
    value and the message.  The properties that depend on the kind of
    violation ([expected], [received], [minimum], ...) are left out. *)
Record issue : Type := Issue {
  code : string;
  path : list json;
  message : string
}.

Definition issue_json (i : issue) : json :=
  JObj [("code", JStr (code i)); ("path", JArr (path i));
        ("message", JStr (message i))].

(** The name zod gives to the type of a parsed input. *)
Definition type_name (v : option json) : string :=
  match v with
  | None => "undefined"
  | Some JNull => "null"
  | Some (JBool _) => "boolean"
  | Some (JNum _) => "number"
  | Some (JStr _) => "string"
  | Some (JArr _) => "array"
  | Some (JObj _) => "object"
  end.

Definition invalid_type (expected : string) (v : option json)
    (p : list json) : issue :=
  {| code := "invalid_type"; path := p;
     message :=
       match v with
       | None => "Required"
       | _ => "Expected " +:+ expected +:+ ", received " +:+ type_name v
       end |}.

(** A schema parses an input ([None] is [undefined]) found at a path and
    gives the output value together with the issues it raised; the parse
    succeeds when there is no issue. *)
Definition schema : Type := option json -> list json -> option json * list issue.

Inductive check : Type := Min (n : Z) | Max (n : Z).

Definition run_check (s : string) (p : list json) (c : check) : list issue :=
  let len := Z.of_nat (String.length s) in
  match c with
  | Min n =>
      if len <? n then
        [{| code := "too_small"; path := p;
            message := "String must contain at least " +:+ pretty n
                       +:+ " character(s)" |}]
      else []
  | Max n =>
      if n <? len then
        [{| code := "too_big"; path := p;
            message := "String must contain at most " +:+ pretty n
                       +:+ " character(s)" |}]
      else []
  end.

(** [z.string()] followed by [.min(n)] and [.max(n)] checks. *)
Definition string_ (checks : list check) : schema := fun v p =>
  match v with
  | Some (JStr s) => (Some (JStr s), List.concat (map (run_check s p) checks))
  | _ => (None, [invalid_type "string" v p])
  end.

Fixpoint options_text (opts : list string) : string :=
  match opts with
  | [] => ""
  | [o] => "'" +:+ o +:+ "'"
  | o :: rest => "'" +:+ o +:+ "' | " +:+ options_text rest
  end.

(** [z.enum(options)]. *)
Definition enum (opts : list string) : schema := fun v p =>
  match v with
  | Some (JStr s) =>
      if existsb (String.eqb s) opts then (Some (JStr s), [])
      else (None,
            [{| code := "invalid_enum_value"; path := p;
                message := "Invalid enum value. Expected " +:+ options_text opts
                           +:+ ", received '" +:+ s +:+ "'" |}])
  | _ => (None, [invalid_type (options_text opts) v p])
  end.

Fixpoint parse_items (item : schema) (p : list json) (i : nat)
    (l : list json) : list json * list issue :=
  match l with
  | [] => ([], [])
  | x :: rest =>
      let r := item (Some x) (p ++ [JNum (Z.of_nat i)]) in
      let rs := parse_items item p (S i) rest in
      (match r.1 with Some y => y :: rs.1 | None => rs.1 end, r.2 ++ rs.2)
  end.

(** [z.array(item)]. *)
Definition array (item : schema) : schema := fun v p =>
  match v with
  | Some (JArr l) =>
      let r := parse_items item p 0 l in (Some (JArr r.1), r.2)
  | _ => (None, [invalid_type "array" v p])
  end.

(** [s.default(d)]: only [undefined] is replaced by the default. *)
Definition default_ (s : schema) (d : json) : schema := fun v p =>
  match v with
  | None => s (Some d) p
  | Some _ => s v p
  end.

(** [s.optional()]: [undefined] passes through as it is, so a default
    below it is not applied. *)
Definition optional (s : schema) : schema := fun v p =>
  match v with
  | None => (None, [])
  | Some _ => s v p
  end.

(** The shape of a [z.object]. *)
Definition shape : Type := list (string * schema).

Fixpoint parse_shape (sh : shape) (o : obj) (p : list json)
    : list (string * option json) * list issue :=
  match sh with
  | [] => ([], [])
  | (k, s) :: rest =>
      let r := s (obj_get k o) (p ++ [JStr k]) in
      let rs := parse_shape rest o p in
      ((k, r.1) :: rs.1, r.2 ++ rs.2)
  end.

(** [z.object(shape)]: keys outside the shape are stripped; a key of the
    shape is in the output when its parsed value is defined. *)
Definition object (sh : shape) : schema := fun v p =>
  match v with
  | Some (JObj o) =>
      let r := parse_shape sh o p in
      (Some (JObj (literal [] r.1)), r.2)
  | _ => (None, [invalid_type "object" v p])
  end.

(** [object.partial()]. *)
Definition partial (sh : shape) : shape :=
  map (fun ks => (ks.1, optional ks.2)) sh.

Inductive parsed : Type :=
| Success (data : obj)
| Failure (issues : list issue).

(** [safeParse] of an object schema. *)
Definition safeParse (sh : shape) (input : json) : parsed :=
  match object sh (Some input) [] with
  | (Some (JObj data), []) => Success data
  | (_, issues) => Failure issues
  end.

End Zod.

(** [taskSchema]. *)
Definition taskSchema : Zod.shape :=
  [("title", Zod.string_ [Zod.Min 1; Zod.Max 100]);
   ("status",
     Zod.default_ (Zod.enum ["todo"; "in-progress"; "done"]) (JStr "todo"));
   ("priority",
     Zod.default_ (Zod.enum ["low"; "medium"; "high"]) (JStr "medium"));
   ("labels", Zod.default_ (Zod.array (Zod.string_ [])) (JArr []))].

(** [commentSchema]. *)
Definition commentSchema : Zod.shape :=
  [("content", Zod.string_ [Zod.Min 1; Zod.Max 500])].

(** [zValidator('json', schema)] in front of a handler: a body that fails
    the schema is answered with 400 and the serialised parse result, and
    the handler does not run; otherwise the handler receives the parsed
    data, which it reads with [c.req.valid('json')]. *)
Definition zValidator (sh : Zod.shape) (c : Context)
    (handler : obj -> M Response) : M Response :=
  match Zod.safeParse sh (req_json c) with
  | Zod.Success data => handler data
  | Zod.Failure issues =>
      mret (c_json
              (JObj [("success", JBool false);
                     ("error",
                       JObj [("issues", JArr (map Zod.issue_json issues));
                             ("name", JStr "ZodError")])])
              400)
  end.

(* ===================================================================== *)
(** ** The rate limiter *)
(* ===================================================================== *)

(** A header interpolated into a template literal; an absent header is
    [undefined]. *)
Definition interp_header (h : option string) : string :=
  match h with
  | Some s => s
  | None => "undefined"
  end.

Definition rateLimitKey (c : Context) : string :=
  let ip := req_header c "CF-Connecting-IP" in
  "rate_limit:" +:+ interp_header ip.

Definition limit : jsnum := Fin 100.
Definition window : Z := 60.

Definition too_many : Response :=
  c_json (JObj [("error", JStr "Too many requests")]) 429.

(** [rateLimiter(c, next)]. *)
Definition rateLimiter (c : Context) (next : M Response) : M Response :=
  let rateLimitKey := rateLimitKey c in
  count ← get TASKS rateLimitKey;
  let count :=
    match count with
    | Some t => parseInt_text t
    | None => Fin 0
    end in
  if num_ge count limit then mret too_many
  else
    put TASKS rateLimitKey (text_of_num (num_add count (Fin 1)))
      {| expirationTtl := Some window; put_metadata := None |};;
    next.

(* ===================================================================== *)
(** ** Task routes *)
(* ===================================================================== *)

(** [app.post('/api/v1/tasks', ...)], after validation. *)
Definition post_task (c : Context) (valid : obj) : M Response :=
  let title := obj_get "title" valid in
  let status := obj_get "status" valid in
  let priority := obj_get "priority" valid in
  let labels := obj_get "labels" valid in
  taskId ← nanoid;
  createdAt ← Date_now;
  updatedAt ← Date_now;
  let task :=
    literal []
      [("id", Some (JStr taskId));
       ("title", title);
       ("status", status);
       ("priority", priority);
       ("labels", labels);
       ("createdAt", Some (JNum createdAt));
       ("updatedAt", Some (JNum updatedAt));
       ("links",
         Some (JObj
           [("self", JStr (req_url c +:+ "/" +:+ taskId));
            ("comments",
              JStr (req_url c +:+ "/" +:+ taskId +:+ "/comments"))]))] in
  put TASKS taskId (Ser (JObj task))
    {| expirationTtl := None; put_metadata := Some (JObj task) |};;
  mret (c_json (JObj task) 201).

(** A query parameter used as a condition: set and not empty. *)
Definition truthy (s : option string) : bool :=
  match s with
  | Some (String _ _) => true
  | _ => false
  end.

(** [v !== s] for a property [v] and a query parameter [s]. *)
Definition strict_ne (v : option json) (s : option string) : bool :=
  match v, s with
  | Some (JStr a), Some b => negb (String.eqb a b)
  | None, None => false
  | _, _ => true
  end.

(** The callback of [tasks.filter]. *)
Definition keep (status priority : option string) (task : obj) : bool :=
  if truthy status && strict_ne (obj_get "status" task) status then false
  else if truthy priority && strict_ne (obj_get "priority" task) priority
  then false
  else true.

(** The callback of [keys.map]: fetch the record and attach its links.
    Reading [id] off [null] throws, whether the key has no live entry any
    more or the stored text is the JSON [null]. *)
Definition fetch_task (c : Context) (key : string) : M obj :=
  task ← get_json TASKS key;
  match task with
  | None => throw TypeError
  | Some JNull => throw TypeError
  | Some t =>
      let id := interp (prop "id" t) in
      mret (literal (obj_assign [] (spread (Some t)))
              [("links",
                 Some (JObj
                   [("self", JStr (req_path c +:+ "/" +:+ id));
                    ("comments",
                      JStr (req_path c +:+ "/" +:+ id +:+ "/comments"))]))])
  end.

Definition pageNumber (c : Context) : jsnum :=
  parseInt (default "1" (query c "page")).

Definition limitNumber (c : Context) : jsnum :=
  parseInt (default "10" (query c "limit")).

Definition offset (c : Context) : jsnum :=
  num_mul (num_sub (pageNumber c) (Fin 1)) (limitNumber c).

(** The options of the [list] call: the limit, and the text of the offset
    as cursor when the offset is positive. *)
Definition page_options (c : Context) : list_options :=
  {| list_limit := limitNumber c;
     list_cursor :=
       if num_gt (offset c) (Fin 0) then Some (num_toString (offset c))
       else None;
     list_prefix := None |}.

(** The page of records the list handler fetches, before filtering. *)
Definition fetch_page (c : Context) : M (list obj) :=
  keys ← list_keys TASKS (page_options c);
  Promise_all_map (fetch_task c) keys.

Definition page_link (c : Context) (page : jsnum) : string :=
  req_url c +:+ "?page=" +:+ num_toString page
  +:+ "&limit=" +:+ num_toString (limitNumber c).

(** [app.get('/api/v1/tasks', ...)]. *)
Definition get_tasks (c : Context) : M Response :=
  let status := query c "status" in
  let priority := query c "priority" in
  tasks ← fetch_page c;
  let filteredTasks := List.filter (keep status priority) tasks in
  let response :=
    JObj
      [("tasks", JArr (map JObj filteredTasks));
       ("metadata",
         JObj [("total", JNum (Z.of_nat (List.length filteredTasks)));
               ("page", num_json (pageNumber c));
               ("limit", num_json (limitNumber c))]);
       ("links",
         JObj [("self", JStr (req_url c));
               ("next", JStr (page_link c (num_add (pageNumber c) (Fin 1))));
               ("prev",
                 if num_gt (pageNumber c) (Fin 1)
                 then JStr (page_link c (num_sub (pageNumber c) (Fin 1)))
                 else JNull)])] in
  mret (c_json response 200).

Definition item_links (c : Context) : json :=
  JObj [("self", JStr (req_url c));
        ("comments", JStr (req_url c +:+ "/comments"))].

(** [app.get('/api/v1/tasks/:id', ...)]. *)
Definition get_task (c : Context) (taskId : string) : M Response :=
  task ← get TASKS taskId;
  match task with
  | None => mret c_notFound
  | Some task =>
      parsedTask ← JSON_parse task;
      let response :=
        literal (obj_assign [] (spread (Some parsedTask)))
          [("links", Some (item_links c))] in
      mret (c_json (JObj response) 200)
  end.

(** [app.put('/api/v1/tasks/:id', ...)], after validation against
    [taskSchema.partial()]. *)
Definition put_task (c : Context) (taskId : string) (updatedFields : obj)
    : M Response :=
  task ← get TASKS taskId;
  match task with
  | None => mret c_notFound
  | Some task =>
      parsed ← JSON_parse task;
      now ← Date_now;
      let updatedTask :=
        literal
          (obj_assign (obj_assign [] (spread (Some parsed))) updatedFields)
          [("updatedAt", Some (JNum now));
           ("links", Some (item_links c))] in
      put TASKS taskId (Ser (JObj updatedTask)) no_options;;
      mret (c_json (JObj updatedTask) 200)
  end.

(** [app.delete('/api/v1/tasks/:id', ...)]. *)
Definition delete_task (c : Context) (taskId : string) : M Response :=
  delete_key TASKS taskId;;
  mret (c_json (JObj [("message", JStr "Task deleted successfully")]) 200).

(* ===================================================================== *)
(** ** Comment routes *)
(* ===================================================================== *)

(** [s.replace(pat, '')]: the first occurrence of [pat] is removed. *)
Fixpoint remove_first (pat s : string) : string :=
  if String.prefix pat s then
    String.substring (String.length pat)
      (String.length s - String.length pat)%nat s
  else
    match s with
    | String a rest => String a (remove_first pat rest)
    | EmptyString => EmptyString
    end.

(** [app.post('/api/v1/tasks/:id/comments', ...)], after validation. *)
Definition post_comment (c : Context) (taskId : string) (valid : obj)
    : M Response :=
  let content := obj_get "content" valid in
  task ← get TASKS taskId;
  match task with
  | None => mret c_notFound
  | Some _ =>
      commentId ← nanoid;
      createdAt ← Date_now;
      updatedAt ← Date_now;
      let comment :=
        literal []
          [("id", Some (JStr commentId));
           ("taskId", Some (JStr taskId));
           ("content", content);
           ("createdAt", Some (JNum createdAt));
           ("updatedAt", Some (JNum updatedAt));
           ("links",
             Some (JObj
               [("self", JStr (req_url c +:+ "/" +:+ commentId));
                ("task", JStr (remove_first "/comments" (req_url c)))]))] in
      put COMMENTS (taskId +:+ ":" +:+ commentId) (Ser (JObj comment))
        no_options;;
      mret (c_json (JObj comment) 201)
  end.

(* ===================================================================== *)
(** ** The application under [/api/v1] *)
(* ===================================================================== *)

(** The routes of the claims below, with their path parameters. *)
Inductive route : Type :=
| POST_tasks
| GET_tasks
| GET_task (id : string)
| PUT_task (id : string)
| DELETE_task (id : string)
| POST_comments (id : string).

(** The route with its validator, as registered. *)
Definition dispatch (r : route) (c : Context) : M Response :=
  match r with
  | POST_tasks => zValidator taskSchema c (post_task c)
  | GET_tasks => get_tasks c
  | GET_task id => get_task c id
  | PUT_task id => zValidator (Zod.partial taskSchema) c (put_task c id)
  | DELETE_task id => delete_task c id
  | POST_comments id => zValidator commentSchema c (post_comment c id)
  end.

(** A request that has passed the CORS, JWT and CSRF middleware, none of
    which touches the store: it goes through the rate limiter, then the
    route; an exception anywhere is answered by [onError]. *)
Definition api_v1 (r : route) (c : Context) (w : world) : world * Response :=
  handle (rateLimiter c (dispatch r c)) w.

(* ===================================================================== *)
(** ** Vocabulary of the statements *)
(* ===================================================================== *)

(** The counter the rate limiter computes from its read of the store. *)
Definition current_count (c : Context) (w : world) : jsnum :=
  match kv_get (tasks_kv (env (tick w))) (time (tick w)) (rateLimitKey c) with
  | Some t => parseInt_text t
  | None => Fin 0
  end.

(** The world in which the rate limiter calls [next]: the counter has been
    written. *)
Definition counted (c : Context) (w : world) : world :=
  (put TASKS (rateLimitKey c)
     (text_of_num (num_add (current_count c w) (Fin 1)))
     {| expirationTtl := Some window; put_metadata := None |} (tick w)).1.

(** A Task record as the data model describes it. *)
Definition is_string (v : option json) : bool :=
  match v with Some (JStr _) => true | _ => false end.

Definition is_number (v : option json) : bool :=
  match v with Some (JNum _) => true | _ => false end.

Definition is_task_record (v : json) : bool :=
  match v with
  | JObj o =>
      is_string (obj_get "id" o) && is_string (obj_get "title" o)
      && is_string (obj_get "status" o) && is_string (obj_get "priority" o)
      && match obj_get "labels" o with Some (JArr _) => true | _ => false end
      && is_number (obj_get "createdAt" o)
      && is_number (obj_get "updatedAt" o)
  | _ => false
  end.

(** "Every key in the task store maps to a JSON-serialised Task record", at
    a given instant. *)
Definition task_store_invariant (kv : KVNamespace) (now : Z) : Prop :=
  forall k t, kv_get kv now k = Some t ->
    exists v, t = Ser v /\ is_task_record v = true.

(** The validation error body carries an issue at the given path. *)
Definition has_issue_at (p : list json) (r : Response) : Prop :=
  exists e issues i,
    res_body r = Json e
    /\ (prop "error" e ≫= prop "issues") = Some (JArr issues)
    /\ i ∈ issues
    /\ prop "path" i = Some (JArr p).

(** An error body: a JSON object with an [error] string. *)
Definition is_error_body (b : body) : Prop :=
  exists o s, b = Json (JObj o) /\ obj_get "error" o = Some (JStr s).

(** A run of requests through the rate limiter, each with its downstream
    handler. *)
Fixpoint serve (reqs : list (Context * M Response)) (w : world)
    : world * list (result Response) :=
  match reqs with
  | [] => (w, [])
  | (c, next) :: rest =>
      let '(w1, r) := rateLimiter c next w in
      let '(w2, rs) := serve rest w1 in
      (w2, r :: rs)
  end.

(** The answer of the delete handler. *)
Definition deleted : Response :=
  c_json (JObj [("message", JStr "Task deleted successfully")]) 200.

(** *** Sample requests and worlds *)

Definition request (url path : string) (q : list (string * string))
    (ip : option string) (b : json) : Context :=
  {| req_url := url; req_path := path; req_query := q;
     req_headers :=
       match ip with
       | Some a => [("CF-Connecting-IP", a)]
       | None => []
       end;
     req_json := b |}.

(** Empty namespaces; the clock advances one millisecond per I/O event.
    The store of the sample worlds refuses every cursor it is handed: it
    has issued none. *)
Definition fresh_world : world :=
  {| env := {| tasks_kv := ∅; comments_kv := ∅ |};
     io := 0;
     clock := fun n => 1700000000000 + Z.of_nat n;
     drawn := 0;
     nanoid_source := fun n => "V1StGXR8_Z5jdHi6B-my" +:+ pretty n;
     resume := fun _ _ => None |}.

Definition tasks_url : string := "https://api.example.com/api/v1/tasks".
Definition tasks_path : string := "/api/v1/tasks".

Definition sample_task (id title st : string) (created updated : Z) : json :=
  JObj [("id", JStr id); ("title", JStr title); ("status", JStr st);
        ("priority", JStr "medium"); ("labels", JArr []);
        ("createdAt", JNum created); ("updatedAt", JNum updated);
        ("links",
          JObj [("self", JStr (tasks_url +:+ "/" +:+ id));
                ("comments",
                  JStr (tasks_url +:+ "/" +:+ id +:+ "/comments"))])].

Definition stored (v : json) : kv_entry :=
  {| value := Ser v; expiration := None; metadata := None |}.

(** A client whose counter has reached the limit, in an entry that
    expires at 60000; the I/O events are 20 seconds apart. *)
Definition client : Context :=
  request tasks_url tasks_path [] (Some "203.0.113.7") JNull.

Definition limited_world : world :=
  {| env :=
       {| tasks_kv :=
            {[ "rate_limit:203.0.113.7" :=
                 {| value := Ser (JNum 100); expiration := Some 60000;
                    metadata := None |} ]};
          comments_kv := ∅ |};
     io := 0;
     clock := fun n => 20000 * Z.of_nat n;
     drawn := 0;
     nanoid_source := fun n => "c" +:+ pretty n;
     resume := fun _ _ => None |}.

(** A downstream handler that answers 200 and does nothing else. *)
Definition ok_handler : M Response := mret (c_json JNull 200).

(** A creation request whose title is empty. *)
Definition empty_title_request : Context :=
  request tasks_url tasks_path [] (Some "203.0.113.7")
    (JObj [("title", JStr "")]).

(** An empty store whose clock stays within one millisecond. *)
Definition same_ms_world : world :=
  {| env := {| tasks_kv := ∅; comments_kv := ∅ |};
     io := 0;
     clock := fun _ => 1700000000000;
     drawn := 0;
     nanoid_source := fun n => "V1StGXR8_Z5jdHi6B-my" +:+ pretty n;
     resume := fun _ _ => None |}.

Definition create_request : Context :=
  request tasks_url tasks_path [] (Some "203.0.113.7")
    (JObj [("title", JStr "Buy milk")]).

(** An update that sets the status and also tries to set [id] and
    [createdAt]. *)
Definition update_request (id : string) : Context :=
  request (tasks_url +:+ "/" +:+ id) (tasks_path +:+ "/" +:+ id) []
    (Some "203.0.113.7")
    (JObj [("status", JStr "done"); ("id", JStr "other");
           ("createdAt", JNum 0)]).

(** The properties of a stored sample task. *)
Definition sample_props (id title st : string) (created updated : Z) : obj :=
  match sample_task id title st created updated with
  | JObj o => o
  | _ => []
  end.

(** A world holding two tasks, one done and one not; its clock stands at
    the instant the first was last updated. *)
Definition two_tasks_world : world :=
  {| env :=
       {| tasks_kv :=
            <["a1" := stored (sample_task "a1" "Buy milk" "done" 1000 2000)]>
            (<["b2" := stored (sample_task "b2" "Pay rent" "todo" 1500 1500)]>
             ∅);
          comments_kv := ∅ |};
     io := 0;
     clock := fun _ => 2000;
     drawn := 0;
     nanoid_source := fun n => "c" +:+ pretty n;
     resume := fun _ _ => None |}.

(* ===================================================================== *)
(** ** The remaining comment routes *)
(* ===================================================================== *)

(** [!v] for a fetched value: [null] and the falsy JSON values. *)
Definition falsy (v : option json) : bool :=
  match v with
  | None => true
  | Some JNull => true
  | Some (JBool false) => true
  | Some (JNum 0) => true
  | Some (JStr "") => true
  | Some _ => false
  end.

(** The callback of [keys.map] in the comment listing.  Reading [id] off
    [null] throws, as in the task listing. *)
Definition fetch_comment (c : Context) (key : string) : M obj :=
  comment ← get_json COMMENTS key;
  match comment with
  | None => throw TypeError
  | Some JNull => throw TypeError
  | Some v =>
      let id := interp (prop "id" v) in
      mret (literal (obj_assign [] (spread (Some v)))
              [("links",
                 Some (JObj
                   [("self", JStr (req_url c +:+ "/" +:+ id));
                    ("task",
                      JStr (remove_first "/comments" (req_url c)))]))])
  end.

(** The keys of the comments of a task: a prefix scan, with the store's
    default limit of 1000 keys. *)
Definition comment_keys (taskId : string) : M (list string) :=
  list_keys COMMENTS
    {| list_limit := Fin 1000; list_cursor := None;
       list_prefix := Some (taskId +:+ ":") |}.

(** [app.get('/api/v1/tasks/:id/comments', ...)]. *)
Definition get_comments (c : Context) (taskId : string) : M Response :=
  keys ← comment_keys taskId;
  comments ← Promise_all_map (fetch_comment c) keys;
  let response :=
    JObj
      [("comments", JArr (map JObj comments));
       ("metadata",
         JObj [("total", JNum (Z.of_nat (List.length comments)))]);
       ("links",
         JObj [("self", JStr (req_url c));
               ("task", JStr (remove_first "/comments" (req_url c)))])] in
  mret (c_json response 200).

(** [app.put('/api/v1/tasks/:id/comments/:commentId', ...)], after
    validation against [commentSchema.partial()]. *)
Definition put_comment (c : Context) (taskId commentId : string)
    (updatedFields : obj) : M Response :=
  comment ← get_json COMMENTS (taskId +:+ ":" +:+ commentId);
  if falsy comment then mret c_notFound
  else
    now ← Date_now;
    let updatedComment :=
      literal (obj_assign (obj_assign [] (spread comment)) updatedFields)
        [("updatedAt", Some (JNum now));
         ("links",
           Some (JObj
             [("self", JStr (req_url c));
              ("task",
                JStr (remove_first ("/comments/" +:+ commentId)
                        (req_url c)))]))] in
    put COMMENTS (taskId +:+ ":" +:+ commentId) (Ser (JObj updatedComment))
      no_options;;
    mret (c_json (JObj updatedComment) 200).

(** [app.delete('/api/v1/tasks/:id/comments/:commentId', ...)]. *)
Definition delete_comment (c : Context) (taskId commentId : string)
    : M Response :=
  delete_key COMMENTS (taskId +:+ ":" +:+ commentId);;
  mret (c_json (JObj [("message", JStr "Comment deleted successfully")]) 200).

(** The comment routes other than creation, with their path parameters. *)
Inductive comment_route : Type :=
| GET_comments (id : string)
| PUT_comment (id commentId : string)
| DELETE_comment (id commentId : string).

Definition dispatch_comment (r : comment_route) (c : Context) : M Response :=
  match r with
  | GET_comments id => get_comments c id
  | PUT_comment id commentId =>
      zValidator (Zod.partial commentSchema) c (put_comment c id commentId)
  | DELETE_comment id commentId => delete_comment c id commentId
  end.

(* ===================================================================== *)
(** ** Further vocabulary *)
(* ===================================================================== *)

(** The values of the two enumerations of [taskSchema]. *)
Definition statuses : list string := ["todo"; "in-progress"; "done"].
Definition priorities : list string := ["low"; "medium"; "high"].

(** The validation answer for a list of issues. *)
Definition validation_error (issues : list Zod.issue) : Response :=
  c_json
    (JObj [("success", JBool false);
           ("error",
             JObj [("issues", JArr (map Zod.issue_json issues));
                   ("name", JStr "ZodError")])])
    400.

(** The counter as a read of the store at instant [t] would compute it. *)
Definition count_at (kv : KVNamespace) (t : Z) (key : string) : jsnum :=
  match kv_get kv t key with
  | Some x => parseInt_text x
  | None => Fin 0
  end.

(** A downstream handler that leaves the entry under [key] alone, and, as
    every handler, neither changes the clock nor undoes I/O events. *)
Definition quiet (key : string) (next : M Response) : Prop :=
  forall w,
    tasks_kv (env (next w).1) !! key = tasks_kv (env w) !! key
    /\ clock (next w).1 = clock w
    /\ (io w <= io (next w).1)%nat.

(** The world after a client has sent an update addressed to its own
    counter key. *)
Definition overwritten_counter_world : world :=
  (api_v1 (PUT_task "rate_limit:203.0.113.7")
     (update_request "rate_limit:203.0.113.7") fresh_world).1.

(** The world after that client's next request: the limiter has read the
    overwritten counter and written [NaN] back. *)
Definition nan_counter_world : world :=
  (api_v1 (GET_task "a1") client overwritten_counter_world).1.

(** A stored sample comment. *)
Definition sample_comment (taskId id content : string) (at_ : Z) : obj :=
  [("id", JStr id); ("taskId", JStr taskId); ("content", JStr content);
   ("createdAt", JNum at_); ("updatedAt", JNum at_);
   ("links",
     JObj [("self",
             JStr (tasks_url +:+ "/" +:+ taskId +:+ "/comments/" +:+ id));
           ("task", JStr (tasks_url +:+ "/" +:+ taskId))])].

(** The two tasks, with two comments on the first and one on the second. *)
Definition commented_world : world :=
  {| env :=
       {| tasks_kv := tasks_kv (env two_tasks_world);
          comments_kv :=
            <["a1:k1" := stored (JObj (sample_comment "a1" "k1" "First" 2100))]>
            (<["a1:k2" :=
                 stored (JObj (sample_comment "a1" "k2" "Second" 2200))]>
             (<["b2:k3" :=
                  stored (JObj (sample_comment "b2" "k3" "Third" 2300))]>
              ∅)) |};
     io := 0;
     clock := fun n => 3000 + Z.of_nat n;
     drawn := 0;
     nanoid_source := fun n => "k" +:+ pretty (n + 10)%nat;
     resume := fun _ _ => None |}.

Definition comments_url (taskId : string) : string :=
  tasks_url +:+ "/" +:+ taskId +:+ "/comments".

Definition comment_request (taskId : string) (b : json) : Context :=
  request (comments_url taskId) (tasks_path +:+ "/" +:+ taskId +:+ "/comments")
    [] (Some "203.0.113.7") b.

(** A comment as the listing shows it: the stored value with the links
    attached. *)
Definition shown_value (c : Context) (v : json) : obj :=
  literal (obj_assign [] (spread (Some v)))
    [("links",
       Some (JObj
         [("self", JStr (req_url c +:+ "/" +:+ interp (prop "id" v)));
          ("task", JStr (remove_first "/comments" (req_url c)))]))].

Definition shown_comment (c : Context) (kv : KVNamespace) (key : string)
    : obj :=
  match kv !! key with
  | Some e =>
      match value e with
      | Ser v => shown_value c v
      | _ => []
      end
  | None => []
  end.

(** The keys the comment listing of a task reads, at instant [now]. *)
Definition listed_comment_keys (kv : KVNamespace) (now : Z)
    (taskId : string) : list string :=
  take 1000
    (filter (fun k => String.prefix (taskId +:+ ":") k = true)
       (kv_keys kv now)).

(** The key of the task namespace a route may write, in a given world:
    the generated identifier for a creation, the addressed one for an
    update or a delete, none for the other routes. *)
Definition written_key (r : route) (w : world) : option string :=
  match r with
  | POST_tasks => Some (nanoid_source w (drawn w))
  | PUT_task id => Some id
  | DELETE_task id => Some id
  | GET_tasks | GET_task _ | POST_comments _ => None
  end.

(* ===================================================================== *)
(** ** Objects: lookup after update *)
(* ===================================================================== *)

Section ObjectFacts.

Implicit Types (k : string) (v : json) (o : obj).

Lemma obj_get_set_eq k v o : obj_get k (obj_set k v o) = Some v.
Proof.
  induction o as [|[k' v'] o IH]; simpl.
  - by rewrite String.eqb_refl.
  - destruct (String.eqb_spec k k') as [->|Hne]; simpl.
    + by rewrite String.eqb_refl.
    + by destruct (String.eqb_spec k k').
Qed.

Lemma obj_get_set_ne k k' v o :
  k <> k' -> obj_get k (obj_set k' v o) = obj_get k o.
Proof.
  intros Hne. induction o as [|[k2 v2] o IH]; simpl.
  - by destruct (String.eqb_spec k k').
  - destruct (String.eqb_spec k' k2) as [->|Hne2]; simpl.
    + by destruct (String.eqb_spec k k2).
    + destruct (String.eqb_spec k k2); [done | apply IH].
Qed.

Lemma obj_get_del_eq k o : obj_get k (obj_del k o) = None.
Proof.
  induction o as [|[k' v'] o IH]; simpl; [done|].
  destruct (String.eqb_spec k k') as [->|Hne]; simpl; [done|].
  by destruct (String.eqb_spec k k').
Qed.

Lemma obj_get_del_ne k k' o :
  k <> k' -> obj_get k (obj_del k' o) = obj_get k o.
Proof.
  intros Hne. induction o as [|[k2 v2] o IH]; simpl; [done|].
  destruct (String.eqb_spec k' k2) as [->|Hne2]; simpl.
  - by destruct (String.eqb_spec k k2).
  - destruct (String.eqb_spec k k2); [done | apply IH].
Qed.

(** A key that [o] does not bind is not found. *)
Lemma obj_get_None k o : k ∉ map fst o -> obj_get k o = None.
Proof.
  induction o as [|[k' v'] o IH]; simpl; [done|].
  intros Hn. destruct (String.eqb_spec k k') as [->|Hne].
  - exfalso. apply Hn. left.
  - apply IH. intros Hin. apply Hn. by right.
Qed.

(** Spreading an object with distinct keys over another: its properties
    win, the others stay. *)
Lemma obj_get_assign k dst src :
  NoDup (map fst src) ->
  obj_get k (obj_assign dst src)
  = match obj_get k src with
    | Some v => Some v
    | None => obj_get k dst
    end.
Proof.
  unfold obj_assign. revert dst.
  induction src as [|[k' v'] src IH]; intros dst Hnd; simpl; [done|].
  apply NoDup_cons in Hnd as [Hnotin Hnd].
  rewrite IH by done.
  destruct (String.eqb_spec k k') as [->|Hne].
  - rewrite (obj_get_None k' src) by done. apply obj_get_set_eq.
  - by rewrite obj_get_set_ne.
Qed.

(** Spreading an object with distinct keys into an empty literal gives an
    object with the same properties. *)
Lemma obj_get_assign_nil k o :
  NoDup (map fst o) -> obj_get k (obj_assign [] o) = obj_get k o.
Proof. intros Hnd. rewrite obj_get_assign by done. by destruct (obj_get k o). Qed.

Lemma obj_set_keys k v o :
  map fst (obj_set k v o)
  = if bool_decide (k ∈ map fst o) then map fst o else map fst o ++ [k].
Proof.
  induction o as [|[k' v'] o IH]; simpl; [done|].
  destruct (String.eqb_spec k k') as [->|Hne]; simpl.
  - rewrite bool_decide_eq_true_2; [done | left].
  - rewrite IH. destruct (decide (k ∈ map fst o)) as [Hin|Hnin].
    + rewrite !bool_decide_eq_true_2; [done | by right | done].
    + rewrite !bool_decide_eq_false_2; [done | | done].
      intros Hin. apply elem_of_cons in Hin as [?|?]; done.
Qed.

Lemma obj_set_NoDup k v o :
  NoDup (map fst o) -> NoDup (map fst (obj_set k v o)).
Proof.
  intros Hnd. rewrite obj_set_keys. case_bool_decide; [done|].
  apply NoDup_app. split_and!; [done | | apply NoDup_singleton].
  intros x Hx Hx'. apply list_elem_of_singleton in Hx' as ->. done.
Qed.

Lemma obj_del_keys_subset k k' o :
  k ∈ map fst (obj_del k' o) -> k ∈ map fst o.
Proof.
  induction o as [|[k2 v2] o IH]; simpl; [done|].
  destruct (String.eqb_spec k' k2) as [->|Hne]; simpl.
  - intros Hin. right. by apply IH.
  - intros Hin. apply elem_of_cons in Hin as [->|Hin]; [left | right; by apply IH].
Qed.

Lemma obj_del_NoDup k o :
  NoDup (map fst o) -> NoDup (map fst (obj_del k o)).
Proof.
  induction o as [|[k2 v2] o IH]; simpl; [done|].
  intros Hnd. apply NoDup_cons in Hnd as [Hnotin Hnd].
  destruct (String.eqb_spec k k2) as [->|Hne]; simpl; [by apply IH|].
  apply NoDup_cons. split; [|by apply IH].
  intros Hin. apply Hnotin. by eapply obj_del_keys_subset.
Qed.

Lemma literal_NoDup base fields :
  NoDup (map fst base) -> NoDup (map fst (literal base fields)).
Proof.
  unfold literal. revert base.
  induction fields as [|[k [v|]] fields IH]; intros base Hnd; simpl; [done| |].
  - apply IH. by apply obj_set_NoDup.
  - apply IH. by apply obj_del_NoDup.
Qed.

End ObjectFacts.

(** Rewriting lookups through a chain of updates whose keys are literal. *)
Ltac obj_lookup :=
  repeat first
    [ rewrite obj_get_set_eq
    | rewrite obj_get_set_ne by (try discriminate; congruence)
    | rewrite obj_get_del_eq
    | rewrite obj_get_del_ne by (try discriminate; congruence) ].

(* ===================================================================== *)
(** ** Listing tasks with a status filter *)
(* ===================================================================== *)

Lemma truthy_nonempty (s : string) : s <> "" -> truthy (Some s) = true.
Proof. by destruct s. Qed.

(** A record that passes the filter callback under a set status filter has
    exactly that status. *)
Lemma keep_status (s : string) (priority : option string) (t : obj) :
  s <> "" ->
  keep (Some s) priority t = true ->
  obj_get "status" t = Some (JStr s).
Proof.
  intros Hs. unfold keep. rewrite (truthy_nonempty s Hs). simpl.
  destruct (obj_get "status" t) as [[| | |a| |]|]; simpl; try discriminate.
  destruct (String.eqb_spec a s) as [->|]; simpl; [done | discriminate].
Qed.

(** The list handler answers exactly when the page fetch succeeds, with the
    filtered page. *)
Lemma get_tasks_fetch (c : Context) (w w' : world) (r : Response) :
  get_tasks c w = (w', Ok r) ->
  exists page,
    fetch_page c w = (w', Ok page)
    /\ get_tasks c w
       = (mret (c_json
           (JObj
             [("tasks",
                JArr (map JObj
                  (List.filter (keep (query c "status") (query c "priority"))
                     page)));
              ("metadata",
                JObj [("total",
                        JNum (Z.of_nat (List.length
                          (List.filter
                             (keep (query c "status") (query c "priority"))
                             page))));
                      ("page", num_json (pageNumber c));
                      ("limit", num_json (limitNumber c))]);
              ("links",
                JObj [("self", JStr (req_url c));
                      ("next",
                        JStr (page_link c (num_add (pageNumber c) (Fin 1))));
                      ("prev",
                        if num_gt (pageNumber c) (Fin 1)
                        then JStr (page_link c
                                     (num_sub (pageNumber c) (Fin 1)))
                        else JNull)])]) 200) : M Response) w'.
Proof.
  unfold get_tasks, mbind, M_bind.
  destruct (fetch_page c w) as [w1 [page|e]]; [|discriminate].
  intros Heq. exists page. injection Heq as <- _. done.
Qed.

Lemma filter_length_le {A} (f : A -> bool) (l : list A) :
  (List.length (List.filter f l) <= List.length l)%nat.
Proof.
  induction l as [|x l IH]; simpl; [lia|]. destruct (f x); simpl; lia.
Qed.

(** C1.  Whenever [GET /api/v1/tasks] with a status filter [status=s]
    answers, the answer is a 200 whose [tasks] are the records of the
    fetched page that pass the filter callback, every one of them has
    [status] equal to [s], and [metadata.total] is the number of those
    records, which is at most the size of the fetched page. *)
Theorem get_tasks_status_filter (c : Context) (w w' : world) (r : Response)
    (s : string) :
  query c "status" = Some s ->
  s <> "" ->
  get_tasks c w = (w', Ok r) ->
  exists (page tasks : list obj) (b : json),
    fetch_page c w = (w', Ok page)
    /\ tasks = List.filter (keep (Some s) (query c "priority")) page
    /\ status r = 200
    /\ res_body r = Json b
    /\ prop "tasks" b = Some (JArr (map JObj tasks))
    /\ Forall (fun t => obj_get "status" t = Some (JStr s)) tasks
    /\ (prop "metadata" b ≫= prop "total")
       = Some (JNum (Z.of_nat (List.length tasks)))
    /\ (List.length tasks <= List.length page)%nat.
Proof.
  intros Hq Hs Hrun.
  destruct (get_tasks_fetch c w w' r Hrun) as (page & Hpage & Hshape).
  rewrite Hrun in Hshape. injection Hshape as ->.
  rewrite Hq.
  exists page, (List.filter (keep (Some s) (query c "priority")) page).
  eexists. split_and!; try done.
  - apply Forall_forall. intros t Ht.
    apply list_elem_of_In, filter_In in Ht as [_ Hkeep]. by eapply keep_status.
  - apply filter_length_le.
Qed.

(** The keys the store lists are the keys of its live entries. *)
Lemma elem_of_kv_keys (kv : KVNamespace) (now : Z) (k : string) :
  k ∈ kv_keys kv now <-> exists e, kv !! k = Some e /\ live now e = true.
Proof.
  unfold kv_keys. rewrite merge_sort_Permutation.
  change (map fst ?l) with (fst <$> l). rewrite list_elem_of_fmap. split.
  - intros [[k' e] [-> Hin]]. apply list_elem_of_filter in Hin as [Hlive Hin].
    apply elem_of_map_to_list in Hin. by exists e.
  - intros (e & Hk & Hlive). exists (k, e). split; [done|].
    apply list_elem_of_filter. split; [done|]. by apply elem_of_map_to_list.
Qed.

(** A listing from the start returns live keys. *)
Lemma kv_list_keys (kv : KVNamespace) (now : Z) (resume : resumption)
    (o : list_options) (keys : list string) (k : string) :
  list_cursor o = None ->
  kv_list kv now resume o = Some keys -> k ∈ keys ->
  exists e, kv !! k = Some e /\ live now e = true.
Proof.
  unfold kv_list. intros -> Hl Hk. apply elem_of_kv_keys.
  destruct (key_count_limit (list_limit o)) as [n|]; [|discriminate].
  injection Hl as <-.
  apply subseteq_take in Hk.
  destruct (list_prefix o); [|done].
  by apply list_elem_of_filter in Hk as [_ ?].
Qed.

(** Fetching a key whose entry is live and holds a serialised value other
    than [null] succeeds, after one store read. *)
Lemma fetch_task_live (c : Context) (key : string) (w : world)
    (e : kv_entry) (v : json) :
  tasks_kv (env w) !! key = Some e ->
  live (clock w (S (io w))) e = true ->
  value e = Ser v ->
  v <> JNull ->
  exists o, fetch_task c key w = (tick w, Ok o).
Proof.
  intros Hk Hlive Hv Hnull.
  unfold fetch_task, get_json, get, mbind, M_bind, kv_get, time. simpl.
  rewrite Hk. simpl. rewrite Hlive, Hv. simpl. destruct v; by eauto.
Qed.

(** Fetching a list of keys succeeds when none of their entries expires
    while the request runs and every one holds a serialised value other
    than [null]. *)
Lemma fetch_all_live (c : Context) (keys : list string) (w : world) :
  (forall k, k ∈ keys ->
     exists e v, tasks_kv (env w) !! k = Some e /\ value e = Ser v
       /\ v <> JNull
       /\ forall i, (io w < i)%nat -> live (clock w i) e = true) ->
  exists w' page,
    Promise_all_map (fetch_task c) keys w = (w', Ok page)
    /\ List.length page = List.length keys.
Proof.
  revert w. induction keys as [|k keys IH]; intros w Hall; simpl.
  - by exists w, [].
  - destruct (Hall k) as (e & v & Hk & Hv & Hnull & Hlive); [left|].
    destruct (fetch_task_live c k w e v Hk) as [o Ho];
      [apply Hlive; lia | done | done |].
    destruct (IH (tick w)) as (w' & page & Hrest & Hlen).
    { intros k' Hk'.
      destruct (Hall k') as (e' & v' & ? & ? & ? & Hl'); [by right|].
      exists e', v'. split_and!; [done..|]. simpl. intros i Hi. apply Hl'. lia. }
    exists w', (o :: page). unfold mbind, M_bind. rewrite Ho, Hrest.
    split; [done | simpl; by rewrite Hlen].
Qed.

(** The list handler does answer a request for the first page, with a
    200: it is enough that the limit is not above the store's maximum,
    that the store holds serialised values other than [null], and that no
    entry expires while the request runs. *)
Lemma get_tasks_answers (c : Context) (w : world) :
  key_count_limit (limitNumber c) <> None ->
  num_gt (offset c) (Fin 0) = false ->
  (forall k e, tasks_kv (env w) !! k = Some e ->
     (exists v, value e = Ser v /\ v <> JNull)
     /\ forall i, (io w < i)%nat -> live (clock w i) e = true) ->
  exists w' r, get_tasks c w = (w', Ok r) /\ status r = 200.
Proof.
  intros Hlim Hoff Hstore.
  assert (Hcur : list_cursor (page_options c) = None).
  { unfold page_options. simpl. by rewrite Hoff. }
  assert (exists w' page, fetch_page c w = (w', Ok page)) as (w' & page & Hp).
  { unfold fetch_page, list_keys, mbind, M_bind.
    destruct (kv_list _ _ _ _) as [keys|] eqn:Hkeys.
    - destruct (fetch_all_live c keys (tick w)) as (w' & page & Hpage & _);
        [|eauto].
      intros k Hk.
      destruct (kv_list_keys _ _ _ _ _ _ Hcur Hkeys Hk) as (e & He & _).
      simpl in He. destruct (Hstore k e He) as [(v & Hv & Hnull) Hl].
      exists e, v. split_and!; [done..|]. simpl. intros i Hi. apply Hl. lia.
    - exfalso. unfold kv_list in Hkeys. rewrite Hcur in Hkeys.
      change (list_limit (page_options c)) with (limitNumber c) in Hkeys.
      by destruct (key_count_limit (limitNumber c)). }
  exists w'. eexists. unfold get_tasks, mbind, M_bind. rewrite Hp. done.
Qed.

(* ===================================================================== *)
(** ** The rate limiter *)
(* ===================================================================== *)

(** The two ways through the rate limiter. *)
Lemma rateLimiter_unfold (c : Context) (next : M Response) (w : world) :
  rateLimiter c next w
  = if num_ge (current_count c w) limit then (tick w, Ok too_many)
    else next (counted c w).
Proof.
  unfold rateLimiter, counted, current_count, mbind, M_bind, get. simpl.
  destruct (kv_get _ _ _) as [t|]; simpl.
  - by destruct (num_ge (parseInt_text t) limit).
  - done.
Qed.

(** What the accepted branch leaves in the store. *)
Lemma counted_lookup (c : Context) (w : world) :
  tasks_kv (env (counted c w)) !! rateLimitKey c
  = Some {| value := text_of_num (num_add (current_count c w) (Fin 1));
            expiration := Some (clock w (S (S (io w))) + 60000);
            metadata := None |}.
Proof. unfold counted, put, kv_put. simpl. by rewrite lookup_insert_eq. Qed.

Lemma counted_other (c : Context) (w : world) (k : string) :
  k <> rateLimitKey c ->
  tasks_kv (env (counted c w)) !! k = tasks_kv (env w) !! k.
Proof.
  intros Hne. unfold counted, put, kv_put. simpl.
  by rewrite lookup_insert_ne.
Qed.

Lemma counted_comments (c : Context) (w : world) :
  comments_kv (env (counted c w)) = comments_kv (env w).
Proof. done. Qed.

(** Below the limit a request is let through and counted, and the counter
    is given a fresh 60-second life. *)
Lemma rateLimiter_counts (c : Context) (next : M Response) (w : world)
    (n : Z) :
  current_count c w = Fin n -> n < 100 ->
  rateLimiter c next w = next (counted c w)
  /\ kv_get (tasks_kv (env (counted c w))) (time (counted c w))
       (rateLimitKey c)
     = Some (Ser (JNum (n + 1))).
Proof.
  intros Hc Hn. split.
  - rewrite rateLimiter_unfold, Hc. unfold num_ge, limit.
    by replace (100 <=? n) with false by (symmetry; apply Z.leb_gt; lia).
  - unfold kv_get. rewrite counted_lookup, Hc. unfold live, time. simpl.
    by replace (_ <? _) with true by (symmetry; apply Z.ltb_lt; lia).
Qed.

Lemma count_at_lookup (kv kv' : KVNamespace) (t : Z) (key : string) :
  kv !! key = kv' !! key -> count_at kv t key = count_at kv' t key.
Proof. unfold count_at, kv_get. by intros ->. Qed.

Lemma current_count_count_at (c : Context) (w : world) :
  current_count c w
  = count_at (tasks_kv (env w)) (clock w (S (io w))) (rateLimitKey c).
Proof. reflexivity. Qed.

(** The counter after the limiter's write, read before that write
    expires. *)
Lemma count_at_counted (c : Context) (w : world) (n t : Z) :
  current_count c w = Fin n ->
  t < clock w (S (S (io w))) + 60000 ->
  count_at (tasks_kv (env (counted c w))) t (rateLimitKey c) = Fin (n + 1).
Proof.
  intros Hc Ht. unfold count_at, kv_get.
  rewrite counted_lookup, Hc. unfold live. simpl.
  by replace (_ <? _) with true by (symmetry; apply Z.ltb_lt; lia).
Qed.

(** The counter read off an entry that holds a number: the number while
    the entry is live, zero once it has expired. *)
Lemma current_count_entry (c : Context) (w : world) (e : kv_entry)
    (n t : Z) :
  tasks_kv (env w) !! rateLimitKey c = Some e ->
  value e = Ser (JNum n) ->
  expiration e = Some t ->
  current_count c w = if clock w (S (io w)) <? t then Fin n else Fin 0.
Proof.
  intros Hk Hv He. unfold current_count, kv_get, live, time. simpl.
  rewrite Hk, He. destruct (_ <? _); [by rewrite Hv | done].
Qed.

(** At the limit, before the expiry: rejected, nothing written. *)
Lemma rateLimiter_rejects (c : Context) (next : M Response) (w : world)
    (e : kv_entry) (n t : Z) :
  tasks_kv (env w) !! rateLimitKey c = Some e ->
  value e = Ser (JNum n) ->
  expiration e = Some t ->
  100 <= n ->
  clock w (S (io w)) < t ->
  rateLimiter c next w = (tick w, Ok too_many).
Proof.
  intros Hk Hv He Hn Ht.
  rewrite rateLimiter_unfold, (current_count_entry c w e n t Hk Hv He).
  replace (_ <? _) with true by (symmetry; apply Z.ltb_lt; lia).
  unfold num_ge, limit.
  by replace (100 <=? n) with true by (symmetry; apply Z.leb_le; lia).
Qed.

(** C2.  Let the counter of a client stand at [n >= 100] in an entry that
    expires at [t].  A request of that client that reaches the rate limiter
    before [t] is answered with 429 whatever the downstream handler [next]
    is, so [next] does not run, and the namespaces are left as they were, so
    the counter is not incremented and its expiry is not extended.  A
    request at or after [t] is passed on to [next], with the counter
    restarted at 1 and expiring 60 seconds after it is written. *)
Theorem rateLimiter_window (c : Context) (next : M Response) (w : world)
    (e : kv_entry) (n t : Z) :
  tasks_kv (env w) !! rateLimitKey c = Some e ->
  value e = Ser (JNum n) ->
  expiration e = Some t ->
  100 <= n ->
  (clock w (S (io w)) < t ->
     rateLimiter c next w = (tick w, Ok too_many)
     /\ status too_many = 429
     /\ env (tick w) = env w)
  /\ (t <= clock w (S (io w)) ->
     rateLimiter c next w = next (counted c w)
     /\ tasks_kv (env (counted c w)) !! rateLimitKey c
        = Some {| value := Ser (JNum 1);
                  expiration := Some (clock w (S (S (io w))) + 60000);
                  metadata := None |}).
Proof.
  intros Hk Hv He Hn. split; intros Ht.
  - by rewrite (rateLimiter_rejects c next w e n t).
  - assert (Hc : current_count c w = Fin 0).
    { rewrite (current_count_entry c w e n t Hk Hv He).
      by replace (_ <? _) with false by (symmetry; apply Z.ltb_ge; lia). }
    split.
    + by rewrite rateLimiter_unfold, Hc.
    + by rewrite counted_lookup, Hc.
Qed.

Lemma rateLimiter_window_witness :
  (rateLimiter client ok_handler limited_world
   = (tick limited_world, Ok too_many)
   /\ status too_many = 429
   /\ env (tick limited_world) = env limited_world)
  /\ (rateLimiter client ok_handler (tick (tick limited_world))
      = ok_handler (counted client (tick (tick limited_world)))
      /\ tasks_kv (env (counted client (tick (tick limited_world))))
           !! rateLimitKey client
         = Some {| value := Ser (JNum 1); expiration := Some (80000 + 60000);
                   metadata := None |}).
Proof.
  split.
  - apply (rateLimiter_window client ok_handler limited_world
             {| value := Ser (JNum 100); expiration := Some 60000;
                metadata := None |} 100 60000);
      [reflexivity | reflexivity | reflexivity | lia | vm_compute; reflexivity].
  - apply (rateLimiter_window client ok_handler (tick (tick limited_world))
             {| value := Ser (JNum 100); expiration := Some 60000;
                metadata := None |} 100 60000);
      [reflexivity | reflexivity | reflexivity | lia
      | vm_compute; discriminate].
Defined.

(** While the counter stands at the limit and has not expired, every
    request of the run is rejected and the store stays as it was. *)
Lemma serve_rejects_all (reqs : list (Context * M Response)) (w w' : world)
    (rs : list (result Response)) (key : string) (e : kv_entry) (n t : Z) :
  tasks_kv (env w) !! key = Some e ->
  value e = Ser (JNum n) ->
  expiration e = Some t ->
  100 <= n ->
  Forall (fun cn => rateLimitKey cn.1 = key) reqs ->
  (forall i, (io w < i <= io w + List.length reqs)%nat -> clock w i < t) ->
  serve reqs w = (w', rs) ->
  Forall (fun r => r = Ok too_many) rs
  /\ env w' = env w
  /\ clock w' = clock w
  /\ io w' = (io w + List.length reqs)%nat.
Proof.
  intros Hk Hv He Hn. revert w w' rs Hk.
  induction reqs as [|[c next] reqs IH]; intros w w' rs Hk Hkeys Hclock; simpl.
  - intros [= <- <-]. split_and!; [constructor | done | done | lia].
  - apply Forall_cons in Hkeys as [Hc Hkeys]. simpl in Hc. subst key.
    rewrite (rateLimiter_rejects c next w e n t Hk Hv He Hn)
      by (apply Hclock; simpl; lia).
    destruct (serve reqs (tick w)) as [w2 rs2] eqn:Hserve.
    intros [= <- <-].
    destruct (IH (tick w) w2 rs2) as (Hall & Henv & Hcl & Hio);
      [done | done | | done |].
    { simpl. intros i Hi. apply Hclock. simpl. lia. }
    split_and!; [by constructor | done | done | simpl in Hio; simpl; lia].
Qed.

(** From an empty store, a hundred requests of one client within the
    window are let through and the next one is rejected. *)
Example hundred_then_rejected :
  let '(w, rs) := serve (replicate 100 (client, ok_handler)) fresh_world in
  rs = replicate 100 (Ok (c_json JNull 200))
  /\ (rateLimiter client ok_handler w).2 = Ok too_many.
Proof. vm_compute. done. Qed.

(** C10.  A request without the [CF-Connecting-IP] header raises no error
    in the rate limiter and is counted in the one bucket
    [rate_limit:undefined], which it shares with every other request that
    lacks the header and with a client whose address reads [undefined]:
    the limiter treats all of them alike.  It reads the counter under that
    key.  When the counter is 100 or more the answer is 429 and the store
    is left as it was.  Otherwise the request is handed to the downstream
    handler after the counter plus one has been written under that key
    with a life of 60 seconds, no other key of either namespace being
    touched; so when the counter read [n < 100], any request without the
    header that arrives before that entry expires reads [n + 1]. *)
Theorem rateLimiter_missing_ip (c : Context) (next : M Response) (w : world) :
  req_header c "CF-Connecting-IP" = None ->
  let key := "rate_limit:undefined" in
  let count := count_at (tasks_kv (env w)) (clock w (S (io w))) key in
  rateLimitKey c = key
  /\ (forall c',
        req_header c' "CF-Connecting-IP" = None
        \/ req_header c' "CF-Connecting-IP" = Some "undefined" ->
        rateLimitKey c' = rateLimitKey c
        /\ rateLimiter c' next w = rateLimiter c next w)
  /\ (num_ge count limit = true ->
        rateLimiter c next w = (tick w, Ok too_many)
        /\ status too_many = 429
        /\ env (tick w) = env w)
  /\ (num_ge count limit = false ->
        rateLimiter c next w = next (counted c w)
        /\ tasks_kv (env (counted c w)) !! key
           = Some {| value := text_of_num (num_add count (Fin 1));
                     expiration := Some (clock w (S (S (io w))) + 60000);
                     metadata := None |}
        /\ (forall k, k <> key ->
              tasks_kv (env (counted c w)) !! k = tasks_kv (env w) !! k)
        /\ comments_kv (env (counted c w)) = comments_kv (env w))
  /\ (forall n, count = Fin n ->
        (100 <= n -> rateLimiter c next w = (tick w, Ok too_many))
        /\ (n < 100 ->
            rateLimiter c next w = next (counted c w)
            /\ forall c' t,
                 req_header c' "CF-Connecting-IP" = None ->
                 t < clock w (S (S (io w))) + 60000 ->
                 count_at (tasks_kv (env (counted c w))) t (rateLimitKey c')
                 = Fin (n + 1))).
Proof.
  intros Hip key count.
  assert (Hkey : forall c', req_header c' "CF-Connecting-IP" = None ->
            rateLimitKey c' = key).
  { intros c' Hc'. unfold rateLimitKey. by rewrite Hc'. }
  assert (Hcount : current_count c w = count).
  { rewrite current_count_count_at. by rewrite (Hkey c Hip). }
  split_and!.
  - by apply Hkey.
  - intros c' Hc'.
    assert (Hkey' : rateLimitKey c' = rateLimitKey c).
    { rewrite (Hkey c Hip). unfold rateLimitKey. by destruct Hc' as [-> | ->]. }
    split; [done|].
    rewrite !rateLimiter_unfold. unfold counted, current_count.
    by rewrite Hkey'.
  - intros Hge. by rewrite rateLimiter_unfold, Hcount, Hge.
  - intros Hlt. rewrite rateLimiter_unfold, Hcount, Hlt.
    split_and!; [done | | | done].
    + rewrite <- (Hkey c Hip), <- Hcount. apply counted_lookup.
    + intros k Hk. apply counted_other. by rewrite (Hkey c Hip).
  - intros n Hn. rewrite rateLimiter_unfold, Hcount, Hn.
    unfold num_ge, limit. split.
    + intros Hge.
      by replace (100 <=? n) with true by (symmetry; apply Z.leb_le; lia).
    + intros Hlt.
      replace (100 <=? n) with false by (symmetry; apply Z.leb_gt; lia).
      split; [done|]. intros c' t Hc' Ht.
      rewrite (Hkey c' Hc'), <- (Hkey c Hip).
      apply count_at_counted; [by rewrite Hcount | done].
Qed.

Lemma rateLimiter_missing_ip_witness :
  let c := request tasks_url tasks_path [] None JNull in
  let c' := request (tasks_url +:+ "/a1") (tasks_path +:+ "/a1") [] None
              JNull in
  rateLimitKey c = "rate_limit:undefined"
  /\ rateLimiter c ok_handler fresh_world
     = ok_handler (counted c fresh_world)
  /\ tasks_kv (env (counted c fresh_world)) !! "rate_limit:undefined"
     = Some {| value := Ser (JNum 1);
               expiration := Some (clock fresh_world 2 + 60000);
               metadata := None |}
  /\ count_at (tasks_kv (env (counted c fresh_world))) (clock fresh_world 3)
       (rateLimitKey c')
     = Fin (0 + 1).
Proof.
  intros c c'.
  destruct (rateLimiter_missing_ip c ok_handler fresh_world eq_refl)
    as (Hkey & _ & _ & Hpass & Hn).
  destruct (Hpass eq_refl) as (Hrun & Hput & _ & _).
  destruct (Hn 0 eq_refl) as [_ Hbelow].
  destruct (Hbelow ltac:(lia)) as [_ Hread].
  split_and!; [exact Hkey | exact Hrun | exact Hput |].
  apply (Hread c' (clock fresh_world 3) eq_refl). simpl. lia.
Defined.

(** A hundred requests without the header, whatever they ask for, use up
    the bucket: the next one is rejected, and so is one of a client whose
    address reads [undefined]. *)
Example hundred_without_header_then_rejected :
  let c1 := request tasks_url tasks_path [] None JNull in
  let c2 := request (tasks_url +:+ "/a1") (tasks_path +:+ "/a1") [] None
              JNull in
  let c3 := request tasks_url tasks_path [] (Some "undefined") JNull in
  let '(w, rs) :=
    serve (replicate 50 (c1, ok_handler) ++ replicate 50 (c2, ok_handler))
      fresh_world in
  rs = replicate 100 (Ok (c_json JNull 200))
  /\ (rateLimiter c1 ok_handler w).2 = Ok too_many
  /\ (rateLimiter c2 ok_handler w).2 = Ok too_many
  /\ (rateLimiter c3 ok_handler w).2 = Ok too_many.
Proof. vm_compute. done. Qed.

(** A counter is not a Task record. *)
Lemma counter_not_task (x : jsnum) :
  ~ exists v, text_of_num x = Ser v /\ is_task_record v = true.
Proof.
  intros (v & Hx & Hv).
  destruct x; simpl in Hx;
    [injection Hx as <-; discriminate Hv | discriminate Hx..].
Qed.

(** C9.  A request the rate limiter lets through has its counter written
    in the [TASKS] namespace under [rate_limit:] followed by the address,
    and nowhere else.  From then until that entry expires, the namespace
    does not satisfy "every key maps to a serialised Task record", the key
    is among the keys the store lists, and a first page of the task listing
    that is large enough to hold every live key contains it. *)
Theorem rate_limit_counter_in_TASKS (c : Context) (next : M Response)
    (w : world) :
  num_ge (current_count c w) limit = false ->
  let w1 := counted c w in
  let expiry := clock w (S (S (io w))) + 60000 in
  rateLimitKey c
  = "rate_limit:" +:+ interp_header (req_header c "CF-Connecting-IP")
  /\ rateLimiter c next w = next w1
  /\ tasks_kv (env w1) !! rateLimitKey c
     = Some {| value := text_of_num (num_add (current_count c w) (Fin 1));
               expiration := Some expiry;
               metadata := None |}
  /\ comments_kv (env w1) = comments_kv (env w)
  /\ forall now, now < expiry ->
       ~ task_store_invariant (tasks_kv (env w1)) now
       /\ rateLimitKey c ∈ kv_keys (tasks_kv (env w1)) now
       /\ forall n,
            1 <= n <= 1000 ->
            (List.length (kv_keys (tasks_kv (env w1)) now) <= Z.to_nat n)%nat ->
            exists keys,
              kv_list (tasks_kv (env w1)) now (resume w1)
                {| list_limit := Fin n; list_cursor := None;
                   list_prefix := None |} = Some keys
              /\ rateLimitKey c ∈ keys.
Proof.
  intros Hacc w1 expiry.
  assert (Hlook := counted_lookup c w). fold w1 expiry in Hlook.
  split_and!; [done | by rewrite rateLimiter_unfold, Hacc | done | done |].
  intros now Hnow.
  assert (Hlive : live now
            {| value := text_of_num (num_add (current_count c w) (Fin 1));
               expiration := Some expiry; metadata := None |} = true).
  { unfold live. simpl. apply Z.ltb_lt. lia. }
  assert (Hin : rateLimitKey c ∈ kv_keys (tasks_kv (env w1)) now).
  { apply elem_of_kv_keys. eauto. }
  split_and!; [| done |].
  - intros Hinv.
    apply (counter_not_task (num_add (current_count c w) (Fin 1))).
    apply (Hinv (rateLimitKey c)). unfold kv_get. by rewrite Hlook, Hlive.
  - intros n Hn Hlen. eexists. split.
    + unfold kv_list, key_count_limit. simpl.
      replace (n <? - 2 ^ 31) with false by (symmetry; apply Z.ltb_ge; lia).
      replace (n <=? 0) with false by (symmetry; apply Z.leb_gt; lia).
      replace (n <=? 1000) with true by (symmetry; apply Z.leb_le; lia).
      reflexivity.
    + simpl. by rewrite take_ge.
Qed.

Lemma rate_limit_counter_in_TASKS_witness :
  let w1 := counted client fresh_world in
  let expiry := clock fresh_world 2 + 60000 in
  rateLimitKey client = "rate_limit:203.0.113.7"
  /\ rateLimiter client (get_tasks client) fresh_world = get_tasks client w1
  /\ tasks_kv (env w1) !! rateLimitKey client
     = Some {| value := Ser (JNum 1); expiration := Some expiry;
               metadata := None |}
  /\ comments_kv (env w1) = comments_kv (env fresh_world)
  /\ forall now, now < expiry ->
       ~ task_store_invariant (tasks_kv (env w1)) now
       /\ rateLimitKey client ∈ kv_keys (tasks_kv (env w1)) now
       /\ forall n,
            1 <= n <= 1000 ->
            (List.length (kv_keys (tasks_kv (env w1)) now) <= Z.to_nat n)%nat ->
            exists keys,
              kv_list (tasks_kv (env w1)) now (resume w1)
                {| list_limit := Fin n; list_cursor := None;
                   list_prefix := None |} = Some keys
              /\ rateLimitKey client ∈ keys.
Proof.
  exact (rate_limit_counter_in_TASKS client (get_tasks client) fresh_world
           eq_refl).
Defined.

(** Consequences for the task routes.  The listing of tasks, asked of an
    empty store, returns the entry made out of the asking client's own
    counter. *)
Example get_tasks_lists_counter :
  (api_v1 GET_tasks client fresh_world).2
  = c_json
      (JObj
        [("tasks",
           JArr [JObj [("links",
                  JObj [("self", JStr "/api/v1/tasks/undefined");
                        ("comments",
                          JStr "/api/v1/tasks/undefined/comments")])]]);
         ("metadata",
           JObj [("total", JNum 1); ("page", JNum 1); ("limit", JNum 10)]);
         ("links",
           JObj [("self", JStr tasks_url);
                 ("next", JStr (tasks_url +:+ "?page=2&limit=10"));
                 ("prev", JNull)])])
      200.
Proof. vm_compute. reflexivity. Qed.

(** The counter key answers as a task would: reading it by identifier
    gives 200, and a comment can be attached to it. *)
Example counter_key_read_as_task :
  let id := "rate_limit:203.0.113.7" in
  (api_v1 (GET_task id)
     (request (tasks_url +:+ "/" +:+ id) (tasks_path +:+ "/" +:+ id) []
        (Some "203.0.113.7") JNull)
     fresh_world).2
  = c_json
      (JObj [("links",
               JObj [("self", JStr (tasks_url +:+ "/" +:+ id));
                     ("comments",
                       JStr (tasks_url +:+ "/" +:+ id +:+ "/comments"))])])
      200.
Proof. vm_compute. reflexivity. Qed.

Example counter_key_takes_comment :
  let id := "rate_limit:203.0.113.7" in
  let out :=
    api_v1 (POST_comments id)
      (request (tasks_url +:+ "/" +:+ id +:+ "/comments")
         (tasks_path +:+ "/" +:+ id +:+ "/comments") []
         (Some "203.0.113.7") (JObj [("content", JStr "Looks good")]))
      fresh_world in
  tasks_kv (env fresh_world) !! id = None
  /\ status out.2 = 201
  /\ is_Some (comments_kv (env out.1) !! (id +:+ ":V1StGXR8_Z5jdHi6B-my0")).
Proof. vm_compute. split_and!; eauto. Qed.

(* ===================================================================== *)
(** ** Reading, deleting and commenting on a task *)
(* ===================================================================== *)

(** A plain-text body is not an error object. *)
Lemma text_not_error_body (s : string) : ~ is_error_body (Text s).
Proof. by intros (o & e & Hb & _). Qed.

(** C4.  [GET /api/v1/tasks/:id] for an identifier under which the store
    has no live entry answers 404 -- never 200, never 500 -- and reads the
    store without changing it; the body of that answer is the plain text
    [404 Not Found], not a JSON object with an [error] field. *)
Theorem get_task_absent (c : Context) (taskId : string) (w : world) :
  kv_get (tasks_kv (env w)) (clock w (S (io w))) taskId = None ->
  handle (get_task c taskId) w = (tick w, c_text "404 Not Found" 404)
  /\ status (handle (get_task c taskId) w).2 = 404
  /\ res_body (handle (get_task c taskId) w).2 = Text "404 Not Found"
  /\ ~ is_error_body (res_body (handle (get_task c taskId) w).2).
Proof.
  intros Habs.
  assert (Hrun : handle (get_task c taskId) w
                 = (tick w, c_text "404 Not Found" 404)).
  { unfold handle, get_task, get, mbind, M_bind, time. simpl.
    by rewrite Habs. }
  rewrite Hrun. split_and!; [done..|]. apply text_not_error_body.
Qed.

Lemma get_task_absent_witness :
  let c := request (tasks_url +:+ "/missing") (tasks_path +:+ "/missing")
             [] (Some "203.0.113.7") JNull in
  handle (get_task c "missing") fresh_world
  = (tick fresh_world, c_text "404 Not Found" 404)
  /\ status (handle (get_task c "missing") fresh_world).2 = 404
  /\ res_body (handle (get_task c "missing") fresh_world).2
     = Text "404 Not Found"
  /\ ~ is_error_body (res_body (handle (get_task c "missing") fresh_world).2).
Proof.
  exact (get_task_absent
           (request (tasks_url +:+ "/missing") (tasks_path +:+ "/missing")
              [] (Some "203.0.113.7") JNull)
           "missing" fresh_world eq_refl).
Defined.

(** The same request through the whole application. *)
Example get_missing_task_response :
  (api_v1 (GET_task "missing")
     (request (tasks_url +:+ "/missing") (tasks_path +:+ "/missing")
        [] (Some "203.0.113.7") JNull)
     fresh_world).2
  = {| status := 404; res_body := Text "404 Not Found" |}.
Proof. vm_compute. reflexivity. Qed.

(** C5.  [POST /api/v1/tasks/:id/comments] for an identifier under which
    the task store has no live entry: the handler answers 404 after that
    one read, whatever the validated body, and the route as a whole, with
    its validator and whatever the body, leaves both namespaces as they
    were, so no comment key is written. *)
Theorem post_comment_no_parent (c : Context) (taskId : string) (w : world) :
  kv_get (tasks_kv (env w)) (clock w (S (io w))) taskId = None ->
  (forall valid,
     post_comment c taskId valid w = (tick w, Ok c_notFound))
  /\ status c_notFound = 404
  /\ (forall valid,
        Zod.safeParse commentSchema (req_json c) = Zod.Success valid ->
        handle (dispatch (POST_comments taskId) c) w = (tick w, c_notFound))
  /\ comments_kv (env (handle (dispatch (POST_comments taskId) c) w).1)
     = comments_kv (env w)
  /\ tasks_kv (env (handle (dispatch (POST_comments taskId) c) w).1)
     = tasks_kv (env w).
Proof.
  intros Habs.
  assert (Hrun : forall valid,
            post_comment c taskId valid w = (tick w, Ok c_notFound)).
  { intros valid. unfold post_comment, get, mbind, M_bind, time. simpl.
    by rewrite Habs. }
  split_and!; [done | done | | |].
  - intros valid Hvalid. unfold handle, dispatch, zValidator.
    by rewrite Hvalid, Hrun.
  - unfold handle, dispatch, zValidator.
    destruct (Zod.safeParse _ _); [by rewrite Hrun | done].
  - unfold handle, dispatch, zValidator.
    destruct (Zod.safeParse _ _); [by rewrite Hrun | done].
Qed.

Lemma post_comment_no_parent_witness :
  let c := request (tasks_url +:+ "/missing/comments")
             (tasks_path +:+ "/missing/comments") [] (Some "203.0.113.7")
             (JObj [("content", JStr "Looks good")]) in
  (forall valid,
     post_comment c "missing" valid fresh_world
     = (tick fresh_world, Ok c_notFound))
  /\ status c_notFound = 404
  /\ (forall valid,
        Zod.safeParse commentSchema (req_json c) = Zod.Success valid ->
        handle (dispatch (POST_comments "missing") c) fresh_world
        = (tick fresh_world, c_notFound))
  /\ comments_kv
       (env (handle (dispatch (POST_comments "missing") c) fresh_world).1)
     = comments_kv (env fresh_world)
  /\ tasks_kv
       (env (handle (dispatch (POST_comments "missing") c) fresh_world).1)
     = tasks_kv (env fresh_world).
Proof.
  exact (post_comment_no_parent
           (request (tasks_url +:+ "/missing/comments")
              (tasks_path +:+ "/missing/comments") [] (Some "203.0.113.7")
              (JObj [("content", JStr "Looks good")]))
           "missing" fresh_world eq_refl).
Defined.

(** With a parent in place the same request does write a comment: the
    hypothesis of C5 is what keeps the comment store untouched. *)
Example post_comment_with_parent :
  let c := request (tasks_url +:+ "/a1/comments")
             (tasks_path +:+ "/a1/comments") [] (Some "203.0.113.7")
             (JObj [("content", JStr "Looks good")]) in
  let out := handle (dispatch (POST_comments "a1") c) two_tasks_world in
  status out.2 = 201
  /\ is_Some (comments_kv (env out.1) !! "a1:c0").
Proof. vm_compute. eauto. Qed.

(** C8.  [DELETE /api/v1/tasks/:id] answers 200 with the confirmation
    message for every identifier; after it the store has no entry under
    the identifier; a second delete of the same identifier answers the same
    and leaves the namespaces exactly as the first did; and a delete of an
    identifier that has no entry leaves them as they were. *)
Theorem delete_task_idempotent (c c' : Context) (taskId : string)
    (w : world) :
  let once := handle (delete_task c taskId) w in
  let twice := handle (delete_task c' taskId) once.1 in
  once.2 = deleted
  /\ twice.2 = deleted
  /\ status deleted = 200
  /\ res_body deleted
     = Json (JObj [("message", JStr "Task deleted successfully")])
  /\ tasks_kv (env once.1) !! taskId = None
  /\ env twice.1 = env once.1
  /\ (tasks_kv (env w) !! taskId = None -> env once.1 = env w).
Proof.
  simpl. split_and!; try done.
  - apply lookup_delete_eq.
  - unfold kv_delete. by rewrite delete_delete_eq.
  - intros Habs. unfold kv_delete. rewrite delete_id by done.
    by destruct w as [[] ? ? ? ? ?].
Qed.

Lemma delete_task_idempotent_witness :
  let c := request (tasks_url +:+ "/a1") (tasks_path +:+ "/a1") []
             (Some "203.0.113.7") JNull in
  let once := handle (delete_task c "a1") two_tasks_world in
  let twice := handle (delete_task c "a1") once.1 in
  once.2 = deleted
  /\ twice.2 = deleted
  /\ status deleted = 200
  /\ res_body deleted
     = Json (JObj [("message", JStr "Task deleted successfully")])
  /\ tasks_kv (env once.1) !! "a1" = None
  /\ env twice.1 = env once.1
  /\ (tasks_kv (env two_tasks_world) !! "a1" = None ->
      env once.1 = env two_tasks_world).
Proof.
  exact (delete_task_idempotent
           (request (tasks_url +:+ "/a1") (tasks_path +:+ "/a1") []
              (Some "203.0.113.7") JNull)
           (request (tasks_url +:+ "/a1") (tasks_path +:+ "/a1") []
              (Some "203.0.113.7") JNull)
           "a1" two_tasks_world).
Defined.

(* ===================================================================== *)
(** ** Creating a task *)
(* ===================================================================== *)

(** The task schema on a body that sets a valid title and none of the
    other three fields: the defaults are filled in. *)
Lemma taskSchema_title_only (o : obj) (t : string) :
  obj_get "title" o = Some (JStr t) ->
  (1 <= String.length t <= 100)%nat ->
  obj_get "status" o = None ->
  obj_get "priority" o = None ->
  obj_get "labels" o = None ->
  Zod.safeParse taskSchema (JObj o)
  = Zod.Success
      [("title", JStr t); ("status", JStr "todo");
       ("priority", JStr "medium"); ("labels", JArr [])].
Proof.
  intros Ht Hlen Hs Hp Hl.
  unfold Zod.safeParse, Zod.object, taskSchema. simpl.
  rewrite Ht, Hs, Hp, Hl. simpl.
  replace (Z.of_nat (String.length t) <? 1) with false by
    (symmetry; apply Z.ltb_ge; lia).
  replace (100 <? Z.of_nat (String.length t)) with false by
    (symmetry; apply Z.ltb_ge; lia).
  reflexivity.
Qed.

(** C6.  [POST /api/v1/tasks] with a body whose only schema field is a
    valid title answers 201 with the created record, which is also what is
    stored under the new identifier; the record has [status] todo,
    [priority] medium, no labels, and [createdAt] equal to [updatedAt],
    both being the clock reading of the request. *)
Theorem post_task_defaults (c : Context) (w : world) (o : obj) (t : string) :
  req_json c = JObj o ->
  obj_get "title" o = Some (JStr t) ->
  (1 <= String.length t <= 100)%nat ->
  obj_get "status" o = None ->
  obj_get "priority" o = None ->
  obj_get "labels" o = None ->
  let taskId := nanoid_source w (drawn w) in
  let out := handle (dispatch POST_tasks c) w in
  exists task,
    out.2 = c_json (JObj task) 201
    /\ status out.2 = 201
    /\ tasks_kv (env out.1) !! taskId
       = Some {| value := Ser (JObj task); expiration := None;
                 metadata := Some (JObj task) |}
    /\ obj_get "id" task = Some (JStr taskId)
    /\ obj_get "title" task = Some (JStr t)
    /\ obj_get "status" task = Some (JStr "todo")
    /\ obj_get "priority" task = Some (JStr "medium")
    /\ obj_get "labels" task = Some (JArr [])
    /\ obj_get "createdAt" task = Some (JNum (time w))
    /\ obj_get "updatedAt" task = obj_get "createdAt" task.
Proof.
  intros Hbody Ht Hlen Hs Hp Hl taskId out. subst out.
  unfold handle, dispatch, zValidator.
  rewrite Hbody, (taskSchema_title_only o t Ht Hlen Hs Hp Hl).
  eexists. unfold post_task, mbind, M_bind, nanoid, Date_now, put, kv_put.
  simpl. rewrite lookup_insert_eq. split_and!; reflexivity.
Qed.

Lemma post_task_defaults_witness :
  let c := request tasks_url tasks_path [] (Some "203.0.113.7")
             (JObj [("title", JStr "Buy milk")]) in
  let out := handle (dispatch POST_tasks c) fresh_world in
  exists task,
    out.2 = c_json (JObj task) 201
    /\ status out.2 = 201
    /\ tasks_kv (env out.1) !! "V1StGXR8_Z5jdHi6B-my0"
       = Some {| value := Ser (JObj task); expiration := None;
                 metadata := Some (JObj task) |}
    /\ obj_get "id" task = Some (JStr "V1StGXR8_Z5jdHi6B-my0")
    /\ obj_get "title" task = Some (JStr "Buy milk")
    /\ obj_get "status" task = Some (JStr "todo")
    /\ obj_get "priority" task = Some (JStr "medium")
    /\ obj_get "labels" task = Some (JArr [])
    /\ obj_get "createdAt" task = Some (JNum 1700000000000)
    /\ obj_get "updatedAt" task = obj_get "createdAt" task.
Proof.
  apply (post_task_defaults
           (request tasks_url tasks_path [] (Some "203.0.113.7")
              (JObj [("title", JStr "Buy milk")]))
           fresh_world [("title", JStr "Buy milk")] "Buy milk");
    [reflexivity | reflexivity | simpl; lia | reflexivity..].
Defined.

(* ===================================================================== *)
(** ** Rejecting an empty title *)
(* ===================================================================== *)

(** The task schema on a body whose title is the empty string fails, and
    its first issue is at the path [title]. *)
Lemma taskSchema_empty_title (o : obj) :
  obj_get "title" o = Some (JStr "") ->
  exists i rest,
    Zod.safeParse taskSchema (JObj o) = Zod.Failure (i :: rest)
    /\ Zod.code i = "too_small"
    /\ Zod.path i = [JStr "title"].
Proof.
  intros Ht. unfold Zod.safeParse, Zod.object, taskSchema.
  cbn [Zod.parse_shape]. rewrite Ht.
  cbn [Zod.string_ map List.concat Zod.run_check String.length Z.of_nat
       Z.ltb Z.compare fst snd app].
  do 2 eexists. split; [reflexivity|]. done.
Qed.

(** The answer of the validator to a failed parse carries every issue. *)
Lemma validation_error_issue (issues : list Zod.issue) (i : Zod.issue) :
  i ∈ issues ->
  has_issue_at (Zod.path i)
    (c_json
       (JObj [("success", JBool false);
              ("error",
                JObj [("issues", JArr (map Zod.issue_json issues));
                      ("name", JStr "ZodError")])])
       400).
Proof.
  intros Hin. eexists _, _, (Zod.issue_json i).
  split_and!; [reflexivity | reflexivity | | reflexivity].
  change (map Zod.issue_json issues) with (Zod.issue_json <$> issues).
  by apply list_elem_of_fmap_2.
Qed.

(** C7, as stated, fails: a creation request with an empty title, sent to
    an empty store, is answered 400, yet two store operations have run and
    the task namespace has gained the client's rate-limit counter. *)
Lemma empty_title_request_writes_counter :
  let out := api_v1 POST_tasks empty_title_request fresh_world in
  status out.2 = 400
  /\ io fresh_world = 0%nat /\ io out.1 = 2%nat
  /\ tasks_kv (env fresh_world) !! "rate_limit:203.0.113.7" = None
  /\ tasks_kv (env out.1) !! "rate_limit:203.0.113.7"
     = Some {| value := Ser (JNum 1);
               expiration := Some (1700000000002 + 60000);
               metadata := None |}
  /\ env out.1 <> env fresh_world.
Proof.
  vm_compute. split_and!; try reflexivity. discriminate.
Qed.

(** C7, amended.  [POST /api/v1/tasks] with a body whose title is the
    empty string: the route -- validator and handler -- answers 400 with an
    issue at the path [title] under [error.issues], performs no store
    operation and draws no identifier, the handler body never running.  The
    request as a whole is either stopped by the rate limiter with 429 and
    the store unchanged, or gets that 400 after the rate limiter has read
    and rewritten the client's counter, which is the only key of either
    namespace that differs afterwards. *)
Theorem empty_title_rejected (c : Context) (w : world) (o : obj) :
  req_json c = JObj o ->
  obj_get "title" o = Some (JStr "") ->
  (exists r,
     dispatch POST_tasks c w = (w, Ok r)
     /\ status r = 400
     /\ has_issue_at [JStr "title"] r)
  /\ let out := api_v1 POST_tasks c w in
     (status out.2 = 429 /\ env out.1 = env w)
     \/ (status out.2 = 400
         /\ has_issue_at [JStr "title"] out.2
         /\ out.1 = counted c w
         /\ comments_kv (env out.1) = comments_kv (env w)
         /\ forall k, k <> rateLimitKey c ->
              tasks_kv (env out.1) !! k = tasks_kv (env w) !! k).
Proof.
  intros Hbody Ht.
  destruct (taskSchema_empty_title o Ht) as (i & rest & Hparse & _ & Hpath).
  assert (Hroute : forall w0, exists r,
            dispatch POST_tasks c w0 = (w0, Ok r)
            /\ status r = 400 /\ has_issue_at [JStr "title"] r).
  { intros w0. unfold dispatch, zValidator. rewrite Hbody, Hparse.
    eexists. split_and!; [reflexivity | reflexivity |].
    rewrite <- Hpath. apply validation_error_issue. left. }
  split; [apply Hroute|].
  unfold api_v1, handle. rewrite rateLimiter_unfold.
  destruct (num_ge _ _); cbv iota.
  - by left.
  - right. destruct (Hroute (counted c w)) as (r & -> & Hst & Hissue).
    split_and!; [done | done | done | done |].
    intros k Hk. by apply counted_other.
Qed.

Lemma empty_title_rejected_witness :
  (exists r,
     dispatch POST_tasks empty_title_request fresh_world
     = (fresh_world, Ok r)
     /\ status r = 400
     /\ has_issue_at [JStr "title"] r)
  /\ let out := api_v1 POST_tasks empty_title_request fresh_world in
     (status out.2 = 429 /\ env out.1 = env fresh_world)
     \/ (status out.2 = 400
         /\ has_issue_at [JStr "title"] out.2
         /\ out.1 = counted empty_title_request fresh_world
         /\ comments_kv (env out.1) = comments_kv (env fresh_world)
         /\ forall k, k <> rateLimitKey empty_title_request ->
              tasks_kv (env out.1) !! k = tasks_kv (env fresh_world) !! k).
Proof.
  exact (empty_title_rejected empty_title_request fresh_world
           [("title", JStr "")] eq_refl eq_refl).
Defined.

(* ===================================================================== *)
(** ** Updating a task *)
(* ===================================================================== *)

Section LiteralFacts.

Implicit Types (k : string) (base : obj)
  (fields : list (string * option json)).

Lemma obj_get_literal_notin k base fields :
  k ∉ map fst fields -> obj_get k (literal base fields) = obj_get k base.
Proof.
  unfold literal. revert base.
  induction fields as [|[k' ov] fields IH]; intros base Hn; simpl; [done|].
  assert (k <> k') by (intros ->; apply Hn; left).
  rewrite IH by (intros Hin; apply Hn; by right).
  destruct ov; simpl; [by apply obj_get_set_ne | by apply obj_get_del_ne].
Qed.

Lemma obj_get_literal_in k ov base fields :
  NoDup (map fst fields) -> (k, ov) ∈ fields ->
  obj_get k (literal base fields) = ov.
Proof.
  revert base.
  induction fields as [|[k' ov'] fields IH]; intros base Hnd Hin.
  - by apply elem_of_nil in Hin.
  - simpl in Hnd. apply NoDup_cons in Hnd as [Hnotin Hnd].
    apply elem_of_cons in Hin as [[= <- <-]|Hin].
    + change (literal base ((k, ov) :: fields))
        with (literal (match ov with
                       | Some v => obj_set k v base
                       | None => obj_del k base
                       end) fields).
      rewrite obj_get_literal_notin by done.
      destruct ov; [apply obj_get_set_eq | apply obj_get_del_eq].
    + change (literal base ((k', ov') :: fields))
        with (literal (match ov' with
                       | Some v => obj_set k' v base
                       | None => obj_del k' base
                       end) fields).
      by apply IH.
Qed.

End LiteralFacts.

(** The parse of a shape reports on the keys of the shape, in order. *)
Lemma parse_shape_keys (sh : Zod.shape) (o : obj) (p : list json) :
  map fst (Zod.parse_shape sh o p).1 = map fst sh.
Proof.
  induction sh as [|[k s] sh IH]; simpl; [done|]. by rewrite IH.
Qed.

Lemma partial_keys (sh : Zod.shape) :
  map fst (Zod.partial sh) = map fst sh.
Proof. induction sh as [|[k s] sh IH]; simpl; [done|]. by rewrite IH. Qed.

(** Under [partial], a key the body does not set parses to [undefined]:
    no default is filled in. *)
Lemma parse_partial_absent (sh : Zod.shape) (o : obj) (p : list json)
    (k : string) (ov : option json) :
  (k, ov) ∈ (Zod.parse_shape (Zod.partial sh) o p).1 ->
  obj_get k o = None -> ov = None.
Proof.
  induction sh as [|[k' s] sh IH]; simpl.
  - intros Hin. by apply elem_of_nil in Hin.
  - intros Hin Habs. apply elem_of_cons in Hin as [[= -> ->]|Hin]; [|by apply IH].
    unfold Zod.optional. by rewrite Habs.
Qed.

(** What [c.req.valid('json')] holds after validation against
    [taskSchema.partial()]: distinct keys, all among the four of the
    schema, and none that the body does not set. *)
Lemma partial_taskSchema_fields (b : json) (fields : obj) :
  Zod.safeParse (Zod.partial taskSchema) b = Zod.Success fields ->
  NoDup (map fst fields)
  /\ (forall k, obj_get k fields <> None ->
        k ∈ ["title"; "status"; "priority"; "labels"])
  /\ (forall k, prop k b = None -> obj_get k fields = None).
Proof.
  unfold Zod.safeParse, Zod.object.
  destruct b as [| | | | |o]; try discriminate.
  destruct (Zod.parse_shape _ _ _) as [outs issues] eqn:Hparse.
  assert (Hkeys : map fst outs = ["title"; "status"; "priority"; "labels"]).
  { change outs with (outs, issues).1. rewrite <- Hparse.
    by rewrite parse_shape_keys, partial_keys. }
  cbn [fst snd]. destruct issues; [|discriminate]. intros [= <-].
  split_and!.
  - apply literal_NoDup. constructor.
  - intros k Hk. destruct (decide (k ∈ map fst outs)) as [Hin|Hnin].
    + by rewrite <- Hkeys.
    + by rewrite obj_get_literal_notin in Hk.
  - intros k Habs. simpl in Habs.
    destruct (decide (k ∈ map fst outs)) as [Hin|Hnin].
    + change (map fst outs) with (fst <$> outs) in Hin.
      apply list_elem_of_fmap in Hin as ([k' ov] & -> & Hin).
      rewrite (obj_get_literal_in k' ov) ; [| |done].
      * apply (parse_partial_absent taskSchema o [] k' ov); [|done].
        by rewrite Hparse.
      * rewrite Hkeys.
        by apply (bool_decide_unpack
                    (NoDup ["title"; "status"; "priority"; "labels"])).
    + by rewrite obj_get_literal_notin.
Qed.

(** The update handler on a live record: what it answers and stores. *)
Lemma put_task_live (c : Context) (taskId : string) (fields : obj)
    (w : world) (e : kv_entry) (old : obj) :
  tasks_kv (env w) !! taskId = Some e ->
  live (clock w (S (io w))) e = true ->
  value e = Ser (JObj old) ->
  let new :=
    literal (obj_assign (obj_assign [] old) fields)
      [("updatedAt", Some (JNum (clock w (S (io w)))));
       ("links", Some (item_links c))] in
  put_task c taskId fields w
  = (with_env
       (set_ns TASKS
          (kv_put (tasks_kv (env w)) (clock w (S (S (io w)))) taskId
             (Ser (JObj new)) no_options)
          (env w))
       (tick (tick w)),
     Ok (c_json (JObj new) 200)).
Proof.
  intros Hk Hlive Hv.
  unfold put_task, get, mbind, M_bind, kv_get, time. simpl.
  rewrite Hk. simpl. rewrite Hlive, Hv. reflexivity.
Qed.

(** C3, as stated, fails: a task is created and then updated while the
    clock still shows the same millisecond; the update is answered 200 and
    the stored [updatedAt] is what it was, not greater. *)
Lemma put_task_updatedAt_not_increased :
  let created := (api_v1 POST_tasks create_request same_ms_world).1 in
  let id := "V1StGXR8_Z5jdHi6B-my0" in
  let out := api_v1 (PUT_task id) (update_request id) created in
  exists old new,
    tasks_kv (env created) !! id = Some (Entry (Ser (JObj old)) None (Some (JObj old)))
    /\ status out.2 = 200
    /\ tasks_kv (env out.1) !! id = Some (stored (JObj new))
    /\ obj_get "updatedAt" old = Some (JNum 1700000000000)
    /\ obj_get "updatedAt" new = Some (JNum 1700000000000)
    /\ ~ (1700000000000 < 1700000000000).
Proof.
  vm_compute. do 2 eexists. split_and!; try reflexivity. discriminate.
Qed.

(** C3, amended.  [PUT /api/v1/tasks/:id] on a live task record (an
    object, its keys distinct) with a body that passes the partial schema
    answers 200 and stores the merged record under the same identifier.  In it every property other than
    [updatedAt] and [links] that the body does not set keeps its stored
    value, and one the validated body sets has the new value; [id] and
    [createdAt] keep their stored values whatever the body holds, because
    the schema strips them; [links] is recomputed from the request URL;
    and [updatedAt] is the clock reading taken after the record was read,
    so it is greater than the stored one exactly when that reading is. *)
Theorem put_task_merge (c : Context) (taskId : string) (w : world)
    (e : kv_entry) (old fields : obj) :
  tasks_kv (env w) !! taskId = Some e ->
  live (clock w (S (io w))) e = true ->
  value e = Ser (JObj old) ->
  NoDup (map fst old) ->
  Zod.safeParse (Zod.partial taskSchema) (req_json c) = Zod.Success fields ->
  let out := handle (dispatch (PUT_task taskId) c) w in
  exists new,
    out.2 = c_json (JObj new) 200
    /\ tasks_kv (env out.1) !! taskId = Some (stored (JObj new))
    /\ (forall k, k <> "updatedAt" -> k <> "links" ->
          prop k (req_json c) = None -> obj_get k new = obj_get k old)
    /\ (forall k v, k <> "updatedAt" -> k <> "links" ->
          obj_get k fields = Some v -> obj_get k new = Some v)
    /\ obj_get "id" new = obj_get "id" old
    /\ obj_get "createdAt" new = obj_get "createdAt" old
    /\ obj_get "links" new = Some (item_links c)
    /\ obj_get "updatedAt" new = Some (JNum (clock w (S (io w))))
    /\ (forall u, obj_get "updatedAt" old = Some (JNum u) ->
          (exists u', obj_get "updatedAt" new = Some (JNum u') /\ u < u')
          <-> u < clock w (S (io w))).
Proof.
  intros Hk Hlive Hv Hnd Hvalid out. subst out.
  destruct (partial_taskSchema_fields _ _ Hvalid) as (Hfnd & Hfkeys & Hfabs).
  unfold handle, dispatch, zValidator. rewrite Hvalid.
  rewrite (put_task_live c taskId fields w e old Hk Hlive Hv).
  eexists. split; [reflexivity|]. cbn [fst snd].
  assert (Hmerge : forall k, k <> "updatedAt" -> k <> "links" ->
    obj_get k
      (literal (obj_assign (obj_assign [] old) fields)
         [("updatedAt", Some (JNum (clock w (S (io w)))));
          ("links", Some (item_links c))])
    = match obj_get k fields with
      | Some v => Some v
      | None => obj_get k old
      end).
  { intros k Hu Hl. unfold literal. simpl. obj_lookup.
    rewrite obj_get_assign by done. by rewrite obj_get_assign_nil. }
  assert (Hstrip : forall k,
            k ∉ ["title"; "status"; "priority"; "labels"] ->
            obj_get k fields = None).
  { intros k Hnot. destruct (obj_get k fields) eqn:Hg; [|done].
    exfalso. apply Hnot, Hfkeys. by rewrite Hg. }
  assert (Hupd :
    obj_get "updatedAt"
      (literal (obj_assign (obj_assign [] old) fields)
         [("updatedAt", Some (JNum (clock w (S (io w)))));
          ("links", Some (item_links c))])
    = Some (JNum (clock w (S (io w))))).
  { unfold literal. simpl. by obj_lookup. }
  split_and!.
  - unfold put, kv_put, stored, no_options. simpl. apply lookup_insert_eq.
  - intros k Hu Hl Habs. by rewrite Hmerge, Hfabs.
  - intros k v Hu Hl Hset. by rewrite Hmerge, Hset.
  - rewrite Hmerge, Hstrip; [done | | done | done].
    apply (bool_decide_unpack _). by vm_compute.
  - rewrite Hmerge, Hstrip; [done | | done | done].
    apply (bool_decide_unpack _). by vm_compute.
  - unfold literal. simpl. by obj_lookup.
  - done.
  - intros u Hu. rewrite Hupd. split.
    + by intros (u' & [= <-] & Hlt).
    + intros Hlt. eauto.
Qed.

Lemma put_task_merge_witness :
  let c := update_request "b2" in
  let old := sample_props "b2" "Pay rent" "todo" 1500 1500 in
  let out := handle (dispatch (PUT_task "b2") c) two_tasks_world in
  exists new,
    out.2 = c_json (JObj new) 200
    /\ tasks_kv (env out.1) !! "b2" = Some (stored (JObj new))
    /\ (forall k, k <> "updatedAt" -> k <> "links" ->
          prop k (req_json c) = None -> obj_get k new = obj_get k old)
    /\ (forall k v, k <> "updatedAt" -> k <> "links" ->
          obj_get k [("status", JStr "done")] = Some v ->
          obj_get k new = Some v)
    /\ obj_get "id" new = obj_get "id" old
    /\ obj_get "createdAt" new = obj_get "createdAt" old
    /\ obj_get "links" new = Some (item_links c)
    /\ obj_get "updatedAt" new = Some (JNum 2000)
    /\ (forall u, obj_get "updatedAt" old = Some (JNum u) ->
          (exists u', obj_get "updatedAt" new = Some (JNum u') /\ u < u')
          <-> u < 2000).
Proof.
  apply (put_task_merge (update_request "b2") "b2" two_tasks_world
           (stored (sample_task "b2" "Pay rent" "todo" 1500 1500))
           (sample_props "b2" "Pay rent" "todo" 1500 1500)
           [("status", JStr "done")]);
    [reflexivity | reflexivity | reflexivity | | reflexivity].
  apply (bool_decide_unpack _). vm_compute. exact I.
Defined.

(** The scenario of the specification: create, mark done, list by status. *)
Example create_update_list :
  let w1 := (api_v1 POST_tasks create_request fresh_world).1 in
  let id := "V1StGXR8_Z5jdHi6B-my0" in
  let w2 := (api_v1 (PUT_task id) (update_request id) w1).1 in
  let listing :=
    (api_v1 GET_tasks
       (request (tasks_url +:+ "?status=done") tasks_path
          [("status", "done")] (Some "203.0.113.7") JNull) w2).2 in
  exists t,
    res_body listing
    = Json (JObj
        [("tasks", JArr [JObj t]);
         ("metadata",
           JObj [("total", JNum 1); ("page", JNum 1); ("limit", JNum 10)]);
         ("links",
           JObj [("self", JStr (tasks_url +:+ "?status=done"));
                 ("next",
                   JStr (tasks_url +:+ "?status=done?page=2&limit=10"));
                 ("prev", JNull)])])
    /\ obj_get "id" t = Some (JStr id)
    /\ obj_get "title" t = Some (JStr "Buy milk")
    /\ obj_get "status" t = Some (JStr "done").
Proof. vm_compute. eexists. split_and!; reflexivity. Qed.

Lemma get_tasks_status_filter_witness :
  let c := request (tasks_url +:+ "?status=done") tasks_path
             [("status", "done")] (Some "203.0.113.7") JNull in
  exists w' r,
    get_tasks c two_tasks_world = (w', Ok r)
    /\ exists (page tasks : list obj) (b : json),
         fetch_page c two_tasks_world = (w', Ok page)
         /\ tasks = List.filter (keep (Some "done") (query c "priority")) page
         /\ status r = 200
         /\ res_body r = Json b
         /\ prop "tasks" b = Some (JArr (map JObj tasks))
         /\ Forall (fun t => obj_get "status" t = Some (JStr "done")) tasks
         /\ (prop "metadata" b ≫= prop "total")
            = Some (JNum (Z.of_nat (List.length tasks)))
         /\ (List.length tasks <= List.length page)%nat.
Proof.
  intros c. eexists _, _. split; [vm_compute; reflexivity|].
  apply (get_tasks_status_filter c two_tasks_world _ _ "done");
    [reflexivity | discriminate | vm_compute; reflexivity].
Defined.

(** On that store the unfiltered page has two records and the filtered
    listing one: the total is the filtered count. *)
Example filtered_total_below_page_size :
  let c := request (tasks_url +:+ "?status=done") tasks_path
             [("status", "done")] (Some "203.0.113.7") JNull in
  (exists w' page, fetch_page c two_tasks_world = (w', Ok page)
                   /\ List.length page = 2%nat)
  /\ exists w' r b,
       get_tasks c two_tasks_world = (w', Ok r)
       /\ res_body r = Json b
       /\ (prop "metadata" b ≫= prop "total") = Some (JNum 1).
Proof.
  split.
  - eexists _, _. split; [vm_compute; reflexivity | reflexivity].
  - eexists _, _, _. split_and!; [vm_compute; reflexivity | reflexivity..].
Qed.

(* ===================================================================== *)
(** ** The schemas: which bodies pass *)
(* ===================================================================== *)

Section SchemaFacts.

Implicit Types (v out : option json) (p : list json).

(** A string with a minimum and a maximum length. *)
Lemma string_bounds_ok (a b : Z) v p out :
  Zod.string_ [Zod.Min a; Zod.Max b] v p = (out, [])
  <-> exists s, v = Some (JStr s)
        /\ a <= Z.of_nat (String.length s) <= b
        /\ out = Some (JStr s).
Proof.
  unfold Zod.string_. split.
  - destruct v as [[| | |s| |]|]; try discriminate. simpl.
    destruct (Z.ltb_spec (Z.of_nat (String.length s)) a); [discriminate|].
    destruct (Z.ltb_spec b (Z.of_nat (String.length s))); [discriminate|].
    intros [= <-]. exists s. split_and!; [done | lia | lia | done].
  - intros (s & -> & Hlen & ->). simpl.
    destruct (Z.ltb_spec (Z.of_nat (String.length s)) a); [lia|].
    destruct (Z.ltb_spec b (Z.of_nat (String.length s))); [lia|]. done.
Qed.

(** An enumeration with a default. *)
Lemma enum_default_ok (opts : list string) (d : string) v p out :
  Zod.default_ (Zod.enum opts) (JStr d) v p = (out, [])
  <-> exists s, (v = None /\ s = d \/ v = Some (JStr s))
        /\ existsb (String.eqb s) opts = true
        /\ out = Some (JStr s).
Proof.
  unfold Zod.default_, Zod.enum. split.
  - destruct v as [[| | |s| |]|]; try discriminate.
    + destruct (existsb (String.eqb s) opts) eqn:Hin; [|discriminate].
      intros [= <-]. exists s. auto.
    + destruct (existsb (String.eqb d) opts) eqn:Hin; [|discriminate].
      intros [= <-]. exists d. auto.
  - intros (s & [[-> ->] | ->] & Hin & ->); by rewrite Hin.
Qed.

(** The items of an array of strings parse without issue exactly when
    they are all strings, and are then returned as they are. *)
Lemma parse_items_strings p (i : nat) (l : list json) :
  (Zod.parse_items (Zod.string_ []) p i l).2 = []
  <-> exists ls, l = JStr <$> ls.
Proof.
  revert i. induction l as [|x l IH]; intros i; simpl.
  - split; [by exists [] | done].
  - split.
    + intros Hnil. apply app_eq_nil in Hnil as [Hx Hl].
      apply IH in Hl as [ls ->].
      destruct x as [| | |s| |]; try discriminate. by exists (s :: ls).
    + intros [[|s ls] Heq]; [discriminate|]. injection Heq as -> ->. simpl.
      apply IH. by exists ls.
Qed.

Lemma parse_items_strings_out p (i : nat) (ls : list string) :
  (Zod.parse_items (Zod.string_ []) p i (JStr <$> ls)).1 = JStr <$> ls.
Proof.
  revert i. induction ls as [|s ls IH]; intros i; simpl; [done|].
  by rewrite IH.
Qed.

(** An array of strings with the empty default. *)
Lemma labels_default_ok v p out :
  Zod.default_ (Zod.array (Zod.string_ [])) (JArr []) v p = (out, [])
  <-> exists ls, (v = None /\ ls = [] \/ v = Some (JArr (JStr <$> ls)))
        /\ out = Some (JArr (JStr <$> ls)).
Proof.
  unfold Zod.default_, Zod.array. split.
  - destruct v as [[| | | |l|]|]; try discriminate.
    + intros [= <- Hnil]. apply parse_items_strings in Hnil as [ls ->].
      exists ls. by rewrite parse_items_strings_out; auto.
    + simpl. intros [= <-]. exists []. auto.
  - intros (ls & [[-> ->] | ->] & ->); [done|].
    rewrite parse_items_strings_out.
    by rewrite (proj2 (parse_items_strings p 0 (JStr <$> ls)))
      by (by exists ls).
Qed.

End SchemaFacts.

Lemma existsb_eqb_elem_of (x : string) (l : list string) :
  existsb (String.eqb x) l = true <-> x ∈ l.
Proof.
  rewrite existsb_exists. split.
  - intros (y & Hy & ->%String.eqb_eq). by apply list_elem_of_In.
  - intros Hx. exists x. split; [by apply list_elem_of_In|].
    apply String.eqb_refl.
Qed.

(** What a body that passes [taskSchema] looks like, and the data parsed
    from it. *)
Lemma taskSchema_success_shape (b : json) (data : obj) :
  Zod.safeParse taskSchema b = Zod.Success data ->
  exists (o : obj) (t s p : string) (ls : list string),
    b = JObj o
    /\ obj_get "title" o = Some (JStr t)
    /\ (1 <= String.length t <= 100)%nat
    /\ (obj_get "status" o = None /\ s = "todo"
        \/ obj_get "status" o = Some (JStr s))
    /\ s ∈ statuses
    /\ (obj_get "priority" o = None /\ p = "medium"
        \/ obj_get "priority" o = Some (JStr p))
    /\ p ∈ priorities
    /\ (obj_get "labels" o = None /\ ls = []
        \/ obj_get "labels" o = Some (JArr (JStr <$> ls)))
    /\ data = [("title", JStr t); ("status", JStr s);
               ("priority", JStr p); ("labels", JArr (JStr <$> ls))].
Proof.
  unfold Zod.safeParse, Zod.object, taskSchema.
  destruct b as [| | | | |o]; try discriminate.
  cbn [Zod.parse_shape fst snd app].
  destruct (Zod.string_ _ _ _) as [o1 i1] eqn:H1.
  destruct (Zod.default_ (Zod.enum ["todo"; _; _]) _ _ _)
    as [o2 i2] eqn:H2.
  destruct (Zod.default_ (Zod.enum ["low"; _; _]) _ _ _)
    as [o3 i3] eqn:H3.
  destruct (Zod.default_ (Zod.array _) _ _ _) as [o4 i4] eqn:H4.
  cbn [fst snd].
  destruct (i1 ++ i2 ++ i3 ++ i4 ++ []) eqn:Hall; [|discriminate].
  apply app_eq_nil in Hall as [-> Hall].
  apply app_eq_nil in Hall as [-> Hall].
  apply app_eq_nil in Hall as [-> Hall].
  apply app_eq_nil in Hall as [-> _].
  apply string_bounds_ok in H1 as (t & Ht & Hlen & ->).
  apply enum_default_ok in H2 as (s & Hs & Hsin & ->).
  apply enum_default_ok in H3 as (p & Hp & Hpin & ->).
  apply labels_default_ok in H4 as (ls & Hls & ->).
  intros [= <-]. exists o, t, s, p, ls.
  split_and!; [done | done | lia | lia | done
              | by apply existsb_eqb_elem_of | done
              | by apply existsb_eqb_elem_of | done | reflexivity].
Qed.

(** X1.  A creation body passes [taskSchema] exactly when it is an object
    whose [title] is a string of 1 to 100 characters, whose [status] and
    [priority], when set, are values of their enumerations, and whose
    [labels], when set, is an array of strings; the parsed data are then
    these four fields, with [todo], [medium] and the empty array for the
    ones left out, and nothing else of the body. *)
Theorem taskSchema_accepts (b : json) (data : obj) :
  Zod.safeParse taskSchema b = Zod.Success data
  <-> exists (o : obj) (t s p : string) (ls : list string),
        b = JObj o
        /\ obj_get "title" o = Some (JStr t)
        /\ (1 <= String.length t <= 100)%nat
        /\ (obj_get "status" o = None /\ s = "todo"
            \/ obj_get "status" o = Some (JStr s))
        /\ s ∈ statuses
        /\ (obj_get "priority" o = None /\ p = "medium"
            \/ obj_get "priority" o = Some (JStr p))
        /\ p ∈ priorities
        /\ (obj_get "labels" o = None /\ ls = []
            \/ obj_get "labels" o = Some (JArr (JStr <$> ls)))
        /\ data = [("title", JStr t); ("status", JStr s);
                   ("priority", JStr p); ("labels", JArr (JStr <$> ls))].
Proof.
  split; [apply taskSchema_success_shape|].
  unfold Zod.safeParse, Zod.object, taskSchema.
  intros (o & t & s & p & ls & -> & Ht & Hlen & Hs & Hsin & Hp & Hpin
          & Hls & ->).
  cbn [Zod.parse_shape fst snd app].
  rewrite (proj2 (string_bounds_ok 1 100 (obj_get "title" o)
                    [JStr "title"] (Some (JStr t))))
    by (exists t; split_and!; [done | lia | lia | done]).
  rewrite (proj2 (enum_default_ok ["todo"; "in-progress"; "done"] "todo"
                    (obj_get "status" o) [JStr "status"] (Some (JStr s))))
    by (exists s; split_and!; [done | by apply existsb_eqb_elem_of | done]).
  rewrite (proj2 (enum_default_ok ["low"; "medium"; "high"] "medium"
                    (obj_get "priority" o) [JStr "priority"]
                    (Some (JStr p))))
    by (exists p; split_and!; [done | by apply existsb_eqb_elem_of | done]).
  rewrite (proj2 (labels_default_ok (obj_get "labels" o) [JStr "labels"]
                    (Some (JArr (JStr <$> ls)))))
    by (by exists ls).
  reflexivity.
Qed.

Lemma taskSchema_accepts_witness :
  Zod.safeParse taskSchema
    (JObj [("title", JStr "Buy milk"); ("id", JStr "mine");
           ("labels", JArr [JStr "home"])])
  = Zod.Success
      [("title", JStr "Buy milk"); ("status", JStr "todo");
       ("priority", JStr "medium"); ("labels", JArr [JStr "home"])].
Proof.
  apply (proj2 (taskSchema_accepts _ _)).
  exists [("title", JStr "Buy milk"); ("id", JStr "mine");
          ("labels", JArr [JStr "home"])],
         "Buy milk", "todo", "medium", ["home"].
  split_and!; [reflexivity | reflexivity | simpl; lia | simpl; lia
              | by left | | by left | | by right | reflexivity];
    apply (bool_decide_unpack _); vm_compute; exact I.
Defined.

(** An issue raised on a key of the shape is among the issues of the
    object, and makes the parse fail. *)
Lemma parse_shape_issue (sh : Zod.shape) (o : obj) (p : list json)
    (k : string) (s : Zod.schema) (i : Zod.issue) :
  (k, s) ∈ sh ->
  i ∈ (s (obj_get k o) (p ++ [JStr k])).2 ->
  i ∈ (Zod.parse_shape sh o p).2.
Proof.
  induction sh as [|[k' s'] sh IH]; simpl.
  - intros Hin. by apply elem_of_nil in Hin.
  - intros Hin Hi. apply elem_of_app.
    apply elem_of_cons in Hin as [[= <- <-]|Hin]; [by left | right; by apply IH].
Qed.

Lemma safeParse_issue (sh : Zod.shape) (o : obj) (i : Zod.issue) :
  i ∈ (Zod.parse_shape sh o []).2 ->
  Zod.safeParse sh (JObj o) = Zod.Failure (Zod.parse_shape sh o []).2.
Proof.
  unfold Zod.safeParse, Zod.object. cbn [fst snd].
  destruct (Zod.parse_shape sh o []).2; [|done].
  intros Hin. by apply elem_of_nil in Hin.
Qed.

(** The validator on a failed parse: the 400 answer, and the world as it
    was, the handler not having run. *)
Lemma zValidator_failure (sh : Zod.shape) (c : Context)
    (handler : obj -> M Response) (issues : list Zod.issue) (w : world) :
  Zod.safeParse sh (req_json c) = Zod.Failure issues ->
  zValidator sh c handler w = (w, Ok (validation_error issues)).
Proof. unfold zValidator. by intros ->. Qed.

Lemma validation_error_has_issue (issues : list Zod.issue) (i : Zod.issue) :
  i ∈ issues -> has_issue_at (Zod.path i) (validation_error issues).
Proof.
  intros Hin. eexists _, _, (Zod.issue_json i).
  split_and!; [reflexivity | reflexivity | | reflexivity].
  change (map Zod.issue_json issues) with (Zod.issue_json <$> issues).
  by apply list_elem_of_fmap_2.
Qed.

(* ===================================================================== *)
(** ** Creating a task: what is stored *)
(* ===================================================================== *)

(** X2.  For every body that passes [taskSchema], [POST /api/v1/tasks]
    answers 201 with a record of exactly eight properties: the generated
    identifier, a title of 1 to 100 characters, a status and a priority of
    their enumerations, labels that are strings, the two timestamps, both
    the clock reading of the request, and the links built from the request
    URL; a property of the body outside the schema is not in it.  The
    record is stored, without expiry, under the identifier; no other key of
    the task namespace and nothing of the comment namespace changes. *)
Theorem create_stores_valid_task (c : Context) (w : world) (data : obj) :
  Zod.safeParse taskSchema (req_json c) = Zod.Success data ->
  let id := nanoid_source w (drawn w) in
  let out := handle (dispatch POST_tasks c) w in
  exists (task : obj) (t s p : string) (ls : list string),
    out.2 = c_json (JObj task) 201
    /\ task
       = [("id", JStr id); ("title", JStr t); ("status", JStr s);
          ("priority", JStr p); ("labels", JArr (JStr <$> ls));
          ("createdAt", JNum (time w)); ("updatedAt", JNum (time w));
          ("links",
            JObj [("self", JStr (req_url c +:+ "/" +:+ id));
                  ("comments",
                    JStr (req_url c +:+ "/" +:+ id +:+ "/comments"))])]
    /\ (1 <= String.length t <= 100)%nat
    /\ s ∈ statuses
    /\ p ∈ priorities
    /\ is_task_record (JObj task) = true
    /\ tasks_kv (env out.1)
       = <[id := {| value := Ser (JObj task); expiration := None;
                    metadata := Some (JObj task) |}]> (tasks_kv (env w))
    /\ comments_kv (env out.1) = comments_kv (env w).
Proof.
  intros Hvalid id out. subst out.
  destruct (taskSchema_success_shape _ _ Hvalid)
    as (o & t & s & p & ls & _ & _ & Hlen & _ & Hs & _ & Hp & _ & ->).
  unfold handle, dispatch, zValidator. rewrite Hvalid.
  eexists _, t, s, p, ls.
  split_and!; [reflexivity | reflexivity | lia | lia | done | done
              | reflexivity | reflexivity | reflexivity].
Qed.

Lemma create_stores_valid_task_witness :
  let c := request tasks_url tasks_path [] (Some "203.0.113.7")
             (JObj [("title", JStr "Buy milk"); ("id", JStr "mine");
                    ("labels", JArr [JStr "home"])]) in
  let id := "V1StGXR8_Z5jdHi6B-my0" in
  let out := handle (dispatch POST_tasks c) fresh_world in
  exists (task : obj) (t s p : string) (ls : list string),
    out.2 = c_json (JObj task) 201
    /\ task
       = [("id", JStr id); ("title", JStr t); ("status", JStr s);
          ("priority", JStr p); ("labels", JArr (JStr <$> ls));
          ("createdAt", JNum (time fresh_world));
          ("updatedAt", JNum (time fresh_world));
          ("links",
            JObj [("self", JStr (req_url c +:+ "/" +:+ id));
                  ("comments",
                    JStr (req_url c +:+ "/" +:+ id +:+ "/comments"))])]
    /\ (1 <= String.length t <= 100)%nat
    /\ s ∈ statuses
    /\ p ∈ priorities
    /\ is_task_record (JObj task) = true
    /\ tasks_kv (env out.1)
       = <[id := {| value := Ser (JObj task); expiration := None;
                    metadata := Some (JObj task) |}]>
           (tasks_kv (env fresh_world))
    /\ comments_kv (env out.1) = comments_kv (env fresh_world).
Proof.
  apply (create_stores_valid_task
           (request tasks_url tasks_path [] (Some "203.0.113.7")
              (JObj [("title", JStr "Buy milk"); ("id", JStr "mine");
                     ("labels", JArr [JStr "home"])]))
           fresh_world
           [("title", JStr "Buy milk"); ("status", JStr "todo");
            ("priority", JStr "medium"); ("labels", JArr [JStr "home"])]).
  vm_compute. reflexivity.
Defined.

(* ===================================================================== *)
(** ** Rejected bodies *)
(* ===================================================================== *)

(** X3.  [POST /api/v1/tasks] with a body whose title is missing, is not a
    string, is empty or is longer than 100 characters is answered 400 with
    an issue at the path [title] -- [invalid_type], [too_small] or
    [too_big] accordingly -- whatever the other fields are; the route
    performs no store operation and draws no identifier. *)
Theorem create_rejects_bad_title (c : Context) (w : world) (o : obj) :
  req_json c = JObj o ->
  (forall t, obj_get "title" o = Some (JStr t) ->
     ~ (1 <= String.length t <= 100)%nat) ->
  exists issues i,
    dispatch POST_tasks c w = (w, Ok (validation_error issues))
    /\ status (validation_error issues) = 400
    /\ i ∈ issues
    /\ Zod.path i = [JStr "title"]
    /\ Zod.code i
       = match obj_get "title" o with
         | Some (JStr t) =>
             if Nat.eqb (String.length t) 0 then "too_small" else "too_big"
         | _ => "invalid_type"
         end
    /\ has_issue_at [JStr "title"] (validation_error issues).
Proof.
  intros Hbody Hbad.
  assert (exists i,
    i ∈ (Zod.string_ [Zod.Min 1; Zod.Max 100] (obj_get "title" o)
           ([] ++ [JStr "title"])).2
    /\ Zod.path i = [JStr "title"]
    /\ Zod.code i
       = match obj_get "title" o with
         | Some (JStr t) =>
             if Nat.eqb (String.length t) 0 then "too_small" else "too_big"
         | _ => "invalid_type"
         end) as (i & Hi & Hpath & Hcode).
  { destruct (obj_get "title" o) as [[| | |t| |]|] eqn:Ht;
      try (eexists; split_and!; [left | reflexivity | reflexivity]).
    specialize (Hbad t eq_refl). unfold Zod.string_. simpl.
    destruct (String.length t) as [|n] eqn:Hlen.
    - simpl. eexists. split_and!; [left | reflexivity | reflexivity].
    - replace (Z.of_nat (S n) <? 1) with false by
        (symmetry; apply Z.ltb_ge; lia).
      replace (100 <? Z.of_nat (S n)) with true by
        (symmetry; apply Z.ltb_lt; lia).
      simpl. eexists. split_and!; [left | reflexivity | reflexivity]. }
  assert (Hin : i ∈ (Zod.parse_shape taskSchema o []).2).
  { eapply parse_shape_issue; [|exact Hi]. left. }
  exists (Zod.parse_shape taskSchema o []).2, i.
  split_and!; [| done | done | done | done |].
  - unfold dispatch. apply zValidator_failure. rewrite Hbody.
    by eapply safeParse_issue.
  - rewrite <- Hpath. by apply validation_error_has_issue.
Qed.

Lemma create_rejects_bad_title_witness :
  let long := String.concat "" (replicate 101 "x") in
  let c := request tasks_url tasks_path [] (Some "203.0.113.7")
             (JObj [("title", JStr long)]) in
  exists issues i,
    dispatch POST_tasks c fresh_world
    = (fresh_world, Ok (validation_error issues))
    /\ status (validation_error issues) = 400
    /\ i ∈ issues
    /\ Zod.path i = [JStr "title"]
    /\ Zod.code i = "too_big"
    /\ has_issue_at [JStr "title"] (validation_error issues).
Proof.
  apply (create_rejects_bad_title
           (request tasks_url tasks_path [] (Some "203.0.113.7")
              (JObj [("title", JStr (String.concat "" (replicate 101 "x")))]))
           fresh_world
           [("title", JStr (String.concat "" (replicate 101 "x")))]);
    [reflexivity|].
  intros t [= <-]. vm_compute. lia.
Defined.

(** X4.  [PUT /api/v1/tasks/:id] with a body that sets [status] or
    [priority] to anything but a value of its enumeration is answered 400
    with an issue at that path, [invalid_enum_value] for a string and
    [invalid_type] otherwise; the route performs no store operation, so the
    record is neither read nor changed, whether it exists or not. *)
Theorem update_rejects_bad_enum (c : Context) (taskId : string) (w : world)
    (o : obj) (k : string) (opts : list string) (v : json) :
  req_json c = JObj o ->
  (k, opts) ∈ [("status", statuses); ("priority", priorities)] ->
  obj_get k o = Some v ->
  (forall s, v = JStr s -> s ∉ opts) ->
  exists issues i,
    dispatch (PUT_task taskId) c w = (w, Ok (validation_error issues))
    /\ status (validation_error issues) = 400
    /\ i ∈ issues
    /\ Zod.path i = [JStr k]
    /\ Zod.code i
       = match v with
         | JStr _ => "invalid_enum_value"
         | _ => "invalid_type"
         end
    /\ has_issue_at [JStr k] (validation_error issues).
Proof.
  intros Hbody Hk Hv Hbad.
  assert (Hfield : exists d,
            (k, Zod.optional (Zod.default_ (Zod.enum opts) d))
            ∈ Zod.partial taskSchema).
  { apply elem_of_cons in Hk as [[= -> ->]|Hk].
    - eexists. right. left.
    - apply list_elem_of_singleton in Hk as [= -> ->].
      eexists. right. right. left. }
  destruct Hfield as [d Hfield].
  assert (exists i,
    i ∈ (Zod.optional (Zod.default_ (Zod.enum opts) d) (obj_get k o)
           ([] ++ [JStr k])).2
    /\ Zod.path i = [JStr k]
    /\ Zod.code i
       = match v with
         | JStr _ => "invalid_enum_value"
         | _ => "invalid_type"
         end) as (i & Hi & Hpath & Hcode).
  { rewrite Hv. unfold Zod.optional, Zod.default_, Zod.enum.
    destruct v as [| | |s| |];
      try (eexists; split_and!; [left | reflexivity | reflexivity]).
    destruct (existsb (String.eqb s) opts) eqn:Hin.
    - exfalso. apply (Hbad s eq_refl).
      apply existsb_exists in Hin as (y & Hy & ->%String.eqb_eq).
      by apply list_elem_of_In.
    - eexists; split_and!; [left | reflexivity | reflexivity]. }
  assert (Hin : i ∈ (Zod.parse_shape (Zod.partial taskSchema) o []).2).
  { eapply parse_shape_issue; [exact Hfield | exact Hi]. }
  exists (Zod.parse_shape (Zod.partial taskSchema) o []).2, i.
  split_and!; [| done | done | done | done |].
  - unfold dispatch. apply zValidator_failure. rewrite Hbody.
    by eapply safeParse_issue.
  - rewrite <- Hpath. by apply validation_error_has_issue.
Qed.

Lemma update_rejects_bad_enum_witness :
  let c := request (tasks_url +:+ "/a1") (tasks_path +:+ "/a1") []
             (Some "203.0.113.7") (JObj [("status", JStr "archived")]) in
  exists issues i,
    dispatch (PUT_task "a1") c two_tasks_world
    = (two_tasks_world, Ok (validation_error issues))
    /\ status (validation_error issues) = 400
    /\ i ∈ issues
    /\ Zod.path i = [JStr "status"]
    /\ Zod.code i = "invalid_enum_value"
    /\ has_issue_at [JStr "status"] (validation_error issues).
Proof.
  apply (update_rejects_bad_enum
           (request (tasks_url +:+ "/a1") (tasks_path +:+ "/a1") []
              (Some "203.0.113.7") (JObj [("status", JStr "archived")]))
           "a1" two_tasks_world [("status", JStr "archived")]
           "status" statuses (JStr "archived"));
    [reflexivity | left | reflexivity |].
  intros s [= <-]. apply (bool_decide_unpack _). vm_compute. exact I.
Defined.

(* ===================================================================== *)
(** ** The rate limiter over a run of requests *)
(* ===================================================================== *)

(** A request moves the I/O count forward and leaves the clock alone. *)
Lemma rateLimiter_io (c : Context) (next : M Response) (w : world) :
  quiet (rateLimitKey c) next ->
  clock (rateLimiter c next w).1 = clock w
  /\ (S (io w) <= io (rateLimiter c next w).1)%nat.
Proof.
  intros Hq. rewrite rateLimiter_unfold.
  destruct (num_ge _ _); simpl; [split; [done | lia]|].
  destruct (Hq (counted c w)) as (_ & Hcl & Hio).
  split; [by rewrite Hcl | simpl in Hio; lia].
Qed.

Lemma serve_io (reqs : list (Context * M Response)) (w w' : world)
    (rs : list (result Response)) :
  Forall (fun cn => quiet (rateLimitKey cn.1) cn.2) reqs ->
  serve reqs w = (w', rs) ->
  clock w' = clock w /\ (io w + List.length reqs <= io w')%nat.
Proof.
  revert w w' rs. induction reqs as [|[c next] reqs IH]; intros w w' rs Hq; simpl.
  - intros [= <- <-]. split; [done | lia].
  - apply Forall_cons in Hq as [Hq1 Hq].
    destruct (rateLimiter_io c next w Hq1) as [Hcl Hio].
    destruct (rateLimiter c next w) as [w1 r] eqn:Hstep.
    destruct (serve reqs w1) as [w2 rs2] eqn:Hrest.
    intros [= <- <-]. simpl in Hcl, Hio.
    destruct (IH w1 w2 rs2 Hq Hrest) as [Hcl2 Hio2].
    split; [by rewrite Hcl2 | lia].
Qed.

(** X5.  A run of requests of one client, all falling within 60 seconds
    after an instant [lo] at which its counter reads [n], each with a
    downstream handler that leaves the counter's entry alone: as long as
    [n] plus the number of requests is at most 100, every request is handed
    to its handler in the world where it has been counted, and at the end
    the counter reads [n] plus the number of requests. *)
Theorem burst_is_counted (reqs : list (Context * M Response))
    (w w' : world) (rs : list (result Response)) (key : string) (n lo : Z) :
  Forall (fun cn => rateLimitKey cn.1 = key /\ quiet key cn.2) reqs ->
  (forall t, lo <= t < lo + 60000 ->
     count_at (tasks_kv (env w)) t key = Fin n) ->
  n + Z.of_nat (List.length reqs) <= 100 ->
  serve reqs w = (w', rs) ->
  (forall i, (io w < i <= io w')%nat -> lo <= clock w i < lo + 60000) ->
  (forall t, lo <= t < lo + 60000 ->
     count_at (tasks_kv (env w')) t key
     = Fin (n + Z.of_nat (List.length reqs)))
  /\ Forall2 (fun cn r => exists w0, r = (cn.2 (counted cn.1 w0)).2) reqs rs.
Proof.
  revert w w' rs n.
  induction reqs as [|[c next] reqs IH]; intros w w' rs n Hreqs Hcount Hn;
    simpl.
  - intros [= <- <-] _. split; [|constructor].
    intros t Ht. rewrite Z.add_0_r. by apply Hcount.
  - apply Forall_cons in Hreqs as [[Hkey Hq] Hreqs]. simpl in Hkey, Hq.
    subst key.
    assert (Hqs : Forall (fun cn => quiet (rateLimitKey cn.1) cn.2) reqs).
    { eapply Forall_impl; [exact Hreqs|]. by intros cn [-> ?]. }
    destruct (rateLimiter_io c next w Hq) as [Hcl Hio].
    destruct (rateLimiter c next w) as [w1 r] eqn:Hstep.
    destruct (serve reqs w1) as [w2 rs2] eqn:Hrest.
    intros [= <- <-] Hwin. simpl in Hcl, Hio. cbn [List.length] in Hn.
    destruct (serve_io reqs w1 w2 rs2 Hqs Hrest) as [Hcl2 Hio2].
    assert (Hread : current_count c w = Fin n).
    { rewrite current_count_count_at. apply Hcount, Hwin. lia. }
    rewrite rateLimiter_unfold, Hread in Hstep. unfold num_ge, limit in Hstep.
    replace (100 <=? n) with false in Hstep by
      (symmetry; apply Z.leb_gt; lia).
    destruct (Hq (counted c w)) as (Hkeep & _ & Hio3).
    rewrite Hstep in Hkeep, Hio3. simpl in Hkeep, Hio3.
    destruct (IH w1 w2 rs2 (n + 1)) as [Hfinal Hall]; [done | | lia | done | |].
    + intros t Ht. rewrite (count_at_lookup _ _ _ _ Hkeep).
      apply count_at_counted; [done|].
      assert (lo <= clock w (S (S (io w)))) by (apply Hwin; lia). lia.
    + intros i Hi. rewrite Hcl. apply Hwin. lia.
    + split.
      * intros t Ht. rewrite Hfinal by done. cbn [List.length]. f_equal. lia.
      * constructor; [|done]. exists w. simpl. by rewrite Hstep.
Qed.

(** The handlers that read or delete another key are quiet. *)
Lemma ok_handler_quiet (key : string) : quiet key ok_handler.
Proof. intros w. simpl. split_and!; [done | done | lia]. Qed.

Lemma delete_task_quiet (c : Context) (taskId key : string) :
  taskId <> key -> quiet key (delete_task c taskId).
Proof.
  intros Hne w. simpl. split_and!; [| done | lia].
  unfold kv_delete. by rewrite lookup_delete_ne.
Qed.

Lemma burst_is_counted_witness :
  let c := request (tasks_url +:+ "/a1") (tasks_path +:+ "/a1") []
             (Some "203.0.113.7") JNull in
  let reqs := [(client, ok_handler); (c, delete_task c "a1");
               (client, ok_handler)] in
  let out := serve reqs fresh_world in
  (forall t, 1700000000000 <= t < 1700000000000 + 60000 ->
     count_at (tasks_kv (env out.1)) t "rate_limit:203.0.113.7"
     = Fin (0 + 3))
  /\ Forall2 (fun cn r => exists w0, r = (cn.2 (counted cn.1 w0)).2)
       reqs out.2.
Proof.
  intros c reqs out.
  apply (burst_is_counted reqs fresh_world out.1 out.2
           "rate_limit:203.0.113.7" 0 1700000000000).
  - constructor; [split; [reflexivity | apply ok_handler_quiet]|].
    constructor; [split; [reflexivity | by apply delete_task_quiet]|].
    constructor; [split; [reflexivity | apply ok_handler_quiet]|].
    constructor.
  - intros t Ht. reflexivity.
  - simpl. lia.
  - unfold out. by destruct (serve reqs fresh_world).
  - assert (Hio : io out.1 = 7%nat) by (vm_compute; reflexivity).
    rewrite Hio. intros i Hi. simpl. lia.
Defined.

(** X6.  Two clients whose [CF-Connecting-IP] headers differ have different
    counter keys, and a request of the one, rejected or passed on to a
    handler that leaves the other's entry alone, leaves the other's counter
    entry exactly as it was. *)
Theorem rateLimiter_other_client (c1 c2 : Context) (next : M Response)
    (w : world) (a b : string) :
  req_header c1 "CF-Connecting-IP" = Some a ->
  req_header c2 "CF-Connecting-IP" = Some b ->
  a <> b ->
  quiet (rateLimitKey c2) next ->
  rateLimitKey c1 <> rateLimitKey c2
  /\ tasks_kv (env (rateLimiter c1 next w).1) !! rateLimitKey c2
     = tasks_kv (env w) !! rateLimitKey c2.
Proof.
  intros Ha Hb Hne Hq.
  assert (Hkeys : rateLimitKey c1 <> rateLimitKey c2).
  { unfold rateLimitKey. rewrite Ha, Hb. simpl. intros [= ?]. done. }
  split; [done|]. rewrite rateLimiter_unfold.
  destruct (num_ge _ _); [done|].
  destruct (Hq (counted c1 w)) as (-> & _ & _).
  by apply counted_other.
Qed.

Lemma rateLimiter_other_client_witness :
  let other := request tasks_url tasks_path [] (Some "198.51.100.9") JNull in
  rateLimitKey other <> rateLimitKey client
  /\ tasks_kv (env (rateLimiter other ok_handler limited_world).1)
       !! rateLimitKey client
     = tasks_kv (env limited_world) !! rateLimitKey client.
Proof.
  apply (rateLimiter_other_client
           (request tasks_url tasks_path [] (Some "198.51.100.9") JNull)
           client ok_handler limited_world "198.51.100.9" "203.0.113.7");
    [reflexivity | reflexivity | discriminate | apply ok_handler_quiet].
Defined.

(** The counter after the limiter has written [NaN], read before that
    write expires. *)
Lemma count_at_counted_nan (c : Context) (w : world) (t : Z) :
  current_count c w = NaN ->
  t < clock w (S (S (io w))) + 60000 ->
  count_at (tasks_kv (env (counted c w))) t (rateLimitKey c) = NaN.
Proof.
  intros Hc Ht. unfold count_at, kv_get.
  rewrite counted_lookup, Hc. unfold live. simpl.
  by replace (_ <? _) with true by (symmetry; apply Z.ltb_lt; lia).
Qed.

(** X7.  When the text under a client's counter key does not read as a
    number, the limiter computes [NaN] and passes the request on, writing
    the text [NaN] back; so over a run of requests within 60 seconds, with
    handlers that leave the entry alone, every request is passed on,
    however many they are, and the counter still reads [NaN] at the end. *)
Theorem nan_counter_never_limits (reqs : list (Context * M Response))
    (w w' : world) (rs : list (result Response)) (key : string) (lo : Z) :
  Forall (fun cn => rateLimitKey cn.1 = key /\ quiet key cn.2) reqs ->
  (forall t, lo <= t < lo + 60000 ->
     count_at (tasks_kv (env w)) t key = NaN) ->
  serve reqs w = (w', rs) ->
  (forall i, (io w < i <= io w')%nat -> lo <= clock w i < lo + 60000) ->
  (forall t, lo <= t < lo + 60000 ->
     count_at (tasks_kv (env w')) t key = NaN)
  /\ Forall2 (fun cn r => exists w0, r = (cn.2 (counted cn.1 w0)).2) reqs rs.
Proof.
  revert w w' rs.
  induction reqs as [|[c next] reqs IH]; intros w w' rs Hreqs Hcount; simpl.
  - intros [= <- <-] _. split; [done | constructor].
  - apply Forall_cons in Hreqs as [[Hkey Hq] Hreqs]. simpl in Hkey, Hq.
    subst key.
    assert (Hqs : Forall (fun cn => quiet (rateLimitKey cn.1) cn.2) reqs).
    { eapply Forall_impl; [exact Hreqs|]. by intros cn [-> ?]. }
    destruct (rateLimiter_io c next w Hq) as [Hcl Hio].
    destruct (rateLimiter c next w) as [w1 r] eqn:Hstep.
    destruct (serve reqs w1) as [w2 rs2] eqn:Hrest.
    intros [= <- <-] Hwin. simpl in Hcl, Hio.
    destruct (serve_io reqs w1 w2 rs2 Hqs Hrest) as [Hcl2 Hio2].
    assert (Hread : current_count c w = NaN).
    { rewrite current_count_count_at. apply Hcount, Hwin. lia. }
    rewrite rateLimiter_unfold, Hread in Hstep. simpl in Hstep.
    destruct (Hq (counted c w)) as (Hkeep & _ & Hio3).
    rewrite Hstep in Hkeep, Hio3. simpl in Hkeep, Hio3.
    destruct (IH w1 w2 rs2) as [Hfinal Hall]; [done | | done | |].
    + intros t Ht. rewrite (count_at_lookup _ _ _ _ Hkeep).
      apply count_at_counted_nan; [done|].
      assert (lo <= clock w (S (S (io w)))) by (apply Hwin; lia). lia.
    + intros i Hi. rewrite Hcl. apply Hwin. lia.
    + split; [done|]. constructor; [|done]. exists w. simpl. by rewrite Hstep.
Qed.

Lemma nan_counter_never_limits_witness :
  let reqs := replicate 150 (client, ok_handler) in
  let out := serve reqs overwritten_counter_world in
  (forall t, 1700000000000 <= t < 1700000000000 + 60000 ->
     count_at (tasks_kv (env out.1)) t "rate_limit:203.0.113.7" = NaN)
  /\ Forall2 (fun cn r => exists w0, r = (cn.2 (counted cn.1 w0)).2)
       reqs out.2.
Proof.
  intros reqs out.
  apply (nan_counter_never_limits reqs overwritten_counter_world out.1 out.2
           "rate_limit:203.0.113.7" 1700000000000).
  - apply Forall_replicate. split; [reflexivity | apply ok_handler_quiet].
  - intros t Ht. vm_compute. reflexivity.
  - unfold out. by destruct (serve reqs overwritten_counter_world).
  - assert (Hio : io out.1 = 304%nat) by (vm_compute; reflexivity).
    rewrite Hio. intros i Hi.
    change (clock overwritten_counter_world i)
      with (1700000000000 + Z.of_nat i).
    lia.
Defined.

(** X8.  The task routes do not tell a counter key from a task
    identifier.  [DELETE /api/v1/tasks/:id] addressed to a client's counter
    key removes the counter, which then reads 0.  [PUT /api/v1/tasks/:id]
    addressed to a live counter answers 200 and replaces the counter with
    an object that never expires and does not read as a number.  Either
    way the next request of that client is passed on, whatever the counter
    was. *)
Theorem task_routes_reach_counter (c c' : Context) (fields : obj)
    (next : M Response) (w : world) (e : kv_entry) (n : Z) :
  let key := rateLimitKey c' in
  tasks_kv (env w) !! key = Some e ->
  value e = Ser (JNum n) ->
  live (clock w (S (io w))) e = true ->
  let deleted_in := (delete_task c key w).1 in
  let updated := put_task c key fields w in
  (tasks_kv (env deleted_in) !! key = None
   /\ rateLimiter c' next deleted_in = next (counted c' deleted_in))
  /\ (exists r, updated.2 = Ok r /\ status r = 200)
  /\ (exists o, tasks_kv (env updated.1) !! key = Some (stored (JObj o)))
  /\ rateLimiter c' next updated.1 = next (counted c' updated.1).
Proof.
  intros key Hk Hv Hlive deleted_in updated.
  assert (Hdel : tasks_kv (env deleted_in) !! key = None).
  { simpl. apply lookup_delete_eq. }
  assert (Hupd : exists o,
            updated = (updated.1, Ok (c_json (JObj o) 200))
            /\ tasks_kv (env updated.1) !! key = Some (stored (JObj o))).
  { unfold updated, put_task, get, mbind, M_bind, kv_get, time. simpl.
    fold key. rewrite Hk. simpl. rewrite Hlive, Hv. simpl.
    eexists. split; [reflexivity|]. unfold kv_put. simpl.
    apply lookup_insert_eq. }
  destruct Hupd as (o & Hres & Hstored).
  split_and!.
  - done.
  - rewrite rateLimiter_unfold. unfold current_count, kv_get. simpl.
    fold key. unfold deleted_in in Hdel. simpl in Hdel. by rewrite Hdel.
  - exists (c_json (JObj o) 200). by rewrite Hres.
  - by exists o.
  - rewrite rateLimiter_unfold. unfold current_count, kv_get. simpl.
    fold key. by rewrite Hstored.
Qed.

Lemma task_routes_reach_counter_witness :
  let key := "rate_limit:203.0.113.7" in
  let c := update_request key in
  let deleted_in := (delete_task c key limited_world).1 in
  let updated := put_task c key [("status", JStr "done")] limited_world in
  (tasks_kv (env deleted_in) !! key = None
   /\ rateLimiter client ok_handler deleted_in
      = ok_handler (counted client deleted_in))
  /\ (exists r, updated.2 = Ok r /\ status r = 200)
  /\ (exists o, tasks_kv (env updated.1) !! key = Some (stored (JObj o)))
  /\ rateLimiter client ok_handler updated.1
     = ok_handler (counted client updated.1).
Proof.
  apply (task_routes_reach_counter
           (update_request "rate_limit:203.0.113.7") client
           [("status", JStr "done")] ok_handler limited_world
           {| value := Ser (JNum 100); expiration := Some 60000;
              metadata := None |} 100);
    reflexivity.
Defined.

(* ===================================================================== *)
(** ** Reading back, updating and deleting *)
(* ===================================================================== *)

(** The read handler on a live serialised value. *)
Lemma get_task_live (c : Context) (taskId : string) (w : world)
    (e : kv_entry) (v : json) :
  tasks_kv (env w) !! taskId = Some e ->
  live (clock w (S (io w))) e = true ->
  value e = Ser v ->
  get_task c taskId w
  = (tick w,
     Ok (c_json
           (JObj (literal (obj_assign [] (spread (Some v)))
                    [("links", Some (item_links c))]))
           200)).
Proof.
  intros Hk Hlive Hv.
  unfold get_task, get, mbind, M_bind, kv_get, time. simpl.
  rewrite Hk. simpl. by rewrite Hlive, Hv.
Qed.

Lemma obj_get_with_links (k : string) (o : obj) (l : json) :
  NoDup (map fst o) ->
  obj_get k (literal (obj_assign [] o) [("links", Some l)])
  = if String.eqb k "links" then Some l else obj_get k o.
Proof.
  intros Hnd. unfold literal. simpl.
  destruct (String.eqb_spec k "links") as [->|Hne].
  - apply obj_get_set_eq.
  - rewrite obj_get_set_ne by done. by apply obj_get_assign_nil.
Qed.

(** X9.  [GET /api/v1/tasks/:id] on a live record answers 200 with every
    stored property but [links] as it is stored and with [links] computed
    from the request URL, and changes nothing in either namespace. *)
Theorem get_task_existing (c : Context) (taskId : string) (w : world)
    (e : kv_entry) (old : obj) :
  tasks_kv (env w) !! taskId = Some e ->
  live (clock w (S (io w))) e = true ->
  value e = Ser (JObj old) ->
  NoDup (map fst old) ->
  let out := handle (get_task c taskId) w in
  exists shown,
    out.2 = c_json (JObj shown) 200
    /\ (forall k, k <> "links" -> obj_get k shown = obj_get k old)
    /\ obj_get "links" shown
       = Some (JObj [("self", JStr (req_url c));
                     ("comments", JStr (req_url c +:+ "/comments"))])
    /\ env out.1 = env w.
Proof.
  intros Hk Hlive Hv Hnd out. subst out. unfold handle.
  rewrite (get_task_live c taskId w e (JObj old) Hk Hlive Hv).
  eexists. split_and!; [reflexivity | | | done].
  - intros k Hne. rewrite obj_get_with_links by done.
    by destruct (String.eqb_spec k "links").
  - by rewrite obj_get_with_links.
Qed.

Lemma get_task_existing_witness :
  let c := request (tasks_url +:+ "/a1?x=1") (tasks_path +:+ "/a1")
             [("x", "1")] (Some "203.0.113.7") JNull in
  let out := handle (get_task c "a1") two_tasks_world in
  exists shown,
    out.2 = c_json (JObj shown) 200
    /\ (forall k, k <> "links" ->
          obj_get k shown
          = obj_get k (sample_props "a1" "Buy milk" "done" 1000 2000))
    /\ obj_get "links" shown
       = Some (JObj [("self", JStr (req_url c));
                     ("comments", JStr (req_url c +:+ "/comments"))])
    /\ env out.1 = env two_tasks_world.
Proof.
  apply (get_task_existing
           (request (tasks_url +:+ "/a1?x=1") (tasks_path +:+ "/a1")
              [("x", "1")] (Some "203.0.113.7") JNull)
           "a1" two_tasks_world
           (stored (sample_task "a1" "Buy milk" "done" 1000 2000))
           (sample_props "a1" "Buy milk" "done" 1000 2000));
    [reflexivity | reflexivity | reflexivity |].
  apply (bool_decide_unpack _). vm_compute. exact I.
Defined.

(** The creation handler on parsed data, step by step. *)
Lemma post_task_run (c : Context) (w : world) (t s p : string)
    (ls : list string) :
  let id := nanoid_source w (drawn w) in
  let task :=
    [("id", JStr id); ("title", JStr t); ("status", JStr s);
     ("priority", JStr p); ("labels", JArr (JStr <$> ls));
     ("createdAt", JNum (time w)); ("updatedAt", JNum (time w));
     ("links",
       JObj [("self", JStr (req_url c +:+ "/" +:+ id));
             ("comments",
               JStr (req_url c +:+ "/" +:+ id +:+ "/comments"))])] in
  post_task c
    [("title", JStr t); ("status", JStr s); ("priority", JStr p);
     ("labels", JArr (JStr <$> ls))] w
  = ({| env :=
          {| tasks_kv :=
               <[id := {| value := Ser (JObj task); expiration := None;
                          metadata := Some (JObj task) |}]>
                 (tasks_kv (env w));
             comments_kv := comments_kv (env w) |};
        io := S (io w);
        clock := clock w;
        drawn := S (drawn w);
        nanoid_source := nanoid_source w;
        resume := resume w |},
     Ok (c_json (JObj task) 201)).
Proof. reflexivity. Qed.

(** X10.  Round trip: a task created by [POST /api/v1/tasks] and then read
    by [GET /api/v1/tasks/:id] under the identifier the creation returned
    comes back with 200 and the same value for every property but
    [links], at whatever later instant the read happens. *)
Theorem create_then_get (c c' : Context) (w : world) (data : obj) :
  Zod.safeParse taskSchema (req_json c) = Zod.Success data ->
  let created := handle (dispatch POST_tasks c) w in
  let id := nanoid_source w (drawn w) in
  let read := handle (get_task c' id) created.1 in
  exists task shown,
    created.2 = c_json (JObj task) 201
    /\ obj_get "id" task = Some (JStr id)
    /\ read.2 = c_json (JObj shown) 200
    /\ (forall k, k <> "links" -> obj_get k shown = obj_get k task)
    /\ env read.1 = env created.1.
Proof.
  intros Hvalid created id read. subst read created.
  destruct (taskSchema_success_shape _ _ Hvalid)
    as (o & t & s & p & ls & _ & _ & _ & _ & _ & _ & _ & _ & ->).
  unfold handle, dispatch, zValidator. rewrite Hvalid.
  rewrite post_task_run. cbn [fst snd].
  set (task := [("id", JStr _); _; _; _; _; _; _; _]).
  assert (Hnd : NoDup (map fst task)).
  { apply (bool_decide_unpack _). by vm_compute. }
  erewrite (get_task_live c' _ _ _ (JObj task));
    [| apply lookup_insert_eq | reflexivity | reflexivity].
  exists task. eexists.
  split_and!; [reflexivity | reflexivity | reflexivity | | done].
  intros k Hne. rewrite obj_get_with_links by done.
  by destruct (String.eqb_spec k "links").
Qed.

Lemma create_then_get_witness :
  let c' := request (tasks_url +:+ "/V1StGXR8_Z5jdHi6B-my0")
              (tasks_path +:+ "/V1StGXR8_Z5jdHi6B-my0") []
              (Some "203.0.113.7") JNull in
  let created := handle (dispatch POST_tasks create_request) fresh_world in
  let id := "V1StGXR8_Z5jdHi6B-my0" in
  let read := handle (get_task c' id) created.1 in
  exists task shown,
    created.2 = c_json (JObj task) 201
    /\ obj_get "id" task = Some (JStr id)
    /\ read.2 = c_json (JObj shown) 200
    /\ (forall k, k <> "links" -> obj_get k shown = obj_get k task)
    /\ env read.1 = env created.1.
Proof.
  apply (create_then_get create_request
           (request (tasks_url +:+ "/V1StGXR8_Z5jdHi6B-my0")
              (tasks_path +:+ "/V1StGXR8_Z5jdHi6B-my0") []
              (Some "203.0.113.7") JNull)
           fresh_world
           [("title", JStr "Buy milk"); ("status", JStr "todo");
            ("priority", JStr "medium"); ("labels", JArr [])]).
  vm_compute. reflexivity.
Defined.

(** X11.  After [DELETE /api/v1/tasks/:id] a read of the same identifier
    answers 404, at any later instant; every other key of the task
    namespace keeps its entry and the comment namespace is untouched, so
    the comments of the deleted task stay stored. *)
Theorem delete_then_get (c c' : Context) (taskId : string) (w : world) :
  let gone := (handle (delete_task c taskId) w).1 in
  handle (get_task c' taskId) gone = (tick gone, c_notFound)
  /\ status c_notFound = 404
  /\ (forall k, k <> taskId ->
        tasks_kv (env gone) !! k = tasks_kv (env w) !! k)
  /\ comments_kv (env gone) = comments_kv (env w).
Proof.
  simpl. split_and!; [| done | | done].
  - unfold handle, get_task, get, mbind, M_bind, kv_get. simpl.
    unfold kv_delete. by rewrite lookup_delete_eq.
  - intros k Hne. unfold kv_delete. by rewrite lookup_delete_ne.
Qed.

(** X12.  [PUT /api/v1/tasks/:id], whatever the body and whether or not
    the record exists, changes no key of the task namespace other than the
    addressed one and nothing of the comment namespace; and when no live
    entry is under the identifier, a body that passes the partial schema is
    answered 404 and nothing at all is written, so an update never creates
    a record. *)
Theorem update_frame (c : Context) (taskId : string) (w : world) :
  let out := handle (dispatch (PUT_task taskId) c) w in
  (forall k, k <> taskId ->
     tasks_kv (env out.1) !! k = tasks_kv (env w) !! k)
  /\ comments_kv (env out.1) = comments_kv (env w)
  /\ (kv_get (tasks_kv (env w)) (clock w (S (io w))) taskId = None ->
      env out.1 = env w
      /\ forall fields,
           Zod.safeParse (Zod.partial taskSchema) (req_json c)
           = Zod.Success fields ->
           out.2 = c_notFound).
Proof.
  unfold handle, dispatch, zValidator.
  destruct (Zod.safeParse _ _) as [fields|issues]; [|simpl; by split_and!].
  unfold put_task, get, mbind, M_bind, time. simpl.
  destruct (kv_get _ _ _) as [[v| |neg]|] eqn:Hget; simpl.
  - split_and!; [| done | discriminate].
    intros k Hne. unfold kv_put. by rewrite lookup_insert_ne.
  - split_and!; [done | done | discriminate].
  - split_and!; [done | done | discriminate].
  - split_and!; [done | done |]. intros _. split; [done|]. by intros ? [= <-].
Qed.

Lemma update_frame_witness :
  let c := update_request "zz" in
  let out := handle (dispatch (PUT_task "zz") c) two_tasks_world in
  (forall k, k <> "zz" ->
     tasks_kv (env out.1) !! k = tasks_kv (env two_tasks_world) !! k)
  /\ comments_kv (env out.1) = comments_kv (env two_tasks_world)
  /\ (kv_get (tasks_kv (env two_tasks_world)) (clock two_tasks_world 1) "zz"
      = None ->
      env out.1 = env two_tasks_world
      /\ forall fields,
           Zod.safeParse (Zod.partial taskSchema) (req_json c)
           = Zod.Success fields ->
           out.2 = c_notFound).
Proof. exact (update_frame (update_request "zz") "zz" two_tasks_world). Defined.

(** An update of an absent record, through the whole application. *)
Example update_absent_response :
  (api_v1 (PUT_task "zz") (update_request "zz") two_tasks_world).2
  = {| status := 404; res_body := Text "404 Not Found" |}.
Proof. vm_compute. reflexivity. Qed.

(* ===================================================================== *)
(** ** Listing tasks: filters, bounds, failures *)
(* ===================================================================== *)

(** A record that passes the filter callback under a set priority filter
    has exactly that priority. *)
Lemma keep_priority (status : option string) (p : string) (t : obj) :
  p <> "" ->
  keep status (Some p) t = true ->
  obj_get "priority" t = Some (JStr p).
Proof.
  intros Hp. unfold keep.
  destruct (truthy status && strict_ne (obj_get "status" t) status);
    [discriminate|].
  rewrite (truthy_nonempty p Hp). simpl.
  destruct (obj_get "priority" t) as [[| | |a| |]|]; simpl; try discriminate.
  destruct (String.eqb_spec a p) as [->|]; simpl; [done | discriminate].
Qed.

Lemma keep_no_filter (status priority : option string) (t : obj) :
  truthy status = false -> truthy priority = false ->
  keep status priority t = true.
Proof. unfold keep. by intros -> ->. Qed.

Lemma filter_all {A} (f : A -> bool) (l : list A) :
  (forall x, f x = true) -> List.filter f l = l.
Proof.
  intros Hf. induction l as [|x l IH]; simpl; [done|]. by rewrite Hf, IH.
Qed.

(** The filter callback as a condition on the record: it keeps the
    record exactly when the record has the [status] asked for, if a
    non-empty one is, and the [priority] asked for, if a non-empty one
    is. *)
Lemma keep_iff (status priority : option string) (t : obj) :
  keep status priority t = true
  <-> (forall s, status = Some s -> s <> "" ->
         obj_get "status" t = Some (JStr s))
      /\ (forall p, priority = Some p -> p <> "" ->
            obj_get "priority" t = Some (JStr p)).
Proof.
  split.
  - intros Hkeep. split.
    + intros s -> Hs. by eapply keep_status.
    + intros p -> Hp. by eapply keep_priority.
  - intros [Hs Hp]. unfold keep.
    assert (Hsame : forall x, strict_ne (Some (JStr x)) (Some x) = false).
    { intros x. unfold strict_ne. by rewrite String.eqb_refl. }
    assert (Hst : truthy status && strict_ne (obj_get "status" t) status
                  = false).
    { destruct status as [[|a s]|]; [done | | done].
      rewrite (Hs _ eq_refl) by done. rewrite Hsame. apply andb_false_r. }
    assert (Hpr : truthy priority
                  && strict_ne (obj_get "priority" t) priority = false).
    { destruct priority as [[|a p]|]; [done | | done].
      rewrite (Hp _ eq_refl) by done. rewrite Hsame. apply andb_false_r. }
    by rewrite Hst, Hpr.
Qed.

(** X13.  Whenever [GET /api/v1/tasks] answers, its [tasks] are exactly
    the records of the fetched page that pass the filter callback, in the
    order of the page: a record is returned if and only if it is on the
    page, has the [status] asked for when a non-empty [status] is given,
    and has the [priority] asked for when a non-empty [priority] is given.
    [metadata.total] is their number; and when both parameters are absent
    or empty nothing is filtered: [tasks] is the whole page. *)
Theorem get_tasks_filters (c : Context) (w w' : world) (r : Response) :
  get_tasks c w = (w', Ok r) ->
  exists (page tasks : list obj) (b : json),
    fetch_page c w = (w', Ok page)
    /\ res_body r = Json b
    /\ prop "tasks" b = Some (JArr (map JObj tasks))
    /\ (prop "metadata" b ≫= prop "total")
       = Some (JNum (Z.of_nat (List.length tasks)))
    /\ tasks = List.filter (keep (query c "status") (query c "priority")) page
    /\ (forall t,
          t ∈ tasks
          <-> t ∈ page
              /\ (forall s, query c "status" = Some s -> s <> "" ->
                    obj_get "status" t = Some (JStr s))
              /\ (forall p, query c "priority" = Some p -> p <> "" ->
                    obj_get "priority" t = Some (JStr p)))
    /\ Forall
         (fun t =>
            (forall s, query c "status" = Some s -> s <> "" ->
               obj_get "status" t = Some (JStr s))
            /\ (forall p, query c "priority" = Some p -> p <> "" ->
                  obj_get "priority" t = Some (JStr p)))
         tasks
    /\ (truthy (query c "status") = false ->
        truthy (query c "priority") = false ->
        tasks = page).
Proof.
  intros Hrun.
  destruct (get_tasks_fetch c w w' r Hrun) as (page & Hpage & Hshape).
  rewrite Hrun in Hshape. injection Hshape as ->.
  exists page,
    (List.filter (keep (query c "status") (query c "priority")) page).
  eexists. split_and!; try done.
  - intros t. rewrite list_elem_of_In, filter_In, <- list_elem_of_In.
    by rewrite keep_iff.
  - apply Forall_forall. intros t Ht.
    apply list_elem_of_In, filter_In in Ht as [_ Hkeep].
    by apply keep_iff.
  - intros Hs Hp. apply filter_all. intros t. by apply keep_no_filter.
Qed.

Lemma get_tasks_filters_witness :
  let c := request (tasks_url +:+ "?status=&priority=medium") tasks_path
             [("status", ""); ("priority", "medium")] (Some "203.0.113.7")
             JNull in
  exists w' r,
    get_tasks c two_tasks_world = (w', Ok r)
    /\ exists (page tasks : list obj) (b : json),
         fetch_page c two_tasks_world = (w', Ok page)
         /\ res_body r = Json b
         /\ prop "tasks" b = Some (JArr (map JObj tasks))
         /\ (prop "metadata" b ≫= prop "total")
            = Some (JNum (Z.of_nat (List.length tasks)))
         /\ tasks
            = List.filter (keep (query c "status") (query c "priority")) page
         /\ (forall t,
               t ∈ tasks
               <-> t ∈ page
                   /\ (forall s, query c "status" = Some s -> s <> "" ->
                         obj_get "status" t = Some (JStr s))
                   /\ (forall p, query c "priority" = Some p -> p <> "" ->
                         obj_get "priority" t = Some (JStr p)))
         /\ Forall
              (fun t =>
                 (forall s, query c "status" = Some s -> s <> "" ->
                    obj_get "status" t = Some (JStr s))
                 /\ (forall p, query c "priority" = Some p -> p <> "" ->
                       obj_get "priority" t = Some (JStr p)))
              tasks
         /\ (truthy (query c "status") = false ->
             truthy (query c "priority") = false ->
             tasks = page).
Proof.
  intros c. eexists _, _. split; [vm_compute; reflexivity|].
  apply (get_tasks_filters c two_tasks_world). vm_compute. reflexivity.
Defined.

(** With both filters set, the listing returns the one record of the two
    that has the status and the priority asked for, and none when no
    record has both. *)
Example get_tasks_both_filters :
  let listing st pr :=
    res_body
      (handle (get_tasks (request tasks_url tasks_path
                            [("status", st); ("priority", pr)]
                            (Some "203.0.113.7") JNull))
         two_tasks_world).2 in
  (exists b t,
     listing "todo" "medium" = Json b
     /\ prop "tasks" b = Some (JArr [JObj t])
     /\ obj_get "id" t = Some (JStr "b2"))
  /\ (exists b,
        listing "todo" "high" = Json b /\ prop "tasks" b = Some (JArr [])).
Proof.
  split.
  - eexists _, _. split_and!; vm_compute; reflexivity.
  - eexists. split; vm_compute; reflexivity.
Qed.

(** A fetch is one store read: it moves the I/O count by one and changes
    nothing else. *)
Lemma fetch_task_step (c : Context) (key : string) (w : world) :
  (fetch_task c key w).1 = tick w.
Proof.
  unfold fetch_task, get_json, get, mbind, M_bind. simpl.
  destruct (kv_get _ _ _) as [[[| | | | |]| |neg]|]; done.
Qed.

Lemma fetch_all_step (c : Context) (keys : list string) (w : world) :
  let out := Promise_all_map (fetch_task c) keys w in
  env out.1 = env w
  /\ clock out.1 = clock w
  /\ forall page, out.2 = Ok page -> List.length page = List.length keys.
Proof.
  revert w. induction keys as [|k keys IH]; intros w; simpl.
  - split_and!; [done | done |]. by intros ? [= <-].
  - unfold mbind, M_bind.
    pose proof (fetch_task_step c k w) as Hstep.
    destruct (fetch_task c k w) as [w1 [o|e]]; simpl in Hstep; subst w1.
    + destruct (IH (tick w)) as (Henv & Hcl & Hlen).
      destruct (Promise_all_map (fetch_task c) keys (tick w))
        as [w2 [page|e]]; simpl in *.
      * split_and!; [done | done |]. intros ? [= <-]. simpl.
        by rewrite (Hlen page).
      * split_and!; [done | done | discriminate].
    + simpl. split_and!; [done | done | discriminate].
Qed.

(** The limit the store applies is between 1 and 1000, and is the one
    asked for when that is a positive number. *)
Lemma key_count_limit_bound (l : jsnum) (m : Z) :
  key_count_limit l = Some m ->
  1 <= m <= 1000 /\ forall n, l = Fin n -> 1 <= n -> m = n.
Proof.
  unfold key_count_limit. destruct l as [n|neg|].
  - destruct (n <? - 2 ^ 31); [discriminate|].
    destruct (Z.leb_spec n 0).
    + intros [= <-]. split; [lia|]. intros ? [= <-]. lia.
    + destruct (Z.leb_spec n 1000); [|discriminate].
      intros [= <-]. split; [lia|]. by intros ? [= <-].
  - intros [= <-]. split; [lia | discriminate].
  - intros [= <-]. split; [lia | discriminate].
Qed.

Lemma kv_list_length (kv : KVNamespace) (now : Z) (resume : resumption)
    (o : list_options) (keys : list string) :
  kv_list kv now resume o = Some keys ->
  (List.length keys <= 1000)%nat
  /\ forall n, list_limit o = Fin n -> 1 <= n ->
       Z.of_nat (List.length keys) <= n.
Proof.
  unfold kv_list.
  destruct (key_count_limit (list_limit o)) as [m|] eqn:Hm; [|discriminate].
  destruct (key_count_limit_bound _ _ Hm) as [Hbound Hasked].
  destruct (match list_cursor o with Some _ => _ | None => _ end)
    as [rest|]; [|discriminate].
  intros [= <-]. rewrite length_take. split; [lia|].
  intros n Hn Hpos. rewrite (Hasked n Hn Hpos). lia.
Qed.

(** X14.  [GET /api/v1/tasks] only reads: whether it answers or throws,
    both namespaces are afterwards as they were.  When it answers, the
    fetched page has at most 1000 records whatever the [limit] parameter
    is, and at most [n] records when [limit] parses to a number [n] of 1 or
    more; a [limit] that is zero, negative or not a number bounds nothing,
    the store applying its default.  And [metadata.total] is at most the
    size of the fetched page. *)
Theorem get_tasks_reads_a_bounded_page (c : Context) (w : world) :
  let out := get_tasks c w in
  env out.1 = env w
  /\ forall r, out.2 = Ok r ->
       exists page : list obj,
         fetch_page c w = (out.1, Ok page)
         /\ (List.length page <= 1000)%nat
         /\ (forall n, limitNumber c = Fin n -> 1 <= n ->
               Z.of_nat (List.length page) <= n)
         /\ forall b, res_body r = Json b ->
              exists total,
                (prop "metadata" b ≫= prop "total") = Some (JNum total)
                /\ 0 <= total <= Z.of_nat (List.length page).
Proof.
  assert (Hpage : env (fetch_page c w).1 = env w
    /\ forall page, (fetch_page c w).2 = Ok page ->
         (List.length page <= 1000)%nat
         /\ forall n, limitNumber c = Fin n -> 1 <= n ->
              Z.of_nat (List.length page) <= n).
  { unfold fetch_page, list_keys, mbind, M_bind.
    destruct (kv_list _ _ _ _) as [keys|] eqn:Hkeys; [|by split].
    destruct (fetch_all_step c keys (tick w)) as (Henv & _ & Hlen).
    destruct (Promise_all_map (fetch_task c) keys (tick w))
      as [w2 [page|e]]; simpl in *; [|by split].
    split; [done|]. intros ? [= <-].
    destruct (kv_list_length _ _ _ _ _ Hkeys) as [Hmax Hasked].
    rewrite (Hlen page) by done. split; [done|]. apply Hasked. }
  destruct Hpage as [Henv Hlen].
  unfold get_tasks, mbind, M_bind.
  destruct (fetch_page c w) as [w1 [page|e]]; simpl in *; [|by split].
  split; [done|]. intros r [= <-].
  destruct (Hlen page eq_refl) as [Hmax Hasked].
  exists page. split_and!; [done | done | done |].
  intros b [= <-]. eexists. split; [reflexivity|].
  pose proof (filter_length_le
    (keep (query c "status") (query c "priority")) page). lia.
Qed.

Lemma get_tasks_reads_a_bounded_page_witness :
  let c := request (tasks_url +:+ "?limit=1") tasks_path [("limit", "1")]
             (Some "203.0.113.7") JNull in
  let out := get_tasks c two_tasks_world in
  env out.1 = env two_tasks_world
  /\ forall r, out.2 = Ok r ->
       exists page : list obj,
         fetch_page c two_tasks_world = (out.1, Ok page)
         /\ (List.length page <= 1000)%nat
         /\ (forall n, limitNumber c = Fin n -> 1 <= n ->
               Z.of_nat (List.length page) <= n)
         /\ forall b, res_body r = Json b ->
              exists total,
                (prop "metadata" b ≫= prop "total") = Some (JNum total)
                /\ 0 <= total <= Z.of_nat (List.length page).
Proof.
  exact (get_tasks_reads_a_bounded_page
           (request (tasks_url +:+ "?limit=1") tasks_path [("limit", "1")]
              (Some "203.0.113.7") JNull)
           two_tasks_world).
Defined.

(** With [limit=1] the listing returns one of the two records; with
    [limit=0] the limit is not passed on and it returns both. *)
Example get_tasks_limit_one_and_zero :
  let total l :=
    match res_body
            (handle (get_tasks (request tasks_url tasks_path [("limit", l)]
                                  (Some "203.0.113.7") JNull))
               two_tasks_world).2 with
    | Json b => prop "metadata" b
    | Text _ => None
    end in
  total "1" = Some (JObj [("total", JNum 1); ("page", JNum 1);
                          ("limit", JNum 1)])
  /\ total "0" = Some (JObj [("total", JNum 2); ("page", JNum 1);
                             ("limit", JNum 0)])
  /\ total "-5" = Some (JObj [("total", JNum 2); ("page", JNum 1);
                              ("limit", JNum (-5))])
  /\ total "many" = Some (JObj [("total", JNum 2); ("page", JNum 1);
                                ("limit", JNull)]).
Proof. vm_compute. done. Qed.

(** A listed key whose text is [NaN] makes its fetch throw, at any
    instant: live, the text does not parse; expired, the record is
    [null]. *)
Lemma fetch_task_nan (c : Context) (key : string) (w : world)
    (e : kv_entry) :
  tasks_kv (env w) !! key = Some e ->
  value e = NaNText ->
  exists ex, fetch_task c key w = (tick w, Throw ex).
Proof.
  intros Hk Hv.
  unfold fetch_task, get_json, get, mbind, M_bind, kv_get. simpl.
  rewrite Hk. destruct (live _ e); simpl; [rewrite Hv|]; eauto.
Qed.

Lemma fetch_all_nan (c : Context) (keys : list string) (w : world)
    (key : string) (e : kv_entry) :
  key ∈ keys ->
  tasks_kv (env w) !! key = Some e ->
  value e = NaNText ->
  exists ex, (Promise_all_map (fetch_task c) keys w).2 = Throw ex.
Proof.
  intros Hin. revert w. induction keys as [|k keys IH]; intros w Hk Hv.
  - by apply elem_of_nil in Hin.
  - simpl. unfold mbind, M_bind.
    pose proof (fetch_task_step c k w) as Hstep.
    destruct (fetch_task c k w) as [w1 [o|ex]] eqn:Hfetch; simpl in Hstep;
      subst w1; [|by exists ex].
    apply elem_of_cons in Hin as [->|Hin].
    + destruct (fetch_task_nan c k w e Hk Hv) as [ex Hex]. congruence.
    + destruct (IH Hin (tick w) Hk Hv) as [ex Hex].
      destruct (Promise_all_map (fetch_task c) keys (tick w))
        as [w2 [page|ex']]; simpl in *; [discriminate | by exists ex'].
Qed.

(** X15.  If one of the keys the store lists for [GET /api/v1/tasks] holds
    the text [NaN] -- which the rate limiter writes in the task namespace
    when a counter does not read as a number -- the listing is answered
    500 by the error handler, whatever else the page holds. *)
Theorem get_tasks_fails_on_nan_counter (c : Context) (w : world)
    (keys : list string) (key : string) (e : kv_entry) :
  list_keys TASKS (page_options c) w = (tick w, Ok keys) ->
  key ∈ keys ->
  tasks_kv (env w) !! key = Some e ->
  value e = NaNText ->
  let out := handle (get_tasks c) w in
  status out.2 = 500
  /\ res_body out.2 = Json (JObj [("error", JStr "Internal Server Error")])
  /\ env out.1 = env w.
Proof.
  intros Hkeys Hin Hk Hv out. subst out.
  destruct (fetch_all_nan c keys (tick w) key e Hin Hk Hv) as [ex Hex].
  destruct (fetch_all_step c keys (tick w)) as (Henv & _ & _).
  unfold handle, get_tasks, fetch_page, mbind, M_bind. rewrite Hkeys.
  destruct (Promise_all_map (fetch_task c) keys (tick w)) as [w2 [page|ex']];
    simpl in *; [discriminate|]. done.
Qed.

Lemma get_tasks_fails_on_nan_counter_witness :
  let c := request tasks_url tasks_path [] (Some "198.51.100.9") JNull in
  let out := handle (get_tasks c) nan_counter_world in
  status out.2 = 500
  /\ res_body out.2 = Json (JObj [("error", JStr "Internal Server Error")])
  /\ env out.1 = env nan_counter_world.
Proof.
  apply (get_tasks_fails_on_nan_counter
           (request tasks_url tasks_path [] (Some "198.51.100.9") JNull)
           nan_counter_world ["rate_limit:203.0.113.7"]
           "rate_limit:203.0.113.7"
           {| value := NaNText; expiration := Some (1700000000006 + 60000);
              metadata := None |});
    [reflexivity | left | reflexivity | reflexivity].
Defined.

(** The same through the application: once a client has overwritten its
    counter and sent one more request, the listing fails for the next
    client too. *)
Example listing_fails_after_counter_overwrite :
  status
    (api_v1 GET_tasks
       (request tasks_url tasks_path [] (Some "198.51.100.9") JNull)
       nan_counter_world).2
  = 500.
Proof. vm_compute. reflexivity. Qed.

(* ===================================================================== *)
(** ** Comments *)
(* ===================================================================== *)

(** What a body that passes [commentSchema] looks like. *)
Lemma commentSchema_success_shape (b : json) (data : obj) :
  Zod.safeParse commentSchema b = Zod.Success data ->
  exists (o : obj) (t : string),
    b = JObj o
    /\ obj_get "content" o = Some (JStr t)
    /\ (1 <= String.length t <= 500)%nat
    /\ data = [("content", JStr t)].
Proof.
  unfold Zod.safeParse, Zod.object, commentSchema.
  destruct b as [| | | | |o]; try discriminate.
  cbn [Zod.parse_shape fst snd app].
  destruct (Zod.string_ _ _ _) as [o1 i1] eqn:H1. cbn [fst snd].
  destruct (i1 ++ []) eqn:Hall; [|discriminate].
  apply app_eq_nil in Hall as [-> _].
  apply string_bounds_ok in H1 as (t & Ht & Hlen & ->).
  intros [= <-]. exists o, t. split_and!; [done | done | lia | lia | done].
Qed.

(** X16.  [POST /api/v1/tasks/:id/comments] with a body that passes
    [commentSchema], when the task namespace has a live entry under the
    identifier: the answer is 201 with a record of six properties -- the
    generated identifier, the task identifier of the path, the content of
    1 to 500 characters, the two timestamps, both the clock reading after
    the task was read, and the links; it is stored without expiry under
    [taskId:commentId] in the comment namespace, whose other keys, like the
    whole task namespace, are left as they were. *)
Theorem create_comment_stores (c : Context) (taskId : string) (w : world)
    (x : text) (data : obj) :
  kv_get (tasks_kv (env w)) (clock w (S (io w))) taskId = Some x ->
  Zod.safeParse commentSchema (req_json c) = Zod.Success data ->
  let commentId := nanoid_source w (drawn w) in
  let out := handle (dispatch (POST_comments taskId) c) w in
  exists (comment : obj) (t : string),
    out.2 = c_json (JObj comment) 201
    /\ comment
       = [("id", JStr commentId); ("taskId", JStr taskId);
          ("content", JStr t);
          ("createdAt", JNum (clock w (S (io w))));
          ("updatedAt", JNum (clock w (S (io w))));
          ("links",
            JObj [("self", JStr (req_url c +:+ "/" +:+ commentId));
                  ("task", JStr (remove_first "/comments" (req_url c)))])]
    /\ prop "content" (req_json c) = Some (JStr t)
    /\ (1 <= String.length t <= 500)%nat
    /\ comments_kv (env out.1)
       = <[taskId +:+ ":" +:+ commentId := stored (JObj comment)]>
           (comments_kv (env w))
    /\ tasks_kv (env out.1) = tasks_kv (env w).
Proof.
  intros Hparent Hvalid commentId out. subst out.
  destruct (commentSchema_success_shape _ _ Hvalid)
    as (o & t & Hbody & Hcontent & Hlen & ->).
  unfold handle, dispatch, zValidator. rewrite Hvalid.
  unfold post_comment, get, mbind, M_bind, time. simpl. rewrite Hparent.
  simpl. eexists _, t.
  split_and!; [reflexivity | reflexivity | by rewrite Hbody | lia | lia
              | reflexivity | reflexivity].
Qed.

Lemma create_comment_stores_witness :
  let c := comment_request "a1" (JObj [("content", JStr "Looks good")]) in
  let commentId := "k10" in
  let out := handle (dispatch (POST_comments "a1") c) commented_world in
  exists (comment : obj) (t : string),
    out.2 = c_json (JObj comment) 201
    /\ comment
       = [("id", JStr commentId); ("taskId", JStr "a1");
          ("content", JStr t);
          ("createdAt", JNum 3001); ("updatedAt", JNum 3001);
          ("links",
            JObj [("self", JStr (req_url c +:+ "/" +:+ commentId));
                  ("task", JStr (remove_first "/comments" (req_url c)))])]
    /\ prop "content" (req_json c) = Some (JStr t)
    /\ (1 <= String.length t <= 500)%nat
    /\ comments_kv (env out.1)
       = <["a1" +:+ ":" +:+ commentId := stored (JObj comment)]>
           (comments_kv (env commented_world))
    /\ tasks_kv (env out.1) = tasks_kv (env commented_world).
Proof.
  apply (create_comment_stores
           (comment_request "a1" (JObj [("content", JStr "Looks good")]))
           "a1" commented_world
           (Ser (sample_task "a1" "Buy milk" "done" 1000 2000))
           [("content", JStr "Looks good")]);
    vm_compute; reflexivity.
Defined.

Lemma comment_keys_run (taskId : string) (w : world) :
  comment_keys taskId w
  = (tick w,
     Ok (listed_comment_keys (comments_kv (env w)) (clock w (S (io w)))
           taskId)).
Proof. reflexivity. Qed.

Lemma elem_of_listed_comment_keys (kv : KVNamespace) (now : Z)
    (taskId key : string) :
  key ∈ listed_comment_keys kv now taskId ->
  String.prefix (taskId +:+ ":") key = true
  /\ exists e, kv !! key = Some e /\ live now e = true.
Proof.
  unfold listed_comment_keys. intros Hin.
  apply subseteq_take in Hin.
  apply list_elem_of_filter in Hin as [Hp Hin].
  split; [done|]. by apply elem_of_kv_keys.
Qed.

Lemma fetch_comment_step (c : Context) (key : string) (w : world) :
  (fetch_comment c key w).1 = tick w.
Proof.
  unfold fetch_comment, get_json, get, mbind, M_bind. simpl.
  destruct (kv_get _ _ _) as [[[| | | | |]| |neg]|]; done.
Qed.

(** Fetching comments changes neither namespace and, when it succeeds,
    gives one record per key: the stored value with its links. *)
Lemma fetch_comments_step (c : Context) (keys : list string) (w : world) :
  let out := Promise_all_map (fetch_comment c) keys w in
  env out.1 = env w
  /\ forall page, out.2 = Ok page ->
       page = map (shown_comment c (comments_kv (env w))) keys.
Proof.
  revert w. induction keys as [|k keys IH]; intros w; simpl.
  - split; [done|]. by intros ? [= <-].
  - unfold mbind, M_bind.
    pose proof (fetch_comment_step c k w) as Hstep.
    destruct (fetch_comment c k w) as [w1 [o|ex]] eqn:Hfetch;
      simpl in Hstep; subst w1; [|by split].
    destruct (IH (tick w)) as (Henv & Hpage).
    destruct (Promise_all_map (fetch_comment c) keys (tick w))
      as [w2 [page|ex]]; simpl in *; [|by split].
    split; [done|]. intros ? [= <-]. rewrite (Hpage page eq_refl). f_equal.
    revert Hfetch.
    unfold fetch_comment, get_json, get, mbind, M_bind, kv_get, shown_comment.
    simpl. destruct (comments_kv (env w) !! k) as [e|]; [|discriminate].
    destruct (live _ e); [|discriminate]. simpl.
    destruct (value e) as [[| | | | |]| |neg]; simpl; try discriminate;
      by intros [= <-].
Qed.

(** X17.  [GET /api/v1/tasks/:id/comments] only reads.  When it answers,
    the keys it read are live keys of the comment namespace that start
    with the task identifier and a colon, at most 1000 of them; the answer
    is a 200 with one record per key, the stored value with its links, in
    key order, and [metadata.total] is their number. *)
Theorem get_comments_lists_by_prefix (c : Context) (taskId : string)
    (w : world) :
  let out := get_comments c taskId w in
  let keys :=
    listed_comment_keys (comments_kv (env w)) (clock w (S (io w))) taskId in
  env out.1 = env w
  /\ (List.length keys <= 1000)%nat
  /\ Forall (fun k => String.prefix (taskId +:+ ":") k = true
                      /\ is_Some (comments_kv (env w) !! k)) keys
  /\ forall r, out.2 = Ok r ->
       exists b,
         status r = 200
         /\ res_body r = Json b
         /\ prop "comments" b
            = Some (JArr (map JObj
                 (map (shown_comment c (comments_kv (env w))) keys)))
         /\ (prop "metadata" b ≫= prop "total")
            = Some (JNum (Z.of_nat (List.length keys))).
Proof.
  intros out keys. subst out.
  assert (Hkeys : (List.length keys <= 1000)%nat
    /\ Forall (fun k => String.prefix (taskId +:+ ":") k = true
                        /\ is_Some (comments_kv (env w) !! k)) keys).
  { split.
    - unfold keys, listed_comment_keys. rewrite length_take. lia.
    - apply Forall_forall. intros k Hk.
      apply elem_of_listed_comment_keys in Hk as (Hp & e & He & _). eauto. }
  destruct Hkeys as [Hlen Hall].
  unfold get_comments, mbind, M_bind. rewrite comment_keys_run. fold keys.
  destruct (fetch_comments_step c keys (tick w)) as (Henv & Hpage).
  destruct (Promise_all_map (fetch_comment c) keys (tick w))
    as [w2 [page|ex]]; simpl in *; [|by split_and!].
  split_and!; [done | done | done |]. intros r [= <-].
  rewrite (Hpage page eq_refl). eexists.
  split_and!; [reflexivity | reflexivity | reflexivity |].
  simpl. by rewrite !length_map.
Qed.

Lemma get_comments_lists_by_prefix_witness :
  let c := comment_request "a1" JNull in
  let out := get_comments c "a1" commented_world in
  let keys := ["a1:k1"; "a1:k2"] in
  env out.1 = env commented_world
  /\ (List.length keys <= 1000)%nat
  /\ Forall (fun k => String.prefix ("a1" +:+ ":") k = true
                      /\ is_Some (comments_kv (env commented_world) !! k))
       keys
  /\ forall r, out.2 = Ok r ->
       exists b,
         status r = 200
         /\ res_body r = Json b
         /\ prop "comments" b
            = Some (JArr (map JObj
                 (map (shown_comment c (comments_kv (env commented_world)))
                    keys)))
         /\ (prop "metadata" b ≫= prop "total")
            = Some (JNum (Z.of_nat (List.length keys))).
Proof.
  exact (get_comments_lists_by_prefix (comment_request "a1" JNull) "a1"
           commented_world).
Defined.

(** The listing of the first task's comments leaves the second task's
    comment out. *)
Example comment_listing_of_a1 :
  exists b,
    res_body (handle (get_comments (comment_request "a1" JNull) "a1")
                commented_world).2 = Json b
    /\ (prop "metadata" b ≫= prop "total") = Some (JNum 2).
Proof. eexists. split; vm_compute; reflexivity. Qed.

Lemma prefix_append (p s : string) : String.prefix p (p +:+ s) = true.
Proof.
  induction p as [|a p IH]; simpl; [by destruct s|].
  destruct (Ascii.ascii_dec a a); [done | congruence].
Qed.

Lemma prefix_append_2 (p q s : string) :
  String.prefix (p +:+ q) (p +:+ q +:+ s) = true.
Proof.
  induction p as [|a p IH].
  - change (String.prefix q (q +:+ s) = true). apply prefix_append.
  - change (String.prefix (String a (p +:+ q)) (String a (p +:+ q +:+ s))
            = true).
    simpl. destruct (Ascii.ascii_dec a a); [done | congruence].
Qed.

Lemma kv_keys_length (kv : KVNamespace) (now : Z) :
  (List.length (kv_keys kv now) <= size kv)%nat.
Proof.
  unfold kv_keys. rewrite merge_sort_Permutation.
  rewrite length_map, <- length_map_to_list. apply length_filter.
Qed.

(** The comment creation handler on parsed data, step by step. *)
Lemma post_comment_run (c : Context) (taskId : string) (w : world)
    (x : text) (t : string) :
  kv_get (tasks_kv (env w)) (clock w (S (io w))) taskId = Some x ->
  let commentId := nanoid_source w (drawn w) in
  let comment :=
    [("id", JStr commentId); ("taskId", JStr taskId); ("content", JStr t);
     ("createdAt", JNum (clock w (S (io w))));
     ("updatedAt", JNum (clock w (S (io w))));
     ("links",
       JObj [("self", JStr (req_url c +:+ "/" +:+ commentId));
             ("task", JStr (remove_first "/comments" (req_url c)))])] in
  post_comment c taskId [("content", JStr t)] w
  = ({| env :=
          {| tasks_kv := tasks_kv (env w);
             comments_kv :=
               <[taskId +:+ ":" +:+ commentId := stored (JObj comment)]>
                 (comments_kv (env w)) |};
        io := S (S (io w));
        clock := clock w;
        drawn := S (drawn w);
        nanoid_source := nanoid_source w;
        resume := resume w |},
     Ok (c_json (JObj comment) 201)).
Proof.
  intros Hparent. unfold post_comment, get, mbind, M_bind, time. simpl.
  by rewrite Hparent.
Qed.

(** Fetching comments succeeds when every key holds a serialised value
    other than [null] that does not expire. *)
Lemma fetch_comments_ok (c : Context) (keys : list string) (w : world) :
  (forall k, k ∈ keys ->
     exists e v, comments_kv (env w) !! k = Some e /\ value e = Ser v
       /\ v <> JNull /\ expiration e = None) ->
  exists page, (Promise_all_map (fetch_comment c) keys w).2 = Ok page.
Proof.
  revert w. induction keys as [|k keys IH]; intros w Hall; simpl.
  - by exists [].
  - destruct (Hall k) as (e & v & Hk & Hv & Hnull & He); [left|].
    unfold mbind, M_bind.
    assert (Hfetch : fetch_comment c k w = (tick w, Ok (shown_value c v))).
    { unfold fetch_comment, get_json, get, mbind, M_bind, kv_get, live.
      simpl. rewrite Hk, He. simpl. rewrite Hv. by destruct v. }
    rewrite Hfetch.
    destruct (IH (tick w)) as [page Hpage].
    { intros k' Hk'. apply Hall. by right. }
    destruct (Promise_all_map (fetch_comment c) keys (tick w))
      as [w2 [page'|ex]]; simpl in *; [|discriminate].
    by eexists.
Qed.

(** X18.  Round trip for comments: when the comment namespace holds fewer
    than 1000 entries, all of them serialised values other than [null]
    that do not expire -- the program itself stores nothing but objects
    there -- a comment created by [POST /api/v1/tasks/:id/comments] is in
    the answer of the next [GET /api/v1/tasks/:id/comments] for the same
    task, with the same value for every property but [links]. *)
Theorem create_comment_then_list (c c' : Context) (taskId : string)
    (w : world) (x : text) (data : obj) :
  kv_get (tasks_kv (env w)) (clock w (S (io w))) taskId = Some x ->
  Zod.safeParse commentSchema (req_json c) = Zod.Success data ->
  (forall k e, comments_kv (env w) !! k = Some e ->
     (exists v, value e = Ser v /\ v <> JNull) /\ expiration e = None) ->
  (size (comments_kv (env w)) < 1000)%nat ->
  let created := handle (dispatch (POST_comments taskId) c) w in
  let listing := handle (get_comments c' taskId) created.1 in
  exists (comment shown : obj) (all : list obj) (b : json),
    created.2 = c_json (JObj comment) 201
    /\ status listing.2 = 200
    /\ res_body listing.2 = Json b
    /\ prop "comments" b = Some (JArr (map JObj all))
    /\ shown ∈ all
    /\ forall k, k <> "links" -> obj_get k shown = obj_get k comment.
Proof.
  intros Hparent Hvalid Hstore Hsize created listing. subst listing created.
  destruct (commentSchema_success_shape _ _ Hvalid)
    as (o & t & _ & _ & _ & ->).
  unfold handle, dispatch, zValidator. rewrite Hvalid.
  rewrite (post_comment_run c taskId w x t Hparent). cbn [fst snd].
  set (commentId := nanoid_source w (drawn w)).
  set (comment := [("id", JStr commentId); _; _; _; _; _]).
  set (key := taskId +:+ ":" +:+ commentId).
  set (kv1 := <[key := stored (JObj comment)]> (comments_kv (env w))).
  set (w1 := {| env := _; io := _; clock := _; drawn := _;
                nanoid_source := _; resume := _ |}).
  assert (Hstore1 : forall k e, kv1 !! k = Some e ->
            (exists v, value e = Ser v /\ v <> JNull) /\ expiration e = None).
  { intros k e. unfold kv1. rewrite lookup_insert.
    case_decide; [|apply Hstore]. intros [= <-]. split; [by eexists | done]. }
  set (keys := listed_comment_keys kv1 (clock w1 (S (io w1))) taskId).
  assert (Hkey : key ∈ keys).
  { unfold keys, listed_comment_keys. rewrite take_ge.
    - apply list_elem_of_filter. split; [apply prefix_append_2|].
      apply elem_of_kv_keys. exists (stored (JObj comment)).
      split; [apply lookup_insert_eq | done].
    - etrans; [apply length_filter|]. etrans; [apply kv_keys_length|].
      unfold kv1. pose proof (map_size_insert key (stored (JObj comment))
                                (comments_kv (env w))) as Hins.
      destruct (comments_kv (env w) !! key); unfold id in Hins; lia. }
  destruct (fetch_comments_ok c' keys (tick w1)) as [page Hpage].
  { intros k Hk. apply elem_of_listed_comment_keys in Hk
      as (_ & e & He & _).
    destruct (Hstore1 k e He) as [(v & Hv & Hnull) Hexp]. by exists e, v. }
  destruct (fetch_comments_step c' keys (tick w1)) as (_ & Hshape).
  specialize (Hshape page Hpage).
  unfold get_comments, mbind, M_bind.
  rewrite comment_keys_run.
  change (listed_comment_keys (comments_kv (env w1)) (clock w1 (S (io w1)))
            taskId) with keys.
  destruct (Promise_all_map (fetch_comment c') keys (tick w1))
    as [w2 [page'|ex]]; simpl in Hpage; [|discriminate].
  injection Hpage as ->. cbn [fst snd].
  exists comment, (shown_comment c' kv1 key), page. eexists.
  split_and!; [reflexivity | reflexivity | reflexivity | reflexivity | |].
  - rewrite Hshape. change (map ?f keys) with (f <$> keys).
    by apply list_elem_of_fmap_2.
  - intros k Hne. unfold shown_comment, kv1. rewrite lookup_insert_eq.
    unfold stored, shown_value. cbn [value spread].
    rewrite obj_get_with_links.
    + by destruct (String.eqb_spec k "links").
    + apply (bool_decide_unpack _). by vm_compute.
Qed.

Lemma create_comment_then_list_witness :
  let c := comment_request "a1" (JObj [("content", JStr "Looks good")]) in
  let c' := comment_request "a1" JNull in
  let created := handle (dispatch (POST_comments "a1") c) commented_world in
  let listing := handle (get_comments c' "a1") created.1 in
  exists (comment shown : obj) (all : list obj) (b : json),
    created.2 = c_json (JObj comment) 201
    /\ status listing.2 = 200
    /\ res_body listing.2 = Json b
    /\ prop "comments" b = Some (JArr (map JObj all))
    /\ shown ∈ all
    /\ forall k, k <> "links" -> obj_get k shown = obj_get k comment.
Proof.
  apply (create_comment_then_list
           (comment_request "a1" (JObj [("content", JStr "Looks good")]))
           (comment_request "a1" JNull) "a1" commented_world
           (Ser (sample_task "a1" "Buy milk" "done" 1000 2000))
           [("content", JStr "Looks good")]).
  - reflexivity.
  - reflexivity.
  - intros k e. unfold commented_world. cbn [env comments_kv].
    rewrite !lookup_insert.
    repeat case_decide;
      try (intros [= <-]; split; [by eexists | reflexivity]).
    rewrite lookup_empty. discriminate.
  - apply (bool_decide_unpack _). vm_compute. exact I.
Defined.

(** Deleting a task leaves its comments listed. *)
Example comments_survive_task_deletion :
  let gone :=
    (handle (delete_task (request (tasks_url +:+ "/a1") tasks_path []
                            (Some "203.0.113.7") JNull) "a1")
       commented_world).1 in
  exists b,
    res_body (handle (get_comments (comment_request "a1" JNull) "a1") gone).2
    = Json b
    /\ (prop "metadata" b ≫= prop "total") = Some (JNum 2).
Proof. eexists. split; vm_compute; reflexivity. Qed.

(** What [c.req.valid('json')] holds after validation against the partial
    form of a schema with distinct keys: distinct keys, all among those of
    the schema, and none that the body does not set. *)
Lemma partial_shape_fields (sh : Zod.shape) (b : json) (fields : obj) :
  NoDup (map fst sh) ->
  Zod.safeParse (Zod.partial sh) b = Zod.Success fields ->
  NoDup (map fst fields)
  /\ (forall k, obj_get k fields <> None -> k ∈ map fst sh)
  /\ (forall k, prop k b = None -> obj_get k fields = None).
Proof.
  intros Hsh. unfold Zod.safeParse, Zod.object.
  destruct b as [| | | | |o]; try discriminate.
  destruct (Zod.parse_shape _ _ _) as [outs issues] eqn:Hparse.
  assert (Hkeys : map fst outs = map fst sh).
  { change outs with (outs, issues).1. rewrite <- Hparse.
    by rewrite parse_shape_keys, partial_keys. }
  cbn [fst snd]. destruct issues; [|discriminate]. intros [= <-].
  split_and!.
  - apply literal_NoDup. constructor.
  - intros k Hk. destruct (decide (k ∈ map fst outs)) as [Hin|Hnin].
    + by rewrite <- Hkeys.
    + by rewrite obj_get_literal_notin in Hk.
  - intros k Habs. simpl in Habs.
    destruct (decide (k ∈ map fst outs)) as [Hin|Hnin].
    + change (map fst outs) with (fst <$> outs) in Hin.
      apply list_elem_of_fmap in Hin as ([k' ov] & -> & Hin).
      rewrite (obj_get_literal_in k' ov); [| by rewrite Hkeys | done].
      apply (parse_partial_absent sh o [] k' ov); [|done].
      by rewrite Hparse.
    + by rewrite obj_get_literal_notin.
Qed.

(** The comment update handler on a live record: what it answers and
    stores. *)
Lemma put_comment_live (c : Context) (taskId commentId : string)
    (fields : obj) (w : world) (e : kv_entry) (old : obj) :
  comments_kv (env w) !! (taskId +:+ ":" +:+ commentId) = Some e ->
  live (clock w (S (io w))) e = true ->
  value e = Ser (JObj old) ->
  let new :=
    literal (obj_assign (obj_assign [] old) fields)
      [("updatedAt", Some (JNum (clock w (S (io w)))));
       ("links",
         Some (JObj
           [("self", JStr (req_url c));
            ("task",
              JStr (remove_first ("/comments/" +:+ commentId)
                      (req_url c)))]))] in
  put_comment c taskId commentId fields w
  = ({| env :=
          {| tasks_kv := tasks_kv (env w);
             comments_kv :=
               <[taskId +:+ ":" +:+ commentId := stored (JObj new)]>
                 (comments_kv (env w)) |};
        io := S (S (io w));
        clock := clock w;
        drawn := drawn w;
        nanoid_source := nanoid_source w;
        resume := resume w |},
     Ok (c_json (JObj new) 200)).
Proof.
  intros Hk Hlive Hv.
  unfold put_comment, get_json, get, mbind, M_bind, kv_get, time. simpl.
  rewrite Hk. simpl. rewrite Hlive, Hv. reflexivity.
Qed.

(** X19.  [PUT /api/v1/tasks/:id/comments/:commentId] on a live comment
    record with a body that passes the partial schema answers 200 and
    stores the merged record under the same composite key, without reading
    the task namespace: [content] takes the validated value when the body
    sets it and keeps the stored one otherwise; every other property but
    [updatedAt] and [links] -- [id], [taskId] and [createdAt] among them --
    keeps its stored value whatever the body holds; [updatedAt] is the
    clock reading taken after the record was read. *)
Theorem update_comment_merge (c : Context) (taskId commentId : string)
    (w : world) (e : kv_entry) (old fields : obj) :
  comments_kv (env w) !! (taskId +:+ ":" +:+ commentId) = Some e ->
  live (clock w (S (io w))) e = true ->
  value e = Ser (JObj old) ->
  NoDup (map fst old) ->
  Zod.safeParse (Zod.partial commentSchema) (req_json c)
  = Zod.Success fields ->
  let out := handle (dispatch_comment (PUT_comment taskId commentId) c) w in
  exists new,
    out.2 = c_json (JObj new) 200
    /\ comments_kv (env out.1)
       = <[taskId +:+ ":" +:+ commentId := stored (JObj new)]>
           (comments_kv (env w))
    /\ tasks_kv (env out.1) = tasks_kv (env w)
    /\ (forall v, obj_get "content" fields = Some v ->
          obj_get "content" new = Some v)
    /\ (prop "content" (req_json c) = None ->
        obj_get "content" new = obj_get "content" old)
    /\ (forall k, k <> "content" -> k <> "updatedAt" -> k <> "links" ->
          obj_get k new = obj_get k old)
    /\ obj_get "updatedAt" new = Some (JNum (clock w (S (io w)))).
Proof.
  intros Hk Hlive Hv Hnd Hvalid out. subst out.
  destruct (partial_shape_fields commentSchema _ _
              ltac:(apply (bool_decide_unpack _); by vm_compute) Hvalid)
    as (Hfnd & Hfkeys & Hfabs).
  unfold handle, dispatch_comment, zValidator. rewrite Hvalid.
  rewrite (put_comment_live c taskId commentId fields w e old Hk Hlive Hv).
  cbv zeta. set (new := literal _ _).
  exists new. split; [reflexivity|]. cbn [fst snd env comments_kv tasks_kv].
  assert (Hmerge : forall k, k <> "updatedAt" -> k <> "links" ->
    obj_get k new
    = match obj_get k fields with
      | Some v => Some v
      | None => obj_get k old
      end).
  { intros k Hu Hl. unfold new, literal. simpl. obj_lookup.
    rewrite obj_get_assign by done. by rewrite obj_get_assign_nil. }
  split_and!.
  - done.
  - done.
  - intros v Hset. by rewrite Hmerge, Hset.
  - intros Habs. by rewrite Hmerge, Hfabs.
  - intros k Hc Hu Hl. rewrite Hmerge by done.
    destruct (obj_get k fields) eqn:Hg; [|done].
    exfalso. assert (Hin : k ∈ map fst commentSchema)
      by (apply Hfkeys; by rewrite Hg).
    simpl in Hin. by apply list_elem_of_singleton in Hin.
  - unfold new, literal. simpl. by obj_lookup.
Qed.

Lemma update_comment_merge_witness :
  let c := request (comments_url "a1" +:+ "/k1")
             (tasks_path +:+ "/a1/comments/k1") [] (Some "203.0.113.7")
             (JObj [("content", JStr "Edited"); ("taskId", JStr "b2")]) in
  let old := sample_comment "a1" "k1" "First" 2100 in
  let out := handle (dispatch_comment (PUT_comment "a1" "k1") c)
               commented_world in
  exists new,
    out.2 = c_json (JObj new) 200
    /\ comments_kv (env out.1)
       = <["a1" +:+ ":" +:+ "k1" := stored (JObj new)]>
           (comments_kv (env commented_world))
    /\ tasks_kv (env out.1) = tasks_kv (env commented_world)
    /\ (forall v, obj_get "content" [("content", JStr "Edited")] = Some v ->
          obj_get "content" new = Some v)
    /\ (prop "content" (req_json c) = None ->
        obj_get "content" new = obj_get "content" old)
    /\ (forall k, k <> "content" -> k <> "updatedAt" -> k <> "links" ->
          obj_get k new = obj_get k old)
    /\ obj_get "updatedAt" new = Some (JNum 3001).
Proof.
  apply (update_comment_merge
           (request (comments_url "a1" +:+ "/k1")
              (tasks_path +:+ "/a1/comments/k1") [] (Some "203.0.113.7")
              (JObj [("content", JStr "Edited"); ("taskId", JStr "b2")]))
           "a1" "k1" commented_world
           (stored (JObj (sample_comment "a1" "k1" "First" 2100)))
           (sample_comment "a1" "k1" "First" 2100)
           [("content", JStr "Edited")]);
    [reflexivity | reflexivity | reflexivity | | reflexivity].
  apply (bool_decide_unpack _). vm_compute. exact I.
Defined.

(** X20.  [DELETE /api/v1/tasks/:id/comments/:commentId] answers 200 with
    its message for every pair of identifiers and removes the composite
    key, touching no other key of the comment namespace and nothing of the
    task namespace; a second delete answers the same and changes nothing
    more; and afterwards the key is not among those the comment listing
    reads, and an update addressed to it is answered 404 without writing,
    whatever its validated body. *)
Theorem delete_comment_removes (c c' : Context) (taskId commentId : string)
    (w : world) :
  let key := taskId +:+ ":" +:+ commentId in
  let once := handle (dispatch_comment (DELETE_comment taskId commentId) c) w in
  let twice :=
    handle (dispatch_comment (DELETE_comment taskId commentId) c') once.1 in
  once.2
  = c_json (JObj [("message", JStr "Comment deleted successfully")]) 200
  /\ twice.2 = once.2
  /\ env twice.1 = env once.1
  /\ comments_kv (env once.1) !! key = None
  /\ (forall k, k <> key ->
        comments_kv (env once.1) !! k = comments_kv (env w) !! k)
  /\ tasks_kv (env once.1) = tasks_kv (env w)
  /\ (forall now, key ∉ listed_comment_keys (comments_kv (env once.1)) now
                          taskId)
  /\ (forall fields,
        handle (put_comment c' taskId commentId fields) once.1
        = (tick once.1, c_notFound)).
Proof.
  simpl. split_and!; try done.
  - unfold kv_delete. by rewrite delete_delete_eq.
  - apply lookup_delete_eq.
  - intros k Hne. unfold kv_delete. by rewrite lookup_delete_ne.
  - intros now Hin. apply elem_of_listed_comment_keys in Hin
      as (_ & e & He & _).
    unfold kv_delete in He. by rewrite lookup_delete_eq in He.
  - intros fields.
    unfold handle, put_comment, get_json, get, mbind, M_bind, kv_get. simpl.
    unfold kv_delete. by rewrite lookup_delete_eq.
Qed.

Lemma delete_then_get_witness :
  let c := request (tasks_url +:+ "/a1") (tasks_path +:+ "/a1") []
             (Some "203.0.113.7") JNull in
  let gone := (handle (delete_task c "a1") commented_world).1 in
  handle (get_task c "a1") gone = (tick gone, c_notFound)
  /\ status c_notFound = 404
  /\ (forall k, k <> "a1" ->
        tasks_kv (env gone) !! k = tasks_kv (env commented_world) !! k)
  /\ comments_kv (env gone) = comments_kv (env commented_world).
Proof.
  exact (delete_then_get
           (request (tasks_url +:+ "/a1") (tasks_path +:+ "/a1") []
              (Some "203.0.113.7") JNull)
           (request (tasks_url +:+ "/a1") (tasks_path +:+ "/a1") []
              (Some "203.0.113.7") JNull)
           "a1" commented_world).
Defined.

(* ===================================================================== *)
(** ** What a route may write *)
(* ===================================================================== *)

Lemma fetch_page_env (c : Context) (w : world) :
  env (fetch_page c w).1 = env w
  /\ clock (fetch_page c w).1 = clock w
  /\ (io w <= io (fetch_page c w).1)%nat.
Proof.
  unfold fetch_page, list_keys, mbind, M_bind.
  destruct (kv_list _ _ _) as [keys|]; [|simpl; split_and!; [done..|lia]].
  destruct (fetch_all_step c keys (tick w)) as (Henv & Hcl & _).
  assert (Hio : forall ks w0,
            (io w0 <= io (Promise_all_map (fetch_task c) ks w0).1)%nat).
  { induction ks as [|k ks IH]; intros w0; simpl; [lia|].
    unfold mbind, M_bind. pose proof (fetch_task_step c k w0) as Hstep.
    destruct (fetch_task c k w0) as [w1 [o|ex]]; simpl in Hstep; subst w1;
      [|simpl; lia].
    specialize (IH (tick w0)).
    destruct (Promise_all_map (fetch_task c) ks (tick w0)) as [w2 [p|ex]];
      simpl in *; lia. }
  specialize (Hio keys (tick w)).
  destruct (Promise_all_map (fetch_task c) keys (tick w)) as [w2 [page|ex]];
    simpl in *; split_and!; try done; lia.
Qed.

(** The frame of a route, key by key. *)
Lemma route_frame_helper (r : route) (c : Context) (w : world)
    (k : string) :
  written_key r w <> Some k ->
  tasks_kv (env (dispatch r c w).1) !! k = tasks_kv (env w) !! k
  /\ clock (dispatch r c w).1 = clock w
  /\ (io w <= io (dispatch r c w).1)%nat.
Proof.
  intros Hk. destruct r as [| |id|id|id|id]; simpl in Hk; unfold dispatch.
  - unfold zValidator. destruct (Zod.safeParse _ _) as [data|issues];
      [|simpl; split_and!; [done | done | lia]].
    unfold post_task, mbind, M_bind, nanoid, Date_now, put. simpl.
    split_and!; [| done | lia].
    unfold kv_put. rewrite lookup_insert_ne; [done | congruence].
  - destruct (fetch_page_env c w) as (Henv & Hcl & Hio).
    unfold get_tasks, mbind, M_bind.
    destruct (fetch_page c w) as [w1 [page|ex]]; simpl in *;
      by rewrite Henv.
  - unfold get_task, get, mbind, M_bind. simpl.
    destruct (kv_get _ _ _) as [[v| |neg]|]; simpl; split_and!; try done; lia.
  - unfold zValidator. destruct (Zod.safeParse _ _) as [fields|issues];
      [|simpl; split_and!; [done | done | lia]].
    unfold put_task, get, mbind, M_bind. simpl.
    destruct (kv_get _ _ _) as [[v| |neg]|]; simpl; split_and!; try done; try lia.
    unfold kv_put. rewrite lookup_insert_ne; [done | congruence].
  - simpl. split_and!; [| done | lia].
    unfold kv_delete. rewrite lookup_delete_ne; [done | congruence].
  - unfold zValidator. destruct (Zod.safeParse _ _) as [data|issues];
      [|simpl; split_and!; [done | done | lia]].
    unfold post_comment, get, mbind, M_bind. simpl.
    destruct (kv_get _ _ _) as [x|]; simpl; split_and!; try done; lia.
Qed.


(** X21.  Each route of the task application, with its validator and
    whatever it answers, changes at most one key of the task namespace --
    the identifier it generates for a creation, the one it is addressed to
    for an update or a delete, none for the reads and for the creation of a
    comment -- and changes nothing of the comment namespace, except that
    the creation of a comment may write the key made of the task and the
    generated comment identifiers. *)
Theorem route_writes_one_key (r : route) (c : Context) (w : world)
    (k k' : string) :
  written_key r w <> Some k ->
  (forall id, r = POST_comments id ->
     k' <> id +:+ ":" +:+ nanoid_source w (drawn w)) ->
  tasks_kv (env (dispatch r c w).1) !! k = tasks_kv (env w) !! k
  /\ comments_kv (env (dispatch r c w).1) !! k'
     = comments_kv (env w) !! k'.
Proof.
  intros Hk Hk'. split; [by apply route_frame_helper|].
  destruct r as [| |id|id|id|id]; unfold dispatch.
  - unfold zValidator. by destruct (Zod.safeParse _ _).
  - destruct (fetch_page_env c w) as (Henv & _ & _).
    unfold get_tasks, mbind, M_bind.
    destruct (fetch_page c w) as [w1 [page|ex]]; simpl in *; by rewrite Henv.
  - unfold get_task, get, mbind, M_bind. simpl.
    by destruct (kv_get _ _ _) as [[v| |neg]|].
  - unfold zValidator. destruct (Zod.safeParse _ _) as [fields|issues];
      [|done].
    unfold put_task, get, mbind, M_bind. simpl.
    by destruct (kv_get _ _ _) as [[v| |neg]|].
  - done.
  - unfold zValidator. destruct (Zod.safeParse _ _) as [data|issues];
      [|done].
    unfold post_comment, get, mbind, M_bind. simpl.
    destruct (kv_get _ _ _) as [x|]; simpl; [|done].
    unfold kv_put. rewrite lookup_insert_ne; [done|].
    intros Heq. by apply (Hk' id eq_refl).
Qed.

Lemma route_writes_one_key_witness :
  tasks_kv (env (dispatch (PUT_task "a1") (update_request "a1")
                   commented_world).1) !! "b2"
  = tasks_kv (env commented_world) !! "b2"
  /\ comments_kv (env (dispatch (PUT_task "a1") (update_request "a1")
                        commented_world).1) !! "a1:k1"
     = comments_kv (env commented_world) !! "a1:k1".
Proof.
  apply (route_writes_one_key (PUT_task "a1") (update_request "a1")
           commented_world "b2" "a1:k1"); discriminate.
Defined.

(** X22.  A request that the limiter lets through is counted whatever the
    route then answers -- a 400 of the validator, a 404, a 500 included:
    when the counter reads [n < 100] and the route does not write the
    counter's key, the answer is the route's and afterwards the counter
    reads [n + 1] until 60 seconds after the limiter's write. *)
Theorem passed_request_is_counted (r : route) (c : Context) (w : world)
    (n : Z) :
  current_count c w = Fin n ->
  n < 100 ->
  written_key r (counted c w) <> Some (rateLimitKey c) ->
  let out := api_v1 r c w in
  out = handle (dispatch r c) (counted c w)
  /\ forall t, t < clock w (S (S (io w))) + 60000 ->
       count_at (tasks_kv (env out.1)) t (rateLimitKey c) = Fin (n + 1).
Proof.
  intros Hc Hn Hk out.
  assert (Hout : out = handle (dispatch r c) (counted c w)).
  { unfold out, api_v1, handle. rewrite rateLimiter_unfold, Hc.
    unfold num_ge, limit.
    by replace (100 <=? n) with false by (symmetry; apply Z.leb_gt; lia). }
  split; [done|]. intros t Ht. rewrite Hout.
  destruct (route_frame_helper r c (counted c w) (rateLimitKey c) Hk)
    as (Hkeep & _ & _).
  assert (Henv : tasks_kv (env (handle (dispatch r c) (counted c w)).1)
                   !! rateLimitKey c
                 = tasks_kv (env (counted c w)) !! rateLimitKey c).
  { unfold handle. by destruct (dispatch r c (counted c w)) as [w1 [?|?]]. }
  rewrite (count_at_lookup _ _ _ _ Henv). by apply count_at_counted.
Qed.

Lemma passed_request_is_counted_witness :
  let out := api_v1 POST_tasks empty_title_request fresh_world in
  out = handle (dispatch POST_tasks empty_title_request)
          (counted empty_title_request fresh_world)
  /\ forall t, t < clock fresh_world 2 + 60000 ->
       count_at (tasks_kv (env out.1)) t (rateLimitKey empty_title_request)
       = Fin (0 + 1).
Proof.
  apply (passed_request_is_counted POST_tasks empty_title_request
           fresh_world 0); [reflexivity | lia |].
  vm_compute. discriminate.
Defined.

Lemma delete_comment_removes_witness :
  let c := request (comments_url "a1" +:+ "/k1")
             (tasks_path +:+ "/a1/comments/k1") [] (Some "203.0.113.7")
             JNull in
  let key := "a1" +:+ ":" +:+ "k1" in
  let once := handle (dispatch_comment (DELETE_comment "a1" "k1") c)
                commented_world in
  let twice :=
    handle (dispatch_comment (DELETE_comment "a1" "k1") c) once.1 in
  once.2
  = c_json (JObj [("message", JStr "Comment deleted successfully")]) 200
  /\ twice.2 = once.2
  /\ env twice.1 = env once.1
  /\ comments_kv (env once.1) !! key = None
  /\ (forall k, k <> key ->
        comments_kv (env once.1) !! k
        = comments_kv (env commented_world) !! k)
  /\ tasks_kv (env once.1) = tasks_kv (env commented_world)
  /\ (forall now, key ∉ listed_comment_keys (comments_kv (env once.1)) now
                          "a1")
  /\ (forall fields,
        handle (put_comment c "a1" "k1" fields) once.1
        = (tick once.1, c_notFound)).
Proof.
  exact (delete_comment_removes
           (request (comments_url "a1" +:+ "/k1")
              (tasks_path +:+ "/a1/comments/k1") [] (Some "203.0.113.7")
              JNull)
           (request (comments_url "a1" +:+ "/k1")
              (tasks_path +:+ "/a1/comments/k1") [] (Some "203.0.113.7")
              JNull)
           "a1" "k1" commented_world).
Defined.

(* ===================================================================== *)
(** ** Numbers written as text and read back *)
(* ===================================================================== *)

Section NumberText.

(** The string of the decimal digits [ds], most significant first,
    followed by [s]. *)
Local Abbreviation digit_string ds s :=
  (foldr (fun d r => String (pretty_N_char d) r) s ds).








End NumberText.



(** Beyond 2^53 the links do not lead where they say.  A [page] of 2^53
    has a [next] link to the same page, since 2^53 + 1 is not a double; and
    a [page] of 10^21 has a [next] link whose page text is in exponent
    form, which [parseInt] reads as 1. *)
Example listing_links_beyond_safe_integers :
  let next pg :=
    match res_body
            (handle (get_tasks (request tasks_url tasks_path
                                  [("page", pg); ("limit", "0")]
                                  (Some "203.0.113.7") JNull))
               two_tasks_world).2 with
    | Json b => prop "links" b ≫= prop "next"
    | Text _ => None
    end in
  next "9007199254740992"
  = Some (JStr (tasks_url +:+ "?page=9007199254740992&limit=0"))
  /\ next "1000000000000000000000"
     = Some (JStr (tasks_url +:+ "?page=1e+21&limit=0"))
  /\ parseInt "1e+21" = Fin 1.
Proof. vm_compute. done. Qed.
